(** * DreamZero: the dream signal extraction and aggregation engine

    A shallow embedding of the analysis code of the dream journal
    ([nlp_analyzer.py], [predictor.py], [config.py], [models.py] and the
    recommendation rules of [app.py]) together with the properties of its
    specification.

    Conventions of the embedding.
    - Python [float] and [int] values are exact rationals ([Q]): the
      arithmetic of the source is modelled without binary rounding error.
      [round(x, n)] is round-half-to-even on the exact value.  A run in
      binary floating point can differ from this where a quotient lies
      exactly on a rounding tie or on the threshold of a comparison: there
      it may round to the other neighbour or take the other branch.  The
      properties about rounded values are therefore stated with a
      tolerance ([Spec.rounded_to_3_decimals]) and those about thresholds
      with a margin, so that they hold of such a run as well.
    - A Python [str] is a [string] whose characters are the code points
      0 to 255.
    - A Python [dict] is an association list in insertion order, which is
      the iteration order of the source.
    - A function that can raise returns a [result]; [None] is the [None] of
      an [option].
    - The linguistic pipeline (spaCy), the two polarity scorers (VADER and
      TextBlob) and the regression model (scikit-learn) are external: they
      are variables of the sections that use them. *)

From Stdlib Require Import ZArith QArith Qround Qabs List String Ascii Bool.
From Stdlib Require Import Arith Lia Lqa DecimalString Sorted Permutation.
Import ListNotations.

Close Scope Q_scope.
Local Open Scope nat_scope.
Local Open Scope string_scope.
Local Open Scope list_scope.

(* ================================================================== *)
(** * Python values and built-ins                                      *)
(* ================================================================== *)

Module Py.

(** The exceptions the modelled code can raise. *)
Inductive exn : Type :=
| TypeError
| ZeroDivisionError
| ValueError
| IndexError.

(** The outcome of a call: a returned value or a raised exception. *)
Inductive result (A : Type) : Type :=
| Ok (a : A)
| Err (e : exn).

Arguments Ok {A} a.
Arguments Err {A} e.

Definition bind {A B : Type} (m : result A) (k : A -> result B) : result B :=
  match m with
  | Ok a => k a
  | Err e => Err e
  end.

Declare Scope py_scope.
Delimit Scope py_scope with py.

Notation "x <- m ;; k" := (bind m (fun x => k))
  (at level 61, m at next level, right associativity) : py_scope.

(** [try: m  except Exception: h]. *)
Definition try_except {A : Type} (m : result A) (h : exn -> result A) : result A :=
  match m with
  | Ok a => Ok a
  | Err e => h e
  end.

(** A [for] loop whose body can raise, threading the loop state. *)
Fixpoint for_each {A S : Type} (body : S -> A -> result S) (xs : list A) (s : S)
  : result S :=
  match xs with
  | [] => Ok s
  | x :: rest => bind (body s x) (for_each body rest)
  end.

(** ** Numbers *)

Definition of_nat (n : nat) : Q := inject_Z (Z.of_nat n).

(** [a / b] on numbers. *)
Definition div (a b : Q) : result Q :=
  if Qeq_bool b 0%Q then Err ZeroDivisionError else Ok (a / b)%Q.

Definition ltb (a b : Q) : bool := negb (Qle_bool b a).
Definition gtb (a b : Q) : bool := ltb b a.

(** [min(a, b)] and [max(a, b)]: the first argument unless the second is
    strictly better. *)
Definition min (a b : Q) : Q := if ltb b a then b else a.
Definition max (a b : Q) : Q := if gtb b a then b else a.

(** [sum(xs)] over numbers. *)
Definition sum (xs : list Q) : Q := fold_left Qplus xs 0%Q.

(** [sum(xs)] over values that may be [None]: adding [None] to a number is
    a [TypeError]. *)
Definition sum_opt (xs : list (option Q)) : result Q :=
  for_each (fun acc x =>
              match x with
              | Some q => Ok (acc + q)%Q
              | None => Err TypeError
              end) xs 0%Q.

(** Truth value of an optional number: [None] and zero are false. *)
Definition truthy (x : option Q) : bool :=
  match x with
  | Some q => negb (Qeq_bool q 0%Q)
  | None => false
  end.

Definition is_not_none {A : Type} (x : option A) : bool :=
  match x with
  | Some _ => true
  | None => false
  end.

(** The optional values that are present, in order. *)
Definition present {A : Type} (xs : list (option A)) : list A :=
  flat_map (fun x => match x with Some a => [a] | None => [] end) xs.

(** Round half to even, to an integer. *)
Definition round_half_even (x : Q) : Z :=
  let f := Qfloor x in
  match Qcompare (x - inject_Z f)%Q (1 # 2)%Q with
  | Lt => f
  | Gt => (f + 1)%Z
  | Eq => if Z.even f then f else (f + 1)%Z
  end.

(** [round(x, ndigits)]. *)
Definition round (x : Q) (ndigits : nat) : Q :=
  let scale := Z.pow 10 (Z.of_nat ndigits) in
  (inject_Z (round_half_even (x * inject_Z scale)%Q) / inject_Z scale)%Q.

(** ** Sequences *)

(** [xs[i]] for a non-negative index. *)
Definition getitem {A : Type} (xs : list A) (i : nat) : result A :=
  match nth_error xs i with
  | Some x => Ok x
  | None => Err IndexError
  end.

(** [xs[-1]]. *)
Definition getlast {A : Type} (xs : list A) : result A :=
  match rev xs with
  | x :: _ => Ok x
  | [] => Err IndexError
  end.

(** [xs[-n:]]. *)
Definition last_n {A : Type} (n : nat) (xs : list A) : list A :=
  skipn (List.length xs - n) xs.

(** [range(a, b)]. *)
Definition range (a b : Z) : list Z :=
  map (fun i => (a + Z.of_nat i)%Z) (seq 0 (Z.to_nat (b - a))).

(** [sorted(xs, key=key)]: a stable sort, here by insertion.  An element
    goes before the first one whose key is not smaller, so elements of
    equal key keep their order. *)
Section Sorted.
Context {A : Type} (key : A -> Z).

Fixpoint insert (x : A) (xs : list A) : list A :=
  match xs with
  | [] => [x]
  | y :: rest =>
      if (key y <? key x)%Z then y :: insert x rest
      else x :: y :: rest
  end.

Definition sorted (xs : list A) : list A := fold_right insert [] xs.
End Sorted.

(** [list(set(xs))]: the distinct elements.  Python leaves the order of a
    set unspecified; the model lists them by first occurrence. *)
Fixpoint distinct (xs : list string) : list string :=
  match xs with
  | [] => []
  | x :: rest =>
      x :: filter (fun y => negb (String.eqb x y)) (distinct rest)
  end.

(** ** Strings *)

Definition code (c : ascii) : nat := nat_of_ascii c.

(** [c.isspace()] on the code points below 256. *)
Definition isspace (c : ascii) : bool :=
  let n := code c in
  (((9 <=? n) && (n <=? 13)) || ((28 <=? n) && (n <=? 32))
   || (n =? 133) || (n =? 160))%nat.

(** [c.lower()] on the code points below 256. *)
Definition lower_char (c : ascii) : ascii :=
  let n := code c in
  if (((65 <=? n) && (n <=? 90))
      || ((192 <=? n) && (n <=? 222) && negb (n =? 215)))%nat
  then ascii_of_nat (n + 32) else c.

Fixpoint lower (s : string) : string :=
  match s with
  | EmptyString => EmptyString
  | String c rest => String (lower_char c) (lower rest)
  end.

Fixpoint lstrip (s : string) : string :=
  match s with
  | EmptyString => EmptyString
  | String c rest => if isspace c then lstrip rest else s
  end.

Fixpoint rstrip (s : string) : string :=
  match s with
  | EmptyString => EmptyString
  | String c rest =>
      match rstrip rest with
      | EmptyString => if isspace c then EmptyString else String c EmptyString
      | r => String c r
      end
  end.

(** [s.strip()]. *)
Definition strip (s : string) : string := rstrip (lstrip s).

(** Truth value of a string: empty is false. *)
Definition nonempty (s : string) : bool :=
  match s with
  | EmptyString => false
  | String _ _ => true
  end.

(** [sub in s]: [sub] occurs in [s] as a contiguous substring. *)
Fixpoint contains (s sub : string) : bool :=
  String.prefix sub s
  || match s with
     | EmptyString => false
     | String _ rest => contains rest sub
     end.

(** [s.count(c)] for a single character. *)
Fixpoint count (c : ascii) (s : string) : nat :=
  match s with
  | EmptyString => 0
  | String d rest => (if Ascii.eqb c d then 1 else 0) + count c rest
  end.

(** [len(s.split())]: the number of maximal runs of non-space characters. *)
Fixpoint split_count_from (in_word : bool) (s : string) : nat :=
  match s with
  | EmptyString => 0
  | String c rest =>
      if isspace c then split_count_from false rest
      else (if in_word then 0 else 1) + split_count_from true rest
  end.

Definition split_count (s : string) : nat := split_count_from false s.

(** [sep.join(parts)]. *)
Fixpoint join (sep : string) (parts : list string) : string :=
  match parts with
  | [] => ""
  | [p] => p
  | p :: rest => (p ++ sep ++ join sep rest)%string
  end.

(** ** Dictionaries with string keys *)

Definition dict (V : Type) : Type := list (string * V).

Fixpoint dict_get {V : Type} (d : dict V) (k : string) : option V :=
  match d with
  | [] => None
  | (k', v) :: rest => if String.eqb k k' then Some v else dict_get rest k
  end.

(** [d[k] = v]: an existing key keeps its position, a new key goes last. *)
Fixpoint dict_set {V : Type} (d : dict V) (k : string) (v : V) : dict V :=
  match d with
  | [] => [(k, v)]
  | (k', v') :: rest =>
      if String.eqb k k' then (k', v) :: rest else (k', v') :: dict_set rest k v
  end.

Definition keys {V : Type} (d : dict V) : list string := map fst d.
Definition values {V : Type} (d : dict V) : list V := map snd d.

(** [{k: f(k, v) for k, v in d.items()}]. *)
Definition dict_comp {V W : Type} (f : string -> V -> W) (d : dict V) : dict W :=
  fold_left (fun acc kv => dict_set acc (fst kv) (f (fst kv) (snd kv))) d [].

(** [s.split(sep)] for a separator of one character. *)
Fixpoint split_on (sep : ascii) (s : string) : list string :=
  match s with
  | EmptyString => [EmptyString]
  | String c rest =>
      if Ascii.eqb c sep then EmptyString :: split_on sep rest
      else match split_on sep rest with
           | [] => [String c EmptyString]
           | part :: parts => String c part :: parts
           end
  end.

(** [max(items, key=lambda x: x[1])] and [min(items, key=lambda x: x[1])]
    on a non-empty sequence of pairs: the first pair of greatest (least)
    second component. *)
Definition max_by_value {K : Type} (first : K * Q) (rest : list (K * Q)) : K * Q :=
  fold_left (fun best kv => if gtb (snd kv) (snd best) then kv else best) rest first.

Definition min_by_value {K : Type} (first : K * Q) (rest : list (K * Q)) : K * Q :=
  fold_left (fun best kv => if ltb (snd kv) (snd best) then kv else best) rest first.

(** ** Dictionaries with other keys *)

(** A dictionary whose keys are compared by [eqb], in insertion order. *)
Section Assoc.
Context {K : Type} (eqb : K -> K -> bool).

Fixpoint assoc_get {V : Type} (d : list (K * V)) (k : K) : option V :=
  match d with
  | [] => None
  | (k', v) :: rest => if eqb k k' then Some v else assoc_get rest k
  end.

(** [d[k] = v]: an existing key keeps its position, a new key goes last. *)
Fixpoint assoc_set {V : Type} (d : list (K * V)) (k : K) (v : V) : list (K * V) :=
  match d with
  | [] => [(k, v)]
  | (k', v') :: rest =>
      if eqb k k' then (k', v) :: rest else (k', v') :: assoc_set rest k v
  end.

(** [Counter(xs)]: occurrences, keyed in order of first appearance. *)
Definition assoc_counter (xs : list K) : list (K * nat) :=
  fold_left (fun c x =>
               assoc_set c x (match assoc_get c x with Some n => n | None => 0 end + 1))
            xs [].
End Assoc.

(** Integer keys. *)
Definition int_dict (V : Type) : Type := list (Z * V).

Definition int_dict_get {V : Type} (d : int_dict V) (k : Z) : option V :=
  assoc_get Z.eqb d k.

Definition int_dict_set {V : Type} (d : int_dict V) (k : Z) (v : V) : int_dict V :=
  assoc_set Z.eqb d k v.

(** Keys that are tuples of two strings. *)
Definition pair_eqb (a b : string * string) : bool :=
  String.eqb (fst a) (fst b) && String.eqb (snd a) (snd b).

(** [tuple(sorted([a, b]))] for two strings: strings compare by their code
    points, and [a] stays first unless [b] is smaller. *)
Definition sorted_pair (a b : string) : string * string :=
  if String.ltb b a then (b, a) else (a, b).

(** [sorted(items, key=lambda x: x[1], reverse=True)]: a stable sort with
    the greatest value first, here by insertion.  An item goes before the
    first one whose value is not greater, so items of equal value keep
    their order. *)
Fixpoint insert_by_value_desc {K : Type} (x : K * Q) (xs : list (K * Q)) : list (K * Q) :=
  match xs with
  | [] => [x]
  | y :: rest =>
      if gtb (snd y) (snd x) then y :: insert_by_value_desc x rest
      else x :: y :: rest
  end.

Definition sorted_by_value_desc {K : Type} (xs : list (K * Q)) : list (K * Q) :=
  fold_right insert_by_value_desc [] xs.

(** ** Floats that may be nan *)

(** A float as a library call returns it: a number, or nan. *)
Inductive float : Type :=
| Num (x : Q)
| NaN.

(** [x > y] and [abs(x) < y] for a float [x] and a number [y]; every
    comparison with nan is false. *)
Definition float_gtb (x : float) (y : Q) : bool :=
  match x with
  | Num a => gtb a y
  | NaN => false
  end.

Definition float_abs_ltb (x : float) (y : Q) : bool :=
  match x with
  | Num a => ltb (Qabs a) y
  | NaN => false
  end.

End Py.

(* ================================================================== *)
(** * The stored records ([models.py]) and the configuration           *)
(* ================================================================== *)

Module Models.
Import Py.

(** A naive [datetime]: the proleptic Gregorian ordinal of its date and the
    time of day.  The fields of a well-formed value are in their ranges
    ([hour] below 24, [minute] and [second] below 60, [microsecond] below
    one million). *)
Record datetime : Type := {
  ordinal : Z;
  hour : Z;
  minute : Z;
  second : Z;
  microsecond : Z
}.

(** Microseconds since the start of ordinal day 0: the order of
    [datetime] values and the basis of their differences. *)
Definition timestamp (d : datetime) : Z :=
  ((((ordinal d * 24 + hour d) * 60 + minute d) * 60 + second d) * 1000000
   + microsecond d)%Z.

(** [(a - b).days]: a [timedelta] is normalised with its seconds and
    microseconds non-negative, so [days] is a floor. *)
Definition days_between (a b : datetime) : Z :=
  ((timestamp a - timestamp b) / 86400000000)%Z.

(** [d.weekday()], Monday is 0. *)
Definition weekday (d : datetime) : Z := ((ordinal d + 6) mod 7)%Z.

(** A row of [dream_entries], restricted to the columns the analysis
    reads.  The JSON text columns [emotions] and [themes] are held decoded;
    [None] stands for a column that is NULL or empty. *)
Record DreamEntry : Type := {
  id : Z;
  content : string;
  dream_date : datetime;
  sleep_quality : option Z;
  sentiment_score : option Q;
  emotions : option (dict Q);
  themes : option (list string);
  dream_intensity : option Q;
  stress_level : option Q
}.

(** [DreamEntry.get_tags_list] and [DreamEntry.set_tags_list]: they read
    and write only the [tags] column, a comma-separated text or NULL. *)
Definition get_tags_list (tags : option string) : list string :=
  match tags with
  | Some text =>
      if nonempty text
      then map strip (filter (fun tag => nonempty (strip tag)) (split_on "," text))
      else []
  | None => []
  end.

Definition set_tags_list (tags_list : list string) : option string :=
  match tags_list with
  | [] => None
  | _ => Some (join "," tags_list)
  end.

End Models.

Module Config.

Definition EMOTION_CATEGORIES : list string :=
  ["joy"; "sadness"; "fear"; "anger";
   "surprise"; "disgust"; "trust"; "anticipation"].

End Config.

(* ================================================================== *)
(** * The text analyzer ([nlp_analyzer.py], class [DreamAnalyzer])     *)
(* ================================================================== *)

Module Analyzer.
Import Py.
Local Open Scope py_scope.

(** What the linguistic pipeline returns for a text. *)
Record Token : Type := {
  tok_text : string;
  pos_ : string;
  is_stop : bool;
  is_punct : bool
}.

Record Span : Type := {
  ent_text : string;
  label_ : string
}.

Record Doc : Type := {
  tokens : list Token;
  ents : list Span;
  noun_chunks : list string
}.

(** The emotion lexicon. *)
Definition emotion_keywords : dict (list string) :=
  [("joy", ["happy"; "joyful"; "excited"; "delighted"; "cheerful"; "wonderful";
            "amazing"; "love"; "loved"; "beautiful"; "peaceful"; "content"]);
   ("sadness", ["sad"; "unhappy"; "depressed"; "lonely"; "crying"; "tears";
                "grief"; "loss"; "heartbroken"; "miserable"; "gloomy"]);
   ("fear", ["afraid"; "scared"; "terrified"; "anxious"; "worried"; "panic";
             "nightmare"; "horror"; "frightened"; "threatened"; "danger"]);
   ("anger", ["angry"; "mad"; "furious"; "rage"; "frustrated"; "irritated";
              "annoyed"; "hostile"; "aggressive"; "violent"]);
   ("surprise", ["surprised"; "shocked"; "amazed"; "astonished"; "stunned";
                 "unexpected"; "sudden"; "startled"]);
   ("disgust", ["disgusted"; "revolted"; "repulsed"; "nasty"; "gross";
                "horrible"; "awful"; "unpleasant"]);
   ("trust", ["trust"; "safe"; "secure"; "comfortable"; "protected";
              "confident"; "reliable"]);
   ("anticipation", ["waiting"; "expecting"; "anticipating"; "looking forward";
                     "preparing"; "ready"; "hopeful"])].

(** Stress indicators. *)
Definition stress_keywords : list string :=
  ["chased"; "running"; "late"; "test"; "exam"; "unprepared";
   "falling"; "drowning"; "trapped"; "lost"; "naked"; "public";
   "teeth falling"; "unable to move"; "paralyzed"; "screaming"].

(** Common dream themes. *)
Definition common_themes : dict (list string) :=
  [("flying", ["flying"; "floating"; "soaring"; "air"]);
   ("falling", ["falling"; "dropping"; "plunging"]);
   ("chase", ["chased"; "running from"; "pursued"; "escape"]);
   ("water", ["water"; "ocean"; "sea"; "river"; "swimming"; "drowning"]);
   ("death", ["death"; "dying"; "dead"; "funeral"]);
   ("school", ["school"; "class"; "teacher"; "exam"; "test"]);
   ("work", ["work"; "office"; "boss"; "job"; "meeting"]);
   ("family", ["family"; "mother"; "father"; "parent"; "sibling"]);
   ("romance", ["love"; "kiss"; "romantic"; "date"; "partner"]);
   ("animals", ["dog"; "cat"; "animal"; "bird"; "snake"]);
   ("travel", ["travel"; "journey"; "trip"; "destination"]);
   ("home", ["home"; "house"; "room"; "apartment"])].

(** The dictionary [analyze_dream] returns. *)
Record Analysis : Type := {
  sentiment_score : Q;
  emotions : dict Q;
  entities : dict (list string);
  themes : list string;
  dream_intensity : Q;
  stress_level : Q
}.

(** The dictionary [generate_insights] returns. *)
Record Insights : Type := {
  total_entries : nat;
  avg_sentiment : Q;
  dominant_emotion : string;
  emotion_distribution : dict Q;
  recurring_themes : list string;
  stress_trend : string
}.

(** [entities[k].append(x)] for a key that is present. *)
Definition dict_append (d : dict (list string)) (k x : string) : dict (list string) :=
  match dict_get d k with
  | Some l => dict_set d k (l ++ [x])
  | None => d
  end.

(** [d[k] = d.get(k, 0) + v]. *)
Definition dict_add (d : dict Q) (k : string) (v : Q) : dict Q :=
  dict_set d k (match dict_get d k with Some old => old | None => 0%Q end + v)%Q.

(** [max(d.items(), key=lambda x: x[1])]: the first item of greatest value. *)
Definition max_item (d : dict Q) : option (string * Q) :=
  match d with
  | [] => None
  | kv :: rest =>
      Some (fold_left (fun best kv' => if gtb (snd kv') (snd best) then kv' else best)
                      rest kv)
  end.

(** [Counter(xs)]: occurrences, keyed in order of first appearance. *)
Definition Counter (xs : list string) : dict nat :=
  fold_left (fun c x =>
               dict_set c x (match dict_get c x with Some n => n | None => 0 end + 1))
            xs [].

(** [c.most_common(n)]: the [n] items of greatest count, equal counts in
    their order in [c]. *)
Definition most_common (n : nat) (c : dict nat) : list (string * nat) :=
  firstn n (sorted (fun kv => (- Z.of_nat (snd kv))%Z) c).

Section DreamAnalyzer.

(** [self.nlp], [self.vader.polarity_scores(text)['compound']] and
    [TextBlob(text).sentiment.polarity]. *)
Variable nlp : string -> Doc.
Variable vader_compound : string -> Q.
Variable textblob_polarity : string -> Q.

Definition _analyze_sentiment (text : string) : Q :=
  let sentiment := ((vader_compound text + textblob_polarity text) / 2)%Q in
  round sentiment 3.

Definition _detect_emotions (text : string) : result (dict Q) :=
  let text_lower := lower text in
  let doc := nlp text in
  let word_count :=
    List.length (filter (fun token => negb (is_stop token) && negb (is_punct token))
                        (tokens doc)) in
  let word_count := if Nat.eqb word_count 0 then 1 else word_count in
  for_each
    (fun emotion_scores (item : string * list string) =>
       let (emotion, keywords) := item in
       let matches :=
         list_sum (map (fun _ => 1)
                       (filter (fun keyword => contains text_lower keyword) keywords)) in
       quotient <- div (of_nat matches) (of_nat word_count * 0.1)%Q ;;
       let score := min quotient 1.0%Q in
       Ok (dict_set emotion_scores emotion (round score 3)))
    emotion_keywords [].

Definition _extract_entities (text : string) : dict (list string) :=
  let doc := nlp text in
  let entities : dict (list string) :=
    [("people", []); ("places", []); ("organizations", []); ("other", [])] in
  let entities :=
    fold_left
      (fun entities ent =>
         let entity_text := strip (ent_text ent) in
         if String.eqb (label_ ent) "PERSON" then
           dict_append entities "people" entity_text
         else if existsb (String.eqb (label_ ent)) ["GPE"; "LOC"; "FAC"] then
           dict_append entities "places" entity_text
         else if String.eqb (label_ ent) "ORG" then
           dict_append entities "organizations" entity_text
         else
           dict_append entities "other" entity_text)
      (ents doc) entities in
  let nouns :=
    map (fun token => lower (tok_text token))
        (filter (fun token =>
                   String.eqb (pos_ token) "NOUN" && negb (is_stop token)
                   && Nat.ltb 3 (String.length (tok_text token)))
                (tokens doc)) in
  let entities := dict_set entities "symbols" (distinct (firstn 10 nouns)) in
  fold_left
    (fun entities key =>
       match dict_get entities key with
       | Some l => dict_set entities key (distinct l)
       | None => entities
       end)
    (keys entities) entities.

Definition _identify_themes (text : string) : list string :=
  let text_lower := lower text in
  fold_left
    (fun identified_themes (item : string * list string) =>
       let (theme, keywords) := item in
       if existsb (fun keyword => contains text_lower keyword) keywords
       then identified_themes ++ [theme]
       else identified_themes)
    common_themes [].

Definition _calculate_intensity (text : string) (emotions : dict Q) : Q :=
  let word_count := split_count text in
  let exclamation_count := count "!"%char text in
  let question_count := count "?"%char text in
  let emotion_intensity := sum (values emotions) in
  let intensity :=
    min ((of_nat word_count / 500) * 0.3
         + (of_nat exclamation_count / 10) * 0.2
         + (of_nat question_count / 10) * 0.1
         + emotion_intensity * 0.4)%Q
        1.0%Q in
  round intensity 3.

Definition _detect_stress (text : string) : Q :=
  let text_lower := lower text in
  let stress_matches :=
    list_sum (map (fun _ => 1)
                  (filter (fun keyword => contains text_lower keyword)
                          stress_keywords)) in
  let sentiment := _analyze_sentiment text in
  let negative_sentiment := max 0%Q (- sentiment)%Q in
  let stress_level :=
    min ((of_nat stress_matches / 5) * 0.6 + negative_sentiment * 0.4)%Q 1.0%Q in
  round stress_level 3.

Definition _empty_analysis : Analysis :=
  {| sentiment_score := 0.0%Q;
     emotions :=
       fold_left (fun d emotion => dict_set d emotion 0.0%Q)
                 Config.EMOTION_CATEGORIES [];
     entities :=
       [("people", []); ("places", []); ("organizations", []);
        ("other", []); ("symbols", [])];
     themes := [];
     dream_intensity := 0.0%Q;
     stress_level := 0.0%Q |}.

Definition analyze_dream (content : string) : result Analysis :=
  if negb (nonempty content) || negb (nonempty (strip content)) then
    Ok _empty_analysis
  else
    let sentiment := _analyze_sentiment content in
    emotions <- _detect_emotions content ;;
    let entities := _extract_entities content in
    let themes := _identify_themes content in
    let intensity := _calculate_intensity content emotions in
    let stress_level := _detect_stress content in
    Ok {| sentiment_score := sentiment;
          emotions := emotions;
          entities := entities;
          themes := themes;
          dream_intensity := intensity;
          stress_level := stress_level |}.

End DreamAnalyzer.

(** [generate_insights] reads only the stored entries.  Its three loops
    are the next three definitions. *)

(** The dictionary [all_emotions] once the entries are aggregated. *)
Definition all_emotions_of (entries : list Models.DreamEntry) : dict Q :=
  fold_left
    (fun all_emotions entry =>
       match Models.emotions entry with
       | Some emotions =>
           fold_left (fun acc item => dict_add acc (fst item) (snd item))
                     emotions all_emotions
       | None => all_emotions
       end)
    entries [].

(** The list [all_themes] once the entries are aggregated. *)
Definition all_themes_of (entries : list Models.DreamEntry) : list string :=
  fold_left
    (fun all_themes entry =>
       match Models.themes entry with
       | Some themes => all_themes ++ themes
       | None => all_themes
       end)
    entries [].

(** The stress trend analysis on [stress_levels]. *)
Definition stress_trend_of (stress_levels : list Q) : result string :=
  if Nat.leb 2 (List.length stress_levels) then
    let half := List.length stress_levels / 2 in
    first_half <- div (sum (firstn half stress_levels)) (of_nat half) ;;
    second_half <-
      div (sum (skipn half stress_levels))
          (of_nat (List.length stress_levels - half)) ;;
    if gtb second_half (first_half * 1.1)%Q then Ok "increasing"
    else if ltb second_half (first_half * 0.9)%Q then Ok "decreasing"
    else Ok "stable"
  else Ok "insufficient data".

Definition generate_insights (entries : list Models.DreamEntry)
  : result (option Insights) :=
  if Nat.eqb (List.length entries) 0 then Ok None
  else
    let total := List.length entries in
    avg_sentiment <-
      div (sum (present (filter truthy (map Models.sentiment_score entries))))
          (of_nat total) ;;
    let all_emotions := all_emotions_of entries in
    let dominant_emotion :=
      match max_item all_emotions with
      | Some item => fst item
      | None => "neutral"
      end in
    let emotion_total := sum (values all_emotions) in
    let emotion_distribution :=
      if gtb emotion_total 0%Q
      then dict_comp (fun _ score => round (score / emotion_total)%Q 3) all_emotions
      else [] in
    let all_themes := all_themes_of entries in
    let recurring_themes := map fst (most_common 5 (Counter all_themes)) in
    let stress_levels := present (map Models.stress_level entries) in
    stress_trend <- stress_trend_of stress_levels ;;
    Ok (Some {| total_entries := total;
                avg_sentiment := round avg_sentiment 3;
                dominant_emotion := dominant_emotion;
                emotion_distribution := emotion_distribution;
                recurring_themes := recurring_themes;
                stress_trend := stress_trend |}).

End Analyzer.

(* ================================================================== *)
(** * The predictor ([predictor.py], class [DreamPredictor])           *)
(* ================================================================== *)

Module Predictor.
Import Py Models.
Local Open Scope py_scope.

(** A fitted [LinearRegression] on one feature. *)
Record Line : Type := {
  coef_ : Q;
  intercept_ : Q
}.

(** [model.predict(X)]: the line at each sample; an array without samples
    is rejected with a [ValueError]. *)
Definition predict (line : Line) (X : list Z) : result (list Q) :=
  match X with
  | [] => Err ValueError
  | _ => Ok (map (fun x => (coef_ line * inject_Z x + intercept_ line)%Q) X)
  end.

Definition mean (xs : list Q) : Q := (sum xs / of_nat (List.length xs))%Q.

(** Ordinary least squares on one feature with an intercept, as
    [LinearRegression.fit] solves it in exact arithmetic: the data are
    centred and the slope is the least-squares solution of least norm, which
    is 0 when all the abscissas coincide. *)
Definition least_squares (X : list Z) (y : list Q) : Line :=
  let xs := map inject_Z X in
  let x_mean := mean xs in
  let y_mean := mean y in
  let sxx := sum (map (fun x => ((x - x_mean) * (x - x_mean))%Q) xs) in
  let sxy :=
    sum (map (fun p => ((fst p - x_mean) * (snd p - y_mean))%Q) (combine xs y)) in
  let coef := if Qeq_bool sxx 0%Q then 0%Q else (sxy / sxx)%Q in
  {| coef_ := coef; intercept_ := (y_mean - coef * x_mean)%Q |}.

Definition ols_fit (X : list Z) (y : list Q) : result Line :=
  Ok (least_squares X y).

(** The dictionary [predict_mood_trend] returns. *)
Record Forecast : Type := {
  days : list Z;
  predictions : list Q;
  trend : string;
  confidence : string
}.

(** The dictionary [_analyze_time_patterns] returns. *)
Record TimePatterns : Type := {
  morning_avg : Q;
  evening_avg : Q;
  insight : string
}.

Record Stats : Type := {
  total_dreams : nat;
  stats_avg_sentiment : Q;
  dreams_per_week : Q;
  stats_recent_stress : Q
}.

(** The two shapes of dictionary [generate_personalized_insights] returns. *)
Inductive PersonalInsights : Type :=
| NeedMoreData (message : string) (tips : list string)
| Personalized (insights recommendations : list string) (stats : Stats).

Definition by_dream_date (x : DreamEntry) : Z := timestamp (dream_date x).

(** Decimal text of a count, as an f-string prints it. *)
Definition str_of_nat (n : nat) : string :=
  DecimalString.NilZero.string_of_uint (Nat.to_uint n).

Section DreamPredictor.

(** [self.model.fit(X, y)]; the library call can raise. *)
Variable model_fit : list Z -> list Q -> result Line.

(** The body of the [try] statement of [predict_mood_trend]. *)
Definition fit_and_forecast (dates : list Z) (sentiments : list Q) (days_ahead : Z)
  : result (option Forecast) :=
  line <- model_fit dates sentiments ;;
  last_day <- getlast dates ;;
  let future_days :=
    map (fun i => (last_day + i)%Z) (range 1 (days_ahead + 1)) in
  predictions <- predict line future_days ;;
  last_prediction <- getlast predictions ;;
  first_prediction <- getitem predictions 0 ;;
  Ok (Some {| days := future_days;
              predictions := predictions;
              trend := if gtb last_prediction first_prediction
                       then "improving" else "declining";
              confidence := if Nat.ltb (List.length dates) 14 then "low"
                            else if Nat.ltb (List.length dates) 30
                                 then "medium" else "high" |}).

Definition predict_mood_trend (entries : list DreamEntry) (days_ahead : Z)
  : result (option Forecast) :=
  if Nat.ltb (List.length entries) 7 then Ok None
  else
    prepared <-
      for_each
        (fun (acc : list Z * list Q) entry =>
           let (dates, sentiments) := acc in
           match sentiment_score entry with
           | Some sentiment =>
               first <- getitem entries 0 ;;
               let days_from_start :=
                 days_between (dream_date entry) (dream_date first) in
               Ok (dates ++ [days_from_start], sentiments ++ [sentiment])
           | None => Ok (dates, sentiments)
           end)
        (sorted by_dream_date entries) ([], []) ;;
    let dates := fst prepared in
    let sentiments := snd prepared in
    if Nat.ltb (List.length dates) 3 then Ok None
    else
      try_except (fit_and_forecast dates sentiments days_ahead)
                 (fun _ => Ok None).

End DreamPredictor.

Definition _analyze_time_patterns (entries : list DreamEntry)
  : result (option TimePatterns) :=
  let buckets :=
    fold_left
      (fun (acc : list (option Q) * list (option Q)) entry =>
         let (morning_dreams, evening_dreams) := acc in
         let hour := hour (dream_date entry) in
         if (hour <? 12)%Z
         then (morning_dreams ++ [sentiment_score entry], evening_dreams)
         else (morning_dreams, evening_dreams ++ [sentiment_score entry]))
      entries ([], []) in
  let morning_dreams := fst buckets in
  let evening_dreams := snd buckets in
  if negb (Nat.eqb (List.length morning_dreams) 0)
     && negb (Nat.eqb (List.length evening_dreams) 0) then
    morning_sum <- sum_opt morning_dreams ;;
    morning_avg <- div morning_sum (of_nat (List.length morning_dreams)) ;;
    evening_sum <- sum_opt evening_dreams ;;
    evening_avg <- div evening_sum (of_nat (List.length evening_dreams)) ;;
    morning_sum' <- sum_opt morning_dreams ;;
    morning_avg' <- div morning_sum' (of_nat (List.length morning_dreams)) ;;
    evening_sum' <- sum_opt evening_dreams ;;
    evening_avg' <- div evening_sum' (of_nat (List.length evening_dreams)) ;;
    Ok (Some {| morning_avg := morning_avg;
                evening_avg := evening_avg;
                insight := if gtb morning_avg' evening_avg'
                           then "Morning dreams tend to be more positive"
                           else "Evening dreams tend to be more positive" |})
  else Ok None.

Definition generate_personalized_insights (entries : list DreamEntry)
  : result PersonalInsights :=
  if Nat.ltb (List.length entries) 5 then
    Ok (NeedMoreData
          "Keep recording your dreams! We need more data to generate personalized insights."
          ["Try to record dreams immediately upon waking";
           "Include as many details as possible";
           "Note your sleep quality and mood"])
  else
    let insights : list string := [] in
    let recommendations : list string := [] in
    let recent_entries := last_n 7 (sorted by_dream_date entries) in
    recent_sentiment <-
      div (sum (present (filter truthy (map sentiment_score recent_entries))))
          (of_nat (List.length recent_entries)) ;;
    let (insights, recommendations) :=
      if ltb recent_sentiment (-0.3)%Q then
        (insights ++ ["Your recent dreams show negative sentiment patterns"],
         recommendations ++ ["Consider stress-reduction techniques before bed";
                             "Try journaling worries before sleep"])
      else if gtb recent_sentiment 0.3%Q then
        (insights ++ ["Your recent dreams are predominantly positive!"],
         recommendations ++ ["Continue your current sleep routine"])
      else (insights, recommendations) in
    recent_stress <-
      div (sum (present (filter truthy (map stress_level recent_entries))))
          (of_nat (List.length recent_entries)) ;;
    let (insights, recommendations) :=
      if gtb recent_stress 0.6%Q then
        (insights ++ ["High stress indicators detected in your dreams"],
         recommendations ++ ["Practice relaxation exercises before bed";
                             "Reduce screen time in the evening"])
      else (insights, recommendations) in
    let nightmare_count :=
      list_sum
        (map (fun _ => 1)
             (filter (fun e => truthy (sentiment_score e)
                               && match sentiment_score e with
                                  | Some s => ltb s (-0.5)%Q
                                  | None => false
                                  end)
                     recent_entries)) in
    let (insights, recommendations) :=
      if Nat.leb 3 nightmare_count then
        (insights ++ [("You've had " ++ str_of_nat nightmare_count
                       ++ " nightmares in the past week")%string],
         recommendations ++
           ["Consider speaking with a healthcare professional if nightmares persist"])
      else (insights, recommendations) in
    last_entry <- getlast entries ;;
    first_entry <- getitem entries 0 ;;
    let date_range := days_between (dream_date last_entry) (dream_date first_entry) in
    per_day <- div (of_nat (List.length entries)) (inject_Z (Z.max date_range 1)) ;;
    let frequency := (per_day * 7)%Q in
    let (insights, recommendations) :=
      if ltb frequency 2%Q then
        (insights ++ ["You're recording dreams infrequently"],
         recommendations ++ ["Try setting a morning reminder to record dreams"])
      else if gtb frequency 5%Q then
        (insights ++ ["Excellent dream recall! You're recording frequently"],
         recommendations ++ ["Your detailed records will provide rich insights"])
      else (insights, recommendations) in
    overall <-
      div (sum (present (filter truthy (map sentiment_score entries))))
          (of_nat (List.length entries)) ;;
    Ok (Personalized insights recommendations
          {| total_dreams := List.length entries;
             stats_avg_sentiment := overall;
             dreams_per_week := round frequency 1;
             stats_recent_stress := round recent_stress 2 |}).

(** The dictionary [_analyze_day_patterns] returns. *)
Record DayPatterns : Type := {
  best_day : string;
  best_score : Q;
  worst_day : string;
  worst_score : Q;
  day_insight : string
}.

Definition days_names : list string :=
  ["Monday"; "Tuesday"; "Wednesday"; "Thursday"; "Friday"; "Saturday"; "Sunday"].

(** [day_sentiments[day].append(score)] on the dictionary keyed by the
    weekday numbers 0 to 6; a weekday is always one of its keys. *)
Definition day_append (day_sentiments : list (Z * list Q)) (day : Z) (score : Q)
  : list (Z * list Q) :=
  map (fun item => if (fst item =? day)%Z then (fst item, snd item ++ [score]) else item)
      day_sentiments.

Definition _analyze_day_patterns (entries : list DreamEntry)
  : result (option DayPatterns) :=
  let day_sentiments := map (fun i => (i, @nil Q)) (range 0 7) in
  let day_sentiments :=
    fold_left
      (fun day_sentiments entry =>
         let day := weekday (dream_date entry) in
         match sentiment_score entry with
         | Some score => day_append day_sentiments day score
         | None => day_sentiments
         end)
      entries day_sentiments in
  day_averages <-
    for_each
      (fun (acc : list (Z * option Q)) (item : Z * list Q) =>
         let (day, scores) := item in
         match scores with
         | [] => Ok (acc ++ [(day, None)])
         | _ =>
             average <- div (sum scores) (of_nat (List.length scores)) ;;
             Ok (acc ++ [(day, Some average)])
         end)
      day_sentiments [] ;;
  let valid_days :=
    flat_map (fun item : Z * option Q =>
                match snd item with
                | Some average => [(fst item, average)]
                | None => []
                end)
             day_averages in
  match valid_days with
  | [] => Ok None
  | first :: rest =>
      let best := max_by_value first rest in
      let worst := min_by_value first rest in
      best_name <- getitem days_names (Z.to_nat (fst best)) ;;
      worst_name <- getitem days_names (Z.to_nat (fst worst)) ;;
      insight_name <- getitem days_names (Z.to_nat (fst best)) ;;
      Ok (Some {| best_day := best_name;
                  best_score := snd best;
                  worst_day := worst_name;
                  worst_score := snd worst;
                  day_insight :=
                    ("Dreams on " ++ insight_name ++ " tend to be most positive")%string |})
  end.

(** One entry of the list [cyclical_themes], and the dictionary
    [_analyze_cyclical_themes] returns. *)
Record CyclicalTheme : Type := {
  theme : string;
  avg_interval_days : Q;
  occurrences : nat
}.

Record CyclicalThemes : Type := {
  cyclical_themes : list CyclicalTheme;
  cyclical_insight : string
}.

(** [[(dates[i+1] - dates[i]).days for i in range(len(dates) - 1)]] on
    calendar dates, which are held as ordinals. *)
Fixpoint intervals_of (dates : list Z) : list Z :=
  match dates with
  | [] => []
  | earlier :: later =>
      match later with
      | [] => []
      | next :: _ => (next - earlier)%Z :: intervals_of later
      end
  end.

Section CyclicalThemes.

(** The text an f-string gives a float. *)
Variable float_text : Q -> string.

Definition _analyze_cyclical_themes (entries : list DreamEntry)
  : result (option CyclicalThemes) :=
  let theme_timeline :=
    fold_left
      (fun (theme_timeline : dict (list Z)) entry =>
         match themes entry with
         | Some themes =>
             let date := ordinal (dream_date entry) in
             fold_left
               (fun (theme_timeline : dict (list Z)) theme =>
                  let theme_timeline :=
                    match dict_get theme_timeline theme with
                    | Some _ => theme_timeline
                    | None => dict_set theme_timeline theme []
                    end in
                  match dict_get theme_timeline theme with
                  | Some dates => dict_set theme_timeline theme (dates ++ [date])
                  | None => theme_timeline
                  end)
               themes theme_timeline
         | None => theme_timeline
         end)
      (sorted by_dream_date entries) [] in
  cyclical_themes <-
    for_each
      (fun (cyclical_themes : list CyclicalTheme) (item : string * list Z) =>
         let (theme, dates) := item in
         if Nat.leb 3 (List.length dates) then
           let intervals := map inject_Z (intervals_of dates) in
           match intervals with
           | [] => Ok cyclical_themes
           | _ =>
               avg_interval <- div (sum intervals) (of_nat (List.length intervals)) ;;
               variance <-
                 div (sum (map (fun i => ((i - avg_interval) * (i - avg_interval))%Q)
                               intervals))
                     (of_nat (List.length intervals)) ;;
               if ltb variance (avg_interval * 0.5)%Q then
                 Ok (cyclical_themes
                       ++ [ {| theme := theme;
                               avg_interval_days := round avg_interval 1;
                               occurrences := List.length dates |} ])
               else Ok cyclical_themes
           end
         else Ok cyclical_themes)
      theme_timeline [] ;;
  match cyclical_themes with
  | [] => Ok None
  | first :: _ =>
      Ok (Some {| cyclical_themes := cyclical_themes;
                  cyclical_insight :=
                    ("Theme '" ++ theme first ++ "' appears every ~"
                     ++ float_text (avg_interval_days first) ++ " days")%string |})
  end.

End CyclicalThemes.

(** The dictionary [_analyze_sleep_quality] returns. *)
Record SleepQualityImpact : Type := {
  correlation : float;
  sleep_insight : string
}.

Section SleepQuality.

(** [np.corrcoef(x, y)[0, 1]]: nan when one of the two sequences has no
    variance. *)
Variable corrcoef : list Z -> list Q -> float.

Definition _analyze_sleep_quality (entries : list DreamEntry)
  : result (option SleepQualityImpact) :=
  let quality_sentiments :=
    fold_left
      (fun (quality_sentiments : int_dict (list Q)) entry =>
         match sleep_quality entry, sentiment_score entry with
         | Some quality, Some score =>
             if (quality =? 0)%Z then quality_sentiments
             else
               let quality_sentiments :=
                 match int_dict_get quality_sentiments quality with
                 | Some _ => quality_sentiments
                 | None => int_dict_set quality_sentiments quality []
                 end in
               match int_dict_get quality_sentiments quality with
               | Some scores =>
                   int_dict_set quality_sentiments quality (scores ++ [score])
               | None => quality_sentiments
               end
         | _, _ => quality_sentiments
         end)
      entries [] in
  if Nat.ltb (List.length quality_sentiments) 3 then Ok None
  else
    quality_averages <-
      for_each
        (fun (quality_averages : int_dict Q) (item : Z * list Q) =>
           let (q, scores) := item in
           average <- div (sum scores) (of_nat (List.length scores)) ;;
           Ok (int_dict_set quality_averages q average))
        quality_sentiments [] ;;
    let qualities := map fst quality_averages in
    (* [quality_averages[q]] for the dictionary's own keys *)
    let sentiments :=
      flat_map (fun q => match int_dict_get quality_averages q with
                         | Some average => [average]
                         | None => []
                         end)
               qualities in
    let correlation :=
      if Nat.ltb 1 (List.length qualities) then corrcoef qualities sentiments
      else Num 0 in
    Ok (Some {| correlation := correlation;
                sleep_insight :=
                  if float_gtb correlation 0.3
                  then "Better sleep quality correlates with more positive dreams"
                  else if float_abs_ltb correlation 0.3
                  then "No clear correlation between sleep quality and dream sentiment"
                  else "Paradoxically, lower sleep quality shows more positive dreams" |}).

End SleepQuality.

(** One entry of [common_pairs], and the dictionary
    [_analyze_emotion_correlations] returns. *)
Record PairFrequency : Type := {
  pair_emotions : list string;
  frequency : nat
}.

Record EmotionCorrelations : Type := {
  common_pairs : list PairFrequency;
  pairs_insight : string
}.

(** No operation of [_analyze_emotion_correlations] can raise: the second
    of the top emotions is read only when there are two. *)
Definition _analyze_emotion_correlations (entries : list DreamEntry)
  : option EmotionCorrelations :=
  let emotion_pairs :=
    fold_left
      (fun (emotion_pairs : list (string * string)) entry =>
         match emotions entry with
         | Some emotions =>
             let top_emotions := firstn 2 (sorted_by_value_desc emotions) in
             match top_emotions with
             | [first; second] =>
                 if gtb (snd second) 0.1
                 then emotion_pairs ++ [sorted_pair (fst first) (fst second)]
                 else emotion_pairs
             | _ => emotion_pairs
             end
         | None => emotion_pairs
         end)
      entries [] in
  match emotion_pairs with
  | [] => None
  | _ =>
      let most_common :=
        firstn 3 (sorted (fun item : (string * string) * nat => (- Z.of_nat (snd item))%Z)
                         (assoc_counter pair_eqb emotion_pairs)) in
      Some {| common_pairs :=
                map (fun item : (string * string) * nat =>
                       {| pair_emotions := [fst (fst item); snd (fst item)];
                          frequency := snd item |})
                    most_common;
              pairs_insight :=
                match most_common with
                | first :: _ =>
                    (fst (fst first) ++ " and " ++ snd (fst first)
                     ++ " often appear together")%string
                | [] => "No clear emotion patterns found"
                end |}
  end.

End Predictor.

(* ================================================================== *)
(** * The recommendation rules of the period summary ([app.py])        *)
(* ================================================================== *)

Module App.
Import Py.

Definition stress_reduction_text : string :=
  "Your dreams show negative sentiment. Consider stress-reduction practices before bed.".
Definition positive_text : string :=
  "Your dreams are predominantly positive. Keep up your good sleep hygiene!".
Definition relaxation_text : string :=
  "Stress levels in your dreams are increasing. Try meditation or relaxation exercises.".
Definition fear_text : string :=
  "Fear is prominent in your dreams. Consider journaling before bed to process anxieties.".
Definition sadness_text : string :=
  "Notice sadness themes. Reach out to friends or consider speaking with a counselor.".
Definition balanced_text : string :=
  "Your dream patterns look balanced. Continue regular journaling for best insights.".

(** The list [recommendations] that [_generate_recommendations] builds. *)
Definition recommendations (insights : Analyzer.Insights) : list string :=
  let recommendations : list string := [] in
  let recommendations :=
    if ltb (Analyzer.avg_sentiment insights) (-0.3)%Q
    then recommendations ++ [stress_reduction_text]
    else if gtb (Analyzer.avg_sentiment insights) 0.3%Q
         then recommendations ++ [positive_text]
         else recommendations in
  let recommendations :=
    if String.eqb (Analyzer.stress_trend insights) "increasing"
    then recommendations ++ [relaxation_text]
    else recommendations in
  let recommendations :=
    if String.eqb (Analyzer.dominant_emotion insights) "fear"
    then recommendations ++ [fear_text]
    else if String.eqb (Analyzer.dominant_emotion insights) "sadness"
         then recommendations ++ [sadness_text]
         else recommendations in
  let recommendations :=
    match recommendations with
    | [] => recommendations ++ [balanced_text]
    | _ => recommendations
    end in
  recommendations.

Definition _generate_recommendations (insights : Analyzer.Insights) : string :=
  join " " (recommendations insights).

End App.

(* ================================================================== *)
(** * The quantities the specification speaks of                       *)
(* ================================================================== *)

Module Spec.
Import Py Models.

(** The sentiments that are present among the entries. *)
Definition present_sentiments (entries : list DreamEntry) : list Q :=
  present (map sentiment_score entries).

(** The arithmetic mean of sentiment over exactly the entries whose
    sentiment is present. *)
Definition mean_of_present (entries : list DreamEntry) : Q :=
  (sum (present_sentiments entries)
   / of_nat (List.length (present_sentiments entries)))%Q.

(** Every emotion score stored in the entries, and their grand total. *)
Definition emotion_scores (entries : list DreamEntry) : list Q :=
  flat_map (fun e => match emotions e with
                     | Some d => values d
                     | None => []
                     end) entries.

Definition emotion_grand_total (entries : list DreamEntry) : Q :=
  sum (emotion_scores entries).

(** The entries that have a sentiment (every entry has a timestamp). *)
Definition qualifying (entries : list DreamEntry) : list DreamEntry :=
  filter (fun e => is_not_none (sentiment_score e)) entries.

(** The day offsets of the qualifying entries, in chronological order,
    measured from [origin]. *)
Definition offsets_from (origin : datetime) (entries : list DreamEntry) : list Z :=
  map (fun e => days_between (dream_date e) origin)
      (qualifying (sorted Predictor.by_dream_date entries)).

(** The sentiments of the qualifying entries, in chronological order. *)
Definition chronological_sentiments (entries : list DreamEntry) : list Q :=
  present (map sentiment_score (sorted Predictor.by_dream_date entries)).

(** The day offsets measured from the chronologically earliest entry. *)
Definition offsets_from_earliest (entries : list DreamEntry) : list Z :=
  match sorted Predictor.by_dream_date entries with
  | [] => []
  | earliest :: _ => offsets_from (dream_date earliest) entries
  end.

(** The forecast offsets [last_offset + 1 .. last_offset + days_ahead] for
    a list of offsets. *)
Definition offsets_ahead (offsets : list Z) (days_ahead : Z) : list Z :=
  match rev offsets with
  | [] => []
  | last_offset :: _ => map (fun i => (last_offset + i)%Z) (range 1 (days_ahead + 1))
  end.

(** The day offsets [predict_mood_trend] trains on: measured from the
    first entry of the sequence as it is passed in. *)
Definition training_dates (entries : list DreamEntry) : list Z :=
  match entries with
  | [] => []
  | first :: _ => offsets_from (dream_date first) entries
  end.

(** A text that is empty or consists of white space only. *)
Fixpoint whitespace_only (s : string) : bool :=
  match s with
  | EmptyString => true
  | String c rest => isspace c && whitespace_only rest
  end.

(** The zero-valued signal vector: every emotion of the lexicon at 0, every
    entity category empty. *)
Definition zero_vector : Analyzer.Analysis :=
  {| Analyzer.sentiment_score := 0.0%Q;
     Analyzer.emotions := map (fun emotion => (emotion, 0.0%Q))
                              (keys Analyzer.emotion_keywords);
     Analyzer.entities :=
       map (fun category => (category, []))
           ["people"; "places"; "organizations"; "other"; "symbols"];
     Analyzer.themes := [];
     Analyzer.dream_intensity := 0.0%Q;
     Analyzer.stress_level := 0.0%Q |}.

(** The number of tokens that are neither stop words nor punctuation,
    floored at 1. *)
Definition word_count (doc : Analyzer.Doc) : nat :=
  Nat.max 1
    (List.length
       (filter (fun token => negb (Analyzer.is_stop token)
                             && negb (Analyzer.is_punct token))
               (Analyzer.tokens doc))).

(** The keywords found in the lower-cased text, each counted once. *)
Definition matches (text : string) (keywords : list string) : nat :=
  List.length (filter (fun keyword => contains (lower text) keyword) keywords).

(** [min(matches / (word_count * 0.1), 1.0)] rounded to three decimals. *)
Definition emotion_score (doc : Analyzer.Doc) (text : string) (keywords : list string)
  : Q :=
  round (min (of_nat (matches text keywords) / (of_nat (word_count doc) * 0.1))%Q
             1.0%Q) 3.

(** The qualifying nouns of a document, lower-cased, in text order. *)
Definition qualifying_nouns (doc : Analyzer.Doc) : list string :=
  map (fun token => lower (Analyzer.tok_text token))
      (filter (fun token =>
                 String.eqb (Analyzer.pos_ token) "NOUN"
                 && negb (Analyzer.is_stop token)
                 && Nat.ltb 3 (String.length (Analyzer.tok_text token)))
              (Analyzer.tokens doc)).

(** Up to the first ten distinct qualifying nouns. *)
Definition first_distinct_nouns (doc : Analyzer.Doc) : list string :=
  firstn 10 (distinct (qualifying_nouns doc)).


(** The entity category of a label: person, place, organization or
    other. *)
Definition category_of (label : string) : string :=
  if String.eqb label "PERSON" then "people"
  else if existsb (String.eqb label) ["GPE"; "LOC"; "FAC"] then "places"
  else if String.eqb label "ORG" then "organizations"
  else "other".

(** The stripped texts of the named entities of a category, in text
    order. *)
Definition entity_texts (category : string) (spans : list Analyzer.Span)
  : list string :=
  map (fun span => strip (Analyzer.ent_text span))
      (filter (fun span => String.eqb (category_of (Analyzer.label_ span)) category)
              spans).

(** The value stored under a key, 0 when the key is missing. *)
Definition total_of (d : dict Q) (k : string) : Q :=
  match dict_get d k with
  | Some v => v
  | None => 0%Q
  end.

(** The names of the emotions stored in the entries, with repetitions. *)
Definition emotion_names (entries : list DreamEntry) : list string :=
  flat_map (fun e => match emotions e with
                     | Some d => keys d
                     | None => []
                     end) entries.

(** The summed score of one emotion across the entries. *)
Definition emotion_total (emotion : string) (entries : list DreamEntry) : Q :=
  sum (flat_map (fun e => match emotions e with
                          | Some d =>
                              values (filter (fun item => String.eqb emotion (fst item)) d)
                          | None => []
                          end) entries).

(** Every theme stored in the entries, in order, and how often a theme
    occurs among them. *)
Definition stored_themes (entries : list DreamEntry) : list string :=
  flat_map (fun e => match themes e with
                     | Some ts => ts
                     | None => []
                     end) entries.

Definition theme_count (entries : list DreamEntry) (theme : string) : nat :=
  count_occ string_dec (stored_themes entries) theme.

(** The stress levels that are present, in the order of the entries. *)
Definition stress_levels (entries : list DreamEntry) : list Q :=
  present (map stress_level entries).

(** The seven chronologically latest entries (all of them when there are
    fewer). *)
Definition recent_entries (entries : list DreamEntry) : list DreamEntry :=
  last_n 7 (sorted Predictor.by_dream_date entries).

(** The sentiments present among the recent entries, summed and divided by
    the number of recent entries. *)
Definition recent_sentiment (entries : list DreamEntry) : Q :=
  (sum (present_sentiments (recent_entries entries))
   / of_nat (List.length (recent_entries entries)))%Q.

(** The stress levels present among the recent entries, summed and divided
    by the number of recent entries. *)
Definition recent_stress (entries : list DreamEntry) : Q :=
  (sum (present (map stress_level (recent_entries entries)))
   / of_nat (List.length (recent_entries entries)))%Q.

(** The recent entries whose sentiment is below -0.5. *)
Definition nightmare_count (entries : list DreamEntry) : nat :=
  List.length
    (filter (fun e => match sentiment_score e with
                      | Some s => ltb s (-0.5)%Q
                      | None => false
                      end)
            (recent_entries entries)).

(** The whole days from the first listed entry to the last listed one. *)
Definition listed_span (entries : list DreamEntry) : Z :=
  match entries, rev entries with
  | first :: _, last :: _ => days_between (dream_date last) (dream_date first)
  | _, _ => 0%Z
  end.

(** Entries per week: the number of entries over the listed span (at least
    one day), times 7. *)
Definition frequency (entries : list DreamEntry) : Q :=
  (of_nat (List.length entries) / inject_Z (Z.max (listed_span entries) 1) * 7)%Q.

(** A tag that the [tags] column stores unchanged: not empty, without
    white space at its ends, without a comma. *)
Definition clean_tag (tag : string) : bool :=
  nonempty tag && String.eqb (strip tag) tag && Nat.eqb (count "," tag) 0.

(** The sentiments present among the entries of one weekday (0 is Monday),
    and their mean. *)
Definition weekday_sentiments (entries : list DreamEntry) (day : Z) : list Q :=
  present (map sentiment_score
               (filter (fun e => (weekday (dream_date e) =? day)%Z) entries)).

Definition weekday_mean (entries : list DreamEntry) (day : Z) : Q :=
  (sum (weekday_sentiments entries day)
   / of_nat (List.length (weekday_sentiments entries day)))%Q.

(** The calendar days on which a theme is stored, in chronological order
    of the entries; a theme stored twice in one entry counts twice. *)
Definition occurrence_dates (entries : list DreamEntry) (theme : string) : list Z :=
  flat_map (fun e => match themes e with
                     | Some ts =>
                         map (fun _ => ordinal (dream_date e))
                             (filter (String.eqb theme) ts)
                     | None => []
                     end)
           (sorted Predictor.by_dream_date entries).

(** [n] days that start at [start] and lie [gap] days apart. *)
Definition evenly_spaced (start gap : Z) (n : nat) : list Z :=
  map (fun i => (start + gap * Z.of_nat i)%Z) (seq 0 n).

(** The sleep-quality ratings the analysis counts: those of the entries
    that have a rating other than 0 and a sentiment. *)
Definition recorded_qualities (entries : list DreamEntry) : list Z :=
  flat_map (fun e => match sleep_quality e, sentiment_score e with
                     | Some quality, Some _ => if (quality =? 0)%Z then [] else [quality]
                     | _, _ => []
                     end) entries.

(** The sentiments of the entries counted for one rating, and their mean. *)
Definition quality_sentiments (entries : list DreamEntry) (quality : Z) : list Q :=
  flat_map (fun e => match sleep_quality e, sentiment_score e with
                     | Some q, Some score =>
                         if (q =? 0)%Z then []
                         else if (quality =? q)%Z then [score] else []
                     | _, _ => []
                     end) entries.

Definition quality_mean (entries : list DreamEntry) (quality : Z) : Q :=
  (sum (quality_sentiments entries quality)
   / of_nat (List.length (quality_sentiments entries quality)))%Q.

(** The first item whose score no item exceeds, and the other items in
    their order. *)
Fixpoint strongest (items : list (string * Q))
  : option ((string * Q) * list (string * Q)) :=
  match items with
  | [] => None
  | x :: rest =>
      match strongest rest with
      | None => Some (x, [])
      | Some (m, others) =>
          if gtb (snd m) (snd x) then Some (m, x :: others) else Some (x, rest)
      end
  end.

(** The strongest emotion of a stored emotion vector and the strongest of
    the others, in alphabetical order; none when there is no second emotion
    or its score is not above 0.1. *)
Definition top_pair (emotions : dict Q) : option (string * string) :=
  match strongest emotions with
  | Some (first, others) =>
      match strongest others with
      | Some (second, _) =>
          if gtb (snd second) 0.1 then Some (sorted_pair (fst first) (fst second))
          else None
      | None => None
      end
  | None => None
  end.

(** The top pairs of the entries, entry by entry. *)
Definition emotion_pairs (entries : list DreamEntry) : list (string * string) :=
  flat_map (fun e => match emotions e with
                     | Some emotions =>
                         match top_pair emotions with
                         | Some top => [top]
                         | None => []
                         end
                     | None => []
                     end) entries.

(** How many entries have the given top pair. *)
Definition pair_count (entries : list DreamEntry) (top : string * string) : nat :=
  List.length (filter (pair_eqb top) (emotion_pairs entries)).

(** [score] is [x] rounded to three decimals: a number of three decimals
    within 0.0006 of [x].  The tolerance is a little wider than half a
    unit of the last decimal, so that it also holds of a quotient that is
    computed in binary floating point and lies on a rounding tie. *)
Definition rounded_to_3_decimals (x score : Q) : Prop :=
  (exists k : Z, (score == inject_Z k / 1000)%Q) /\ (Qabs (score - x) <= 0.0006)%Q.


End Spec.

(** * Intermediate values of the loops                                 *)

Module Loops.
Import Py Models Predictor.
Local Open Scope py_scope.

(** The weekdays that have a sentiment, each with its mean. *)
Definition scored_days (entries : list DreamEntry) : list (Z * Q) :=
  flat_map (fun day => match Spec.weekday_sentiments entries day with
                       | [] => []
                       | _ => [(day, Spec.weekday_mean entries day)]
                       end)
           (range 0 7).

(** The dates a timeline holds for a theme, none for a missing theme. *)
Definition dates_of (theme_timeline : dict (list Z)) (theme : string) : list Z :=
  match dict_get theme_timeline theme with
  | Some dates => dates
  | None => []
  end.

(** One step of the inner loop. *)
Definition record_theme (date : Z) (theme_timeline : dict (list Z)) (theme : string)
  : dict (list Z) :=
  let theme_timeline :=
    match dict_get theme_timeline theme with
    | Some _ => theme_timeline
    | None => dict_set theme_timeline theme []
    end in
  match dict_get theme_timeline theme with
  | Some dates => dict_set theme_timeline theme (dates ++ [date])
  | None => theme_timeline
  end.

(** A timeline holds exactly the dates [occ] gives, and no theme without a
    date. *)
Definition holds (tl : dict (list Z)) (occ : string -> list Z) : Prop :=
  NoDup (keys tl)
  /\ forall theme, dict_get tl theme = match occ theme with
                                       | [] => None
                                       | dates => Some dates
                                       end.

(** The timeline [_analyze_cyclical_themes] builds. *)
Definition theme_timeline_of (entries : list DreamEntry) : dict (list Z) :=
  fold_left
    (fun (theme_timeline : dict (list Z)) entry =>
       match themes entry with
       | Some themes =>
           fold_left (record_theme (ordinal (dream_date entry))) themes theme_timeline
       | None => theme_timeline
       end)
    (sorted by_dream_date entries) [].

(** What the second loop adds for one item of the timeline. *)
Definition cyclical_of (item : string * list Z) : list CyclicalTheme :=
  let (theme, dates) := item in
  if Nat.leb 3 (List.length dates) then
    let intervals := map inject_Z (intervals_of dates) in
    match intervals with
    | [] => []
    | _ =>
        let avg_interval := (sum intervals / of_nat (List.length intervals))%Q in
        let variance :=
          (sum (map (fun i => ((i - avg_interval) * (i - avg_interval))%Q) intervals)
           / of_nat (List.length intervals))%Q in
        if ltb variance (avg_interval * 0.5)%Q then
          [ {| theme := theme;
               avg_interval_days := round avg_interval 1;
               occurrences := List.length dates |} ]
        else []
    end
  else [].

(** One step of the first loop of [_analyze_sleep_quality]. *)
Definition record_quality (quality_sentiments : int_dict (list Q)) (quality : Z) (score : Q)
  : int_dict (list Q) :=
  let quality_sentiments :=
    match int_dict_get quality_sentiments quality with
    | Some _ => quality_sentiments
    | None => int_dict_set quality_sentiments quality []
    end in
  match int_dict_get quality_sentiments quality with
  | Some scores => int_dict_set quality_sentiments quality (scores ++ [score])
  | None => quality_sentiments
  end.

(** The dictionary the first loop of [_analyze_sleep_quality] builds. *)
Definition quality_sentiments_of (entries : list DreamEntry) : int_dict (list Q) :=
  fold_left
    (fun (quality_sentiments : int_dict (list Q)) entry =>
       match sleep_quality entry, sentiment_score entry with
       | Some quality, Some score =>
           if (quality =? 0)%Z then quality_sentiments
           else record_quality quality_sentiments quality score
       | _, _ => quality_sentiments
       end)
    entries [].

(** A dictionary holds exactly the scores [occ] gives, and no rating
    without a score. *)
Definition holds_scores (d : int_dict (list Q)) (occ : Z -> list Q) : Prop :=
  NoDup (map fst d)
  /\ forall quality, int_dict_get d quality = match occ quality with
                                              | [] => None
                                              | scores => Some scores
                                              end.

End Loops.

(* ================================================================== *)
(** * Concrete journal entries used in the examples                    *)
(* ================================================================== *)

Module Inputs.
Import Py Models.

(** A [datetime] on the hour; day 0 is ordinal 739000. *)
Definition on_day (day hour : Z) : datetime :=
  {| ordinal := 739000 + day; hour := hour;
     minute := 0; second := 0; microsecond := 0 |}.

(** An analysed entry with the given sentiment and emotion scores. *)
Definition entry (day hour : Z) (sentiment : option Q) (emotions : option (dict Q))
  : DreamEntry :=
  {| id := day;
     content := "a dream";
     dream_date := on_day day hour;
     sleep_quality := None;
     sentiment_score := sentiment;
     emotions := emotions;
     themes := None;
     dream_intensity := None;
     stress_level := None |}.

(** One entry with sentiment 1.0 and one without a sentiment. *)
Definition scored_and_unscored : list DreamEntry :=
  [entry 0 8 (Some 1%Q) None; entry 1 8 None None].

(** One entry whose three emotions have equal scores. *)
Definition three_equal_emotions : list DreamEntry :=
  [entry 0 8 (Some 0%Q)
         (Some [("joy", 0.5%Q); ("fear", 0.5%Q); ("sadness", 0.5%Q)])].

(** Five fearful entries of sentiment -0.5. *)
Definition fearful_week : list DreamEntry :=
  map (fun day => entry day 8 (Some (-0.5)%Q)
                        (Some [("joy", 0.125%Q); ("fear", 0.5%Q)]))
      [0; 1; 2; 3; 4]%Z.

(** Seven entries on consecutive days, sentiment rising by 0.125 a day. *)
Definition rising_week : list DreamEntry :=
  map (fun day => entry day 8 (Some (inject_Z day * 0.125)%Q) None)
      [0; 1; 2; 3; 4; 5; 6]%Z.

(** The same seven entries, listed with the latest one first. *)
Definition rising_week_latest_first : list DreamEntry :=
  entry 6 8 (Some 0.75%Q) None
  :: map (fun day => entry day 8 (Some (inject_Z day * 0.125)%Q) None)
         [0; 1; 2; 3; 4; 5]%Z.

(** A morning entry without a sentiment and an evening entry with one. *)
Definition unscored_morning : list DreamEntry :=
  [entry 0 7 None None; entry 0 22 (Some 0.5%Q) None].

(** A noun token as the pipeline tags it. *)
Definition noun (word : string) : Analyzer.Token :=
  {| Analyzer.tok_text := word;
     Analyzer.pos_ := "NOUN";
     Analyzer.is_stop := false;
     Analyzer.is_punct := false |}.

(** A text of eleven nouns, ten of them distinct: the second repeats the
    first. *)
Definition eleven_nouns_text : string :=
  "door door window table chair house garden river mountain forest ocean".

Definition eleven_nouns_doc : Analyzer.Doc :=
  {| Analyzer.tokens :=
       map noun ["door"; "door"; "window"; "table"; "chair"; "house";
                 "garden"; "river"; "mountain"; "forest"; "ocean"];
     Analyzer.ents := [];
     Analyzer.noun_chunks := [] |}.

(** A pipeline that tags [eleven_nouns_text] as [eleven_nouns_doc]. *)
Definition eleven_nouns_nlp (text : string) : Analyzer.Doc := eleven_nouns_doc.

(** A pipeline and two scorers that find nothing: no tokens, polarity 0. *)
Definition silent_nlp (text : string) : Analyzer.Doc :=
  {| Analyzer.tokens := []; Analyzer.ents := []; Analyzer.noun_chunks := [] |}.

Definition neutral_polarity (text : string) : Q := 0%Q.

(** A pipeline that finds one person and one city and no nouns. *)
Definition two_entities_nlp (text : string) : Analyzer.Doc :=
  {| Analyzer.tokens := [];
     Analyzer.ents := [ {| Analyzer.ent_text := "Anna "; Analyzer.label_ := "PERSON" |};
                        {| Analyzer.ent_text := "Paris"; Analyzer.label_ := "GPE" |} ];
     Analyzer.noun_chunks := [] |}.

(** An entry with the given themes and stress level. *)
Definition themed_entry (day : Z) (themes : list string) (stress : option Q)
  : DreamEntry :=
  {| id := day;
     content := "a dream";
     dream_date := on_day day 8;
     sleep_quality := None;
     sentiment_score := Some 0.25%Q;
     emotions := None;
     themes := Some themes;
     dream_intensity := None;
     stress_level := stress |}.

(** Three entries: water twice, flying once; stress rising. *)
Definition themed_entries : list DreamEntry :=
  [themed_entry 0 ["water"; "flying"] (Some 0.25%Q);
   themed_entry 1 ["water"] (Some 0.5%Q);
   themed_entry 2 [] (Some 0.75%Q)].

(** Two tags as a user enters them. *)
Definition two_tags : list string := ["lucid"; "flying dream"].

(** Water is stored on three days a week apart, home three times on the
    second of these days. *)
Definition weekly_water : list DreamEntry :=
  [themed_entry 0 ["water"] None;
   themed_entry 7 ["water"; "home"] None;
   themed_entry 7 ["home"] None;
   themed_entry 7 ["home"] None;
   themed_entry 14 ["water"] None].

(** The text of a float, for the floats that are whole numbers; other
    floats are not printed in the examples. *)
Definition whole_float_text (x : Q) : string :=
  (Predictor.str_of_nat (Z.to_nat (Qfloor x)) ++ ".0")%string.


(** An entry with a sleep-quality rating and a sentiment. *)
Definition rated_entry (day quality : Z) (sentiment : Q) : DreamEntry :=
  {| id := day;
     content := "a dream";
     dream_date := on_day day 8;
     sleep_quality := Some quality;
     sentiment_score := Some sentiment;
     emotions := None;
     themes := None;
     dream_intensity := None;
     stress_level := None |}.

(** Four nights with three different ratings; the sentiment rises with the
    rating. *)
Definition rated_nights : list DreamEntry :=
  [rated_entry 0 3 (-0.5)%Q; rated_entry 1 6 0.25%Q;
   rated_entry 2 9 0.5%Q; rated_entry 3 6 0.25%Q].

(** A correlation that is exactly 0.3 whatever the data. *)
Definition borderline_corrcoef (x : list Z) (y : list Q) : float := Num 0.3%Q.

(** Joy and fear lead twice, joy and trust once; one entry stores a single
    emotion. *)
Definition mixed_emotions : list DreamEntry :=
  [entry 0 8 None (Some [("joy", 0.5%Q); ("fear", 0.25%Q); ("trust", 0.125%Q)]);
   entry 1 8 None (Some [("fear", 0.5%Q); ("joy", 0.5%Q)]);
   entry 2 8 None (Some [("trust", 0.25%Q); ("joy", 0.75%Q)]);
   entry 3 8 None (Some [("joy", 0.75%Q)])].



End Inputs.

(* ================================================================== *)
(** * Facts about the built-ins                                        *)
(* ================================================================== *)

Module PyFacts.
Import Py.

(** ** Rounding *)

Lemma round_half_even_comp (x y : Q) :
  (x == y)%Q -> round_half_even x = round_half_even y.
Proof.
  intros H. unfold round_half_even.
  rewrite (Qfloor_comp _ _ H).
  assert (E : ((x - inject_Z (Qfloor y)) ?= (1 # 2))%Q
              = ((y - inject_Z (Qfloor y)) ?= (1 # 2))%Q).
  { apply Qcompare_comp; [rewrite H; reflexivity | reflexivity]. }
  rewrite E. reflexivity.
Qed.

Lemma round_half_even_error (y : Q) :
  (- (1 # 2) <= inject_Z (round_half_even y) - y <= 1 # 2)%Q.
Proof.
  unfold round_half_even.
  pose proof (Qfloor_le y) as Hlo.
  pose proof (Qlt_floor y) as Hhi.
  rewrite inject_Z_plus in Hhi. change (inject_Z 1) with 1%Q in Hhi.
  destruct (Qcompare (y - inject_Z (Qfloor y)) (1 # 2)) eqn:C.
  - apply Qeq_alt in C.
    destruct (Z.even (Qfloor y));
      [| rewrite inject_Z_plus; change (inject_Z 1) with 1%Q]; lra.
  - apply Qlt_alt in C. lra.
  - apply Qgt_alt in C. rewrite inject_Z_plus. change (inject_Z 1) with 1%Q. lra.
Qed.

(** Rounding sees the value of a rational, not its representation. *)
Lemma round_comp (x y : Q) (n : nat) : (x == y)%Q -> round x n = round y n.
Proof.
  intros H. unfold round.
  rewrite (round_half_even_comp (x * inject_Z (10 ^ Z.of_nat n))
                                (y * inject_Z (10 ^ Z.of_nat n)));
    [reflexivity | rewrite H; reflexivity].
Qed.

(** Rounding to three decimals moves a value by at most 0.0005. *)
Lemma round3_error (x : Q) : (Qabs (round x 3 - x) <= 1 # 2000)%Q.
Proof.
  unfold round.
  change (inject_Z (10 ^ Z.of_nat 3)) with (1000 # 1)%Q.
  pose proof (round_half_even_error (x * (1000 # 1))) as [Hlo Hhi].
  unfold Qdiv. change (/ (1000 # 1))%Q with (1 # 1000)%Q.
  apply Qabs_Qle_condition. split; lra.
Qed.

Lemma round_zero (x : Q) (n : nat) : (x == 0)%Q -> (round x n == 0)%Q.
Proof.
  intros H. rewrite (round_comp x 0%Q n H). unfold round.
  assert (E : round_half_even (0 * inject_Z (10 ^ Z.of_nat n)) = 0%Z).
  { rewrite (round_half_even_comp _ 0%Q) by ring. reflexivity. }
  rewrite E. unfold Qdiv. ring.
Qed.

(** ** Comparisons *)

Lemma ltb_lt (a b : Q) : ltb a b = true <-> (a < b)%Q.
Proof.
  unfold ltb. rewrite negb_true_iff. split; intros H.
  - apply Qnot_le_lt. intros L. apply Qle_bool_iff in L. congruence.
  - destruct (Qle_bool b a) eqn:E; [| reflexivity].
    apply Qle_bool_iff in E. lra.
Qed.

Lemma ltb_ge (a b : Q) : ltb a b = false <-> (b <= a)%Q.
Proof.
  unfold ltb. rewrite negb_false_iff. apply Qle_bool_iff.
Qed.

Lemma gtb_gt (a b : Q) : gtb a b = true <-> (b < a)%Q.
Proof. unfold gtb. apply ltb_lt. Qed.

Lemma gtb_le (a b : Q) : gtb a b = false <-> (a <= b)%Q.
Proof. unfold gtb. apply ltb_ge. Qed.

(** ** Division *)

Lemma div_ok (a b : Q) : ~ (b == 0)%Q -> div a b = Ok (a / b)%Q.
Proof.
  intros H. unfold div. destruct (Qeq_bool b 0) eqn:E; [| reflexivity].
  apply Qeq_bool_iff in E. contradiction.
Qed.

Lemma of_nat_pos (n : nat) : 0 < n -> (0 < of_nat n)%Q.
Proof.
  intros H. unfold of_nat. change 0%Q with (inject_Z 0).
  rewrite <- Zlt_Qlt. lia.
Qed.

Lemma of_nat_nonzero (n : nat) : 0 < n -> ~ (of_nat n == 0)%Q.
Proof. intros H E. pose proof (of_nat_pos n H). lra. Qed.

(** ** Sums *)

Lemma fold_plus_shift (xs : list Q) (a : Q) :
  (fold_left Qplus xs a == a + fold_left Qplus xs 0)%Q.
Proof.
  revert a. induction xs as [| x xs IH]; intros a; simpl.
  - ring.
  - rewrite (IH (a + x)%Q), (IH (0 + x)%Q). ring.
Qed.

Lemma sum_nil : sum [] = 0%Q.
Proof. reflexivity. Qed.

Lemma sum_cons (x : Q) (xs : list Q) : (sum (x :: xs) == x + sum xs)%Q.
Proof.
  unfold sum. simpl. rewrite fold_plus_shift. ring.
Qed.

Lemma sum_app (xs ys : list Q) : (sum (xs ++ ys) == sum xs + sum ys)%Q.
Proof.
  induction xs as [| x xs IH]; simpl.
  - rewrite sum_nil. ring.
  - rewrite !sum_cons, IH. ring.
Qed.

(** Zero values do not change a sum: the truth-value filter of the
    averages drops only [None] and zeros. *)
Lemma sum_present_truthy (xs : list (option Q)) :
  (sum (present (filter truthy xs)) == sum (present xs))%Q.
Proof.
  induction xs as [| x xs IH]; simpl.
  - reflexivity.
  - destruct x as [q |]; simpl.
    + destruct (Qeq_bool q 0) eqn:E; simpl.
      * apply Qeq_bool_iff in E. rewrite sum_cons, IH, E. ring.
      * rewrite !sum_cons, IH. reflexivity.
    + exact IH.
Qed.

Lemma list_sum_ones {A : Type} (xs : list A) :
  list_sum (map (fun _ => 1) xs) = List.length xs.
Proof.
  induction xs as [| x xs IH]; simpl; [reflexivity | now rewrite IH].
Qed.

(** ** Rounding to three decimals *)

Lemma round3_rounded (x : Q) : Spec.rounded_to_3_decimals x (round x 3).
Proof.
  split.
  - exists (round_half_even (x * inject_Z (10 ^ Z.of_nat 3))). reflexivity.
  - eapply Qle_trans; [apply round3_error |]. vm_compute. discriminate.
Qed.

Lemma rounded_comp (x x' score score' : Q) :
  (x == x')%Q -> (score == score')%Q ->
  Spec.rounded_to_3_decimals x score -> Spec.rounded_to_3_decimals x' score'.
Proof.
  intros Hx Hs [[k Hk] Hab]. split.
  - exists k. now rewrite <- Hs.
  - now rewrite <- Hx, <- Hs.
Qed.

End PyFacts.

(* ================================================================== *)
(** * Facts about dictionaries                                         *)
(* ================================================================== *)

Module DictFacts.
Import Py PyFacts.

Section Dict.
Context {V : Type}.
Implicit Types (d : dict V) (k : string) (v : V).

Lemma dict_get_none d k : dict_get d k = None <-> ~ In k (keys d).
Proof.
  induction d as [| [k' v'] d IH]; simpl.
  - tauto.
  - destruct (String.eqb k k') eqn:E.
    + apply String.eqb_eq in E. subst. split; [discriminate | tauto].
    + apply String.eqb_neq in E. rewrite IH. split.
      * intros H [H' | H']; [congruence | tauto].
      * tauto.
Qed.

Lemma dict_get_set_same d k v : dict_get (dict_set d k v) k = Some v.
Proof.
  induction d as [| [k' v'] d IH]; simpl.
  - now rewrite String.eqb_refl.
  - destruct (String.eqb k k') eqn:E; simpl; rewrite E; [reflexivity | exact IH].
Qed.

Lemma dict_get_set_other d k k' v :
  k <> k' -> dict_get (dict_set d k v) k' = dict_get d k'.
Proof.
  intros N. induction d as [| [k0 v0] d IH]; simpl.
  - apply String.eqb_neq in N. rewrite String.eqb_sym in N. now rewrite N.
  - destruct (String.eqb k k0) eqn:E; simpl.
    + apply String.eqb_eq in E. subst k0.
      apply String.eqb_neq in N. rewrite String.eqb_sym in N. now rewrite N.
    + now rewrite IH.
Qed.

(** Setting a new key appends it. *)
Lemma dict_set_fresh d k v : ~ In k (keys d) -> dict_set d k v = d ++ [(k, v)].
Proof.
  induction d as [| [k' v'] d IH]; simpl; intros H.
  - reflexivity.
  - destruct (String.eqb k k') eqn:E.
    + apply String.eqb_eq in E. subst. tauto.
    + rewrite IH by tauto. reflexivity.
Qed.

(** Setting a present key keeps the keys. *)
Lemma keys_dict_set_present d k v : In k (keys d) -> keys (dict_set d k v) = keys d.
Proof.
  induction d as [| [k' v'] d IH]; simpl; intros H.
  - contradiction.
  - destruct (String.eqb k k') eqn:E; simpl.
    + reflexivity.
    + apply String.eqb_neq in E. rewrite IH; [reflexivity |].
      destruct H as [H | H]; [congruence | exact H].
Qed.

Lemma keys_dict_set_fresh d k v : ~ In k (keys d) -> keys (dict_set d k v) = keys d ++ [k].
Proof.
  intros H. rewrite dict_set_fresh by exact H. unfold keys. now rewrite map_app.
Qed.

Lemma NoDup_snoc (l : list string) (k : string) :
  NoDup l -> ~ In k l -> NoDup (l ++ [k]).
Proof.
  induction l as [| x l IH]; simpl; intros Hl Hk.
  - constructor; [tauto | constructor].
  - inversion Hl as [| ? ? Hx Hl']; subst. constructor.
    + rewrite in_app_iff. simpl. intros [H | [H | []]]; [tauto | subst; tauto].
    + apply IH; tauto.
Qed.

(** The keys of a dictionary stay distinct. *)
Lemma NoDup_keys_dict_set d k v : NoDup (keys d) -> NoDup (keys (dict_set d k v)).
Proof.
  intros H. destruct (in_dec string_dec k (keys d)) as [I | I].
  - now rewrite keys_dict_set_present.
  - rewrite keys_dict_set_fresh by exact I. now apply NoDup_snoc.
Qed.

Lemma length_dict_set_present d k v :
  In k (keys d) -> List.length (dict_set d k v) = List.length d.
Proof.
  intros H. rewrite <- (length_map fst (dict_set d k v)), <- (length_map fst d).
  fold (keys (dict_set d k v)). fold (keys d). now rewrite keys_dict_set_present.
Qed.
End Dict.

(** A comprehension over a dictionary maps its items, the keys being
    distinct. *)
Lemma dict_comp_map {V W : Type} (f : string -> V -> W) (d : dict V) :
  NoDup (keys d) ->
  dict_comp f d = map (fun kv => (fst kv, f (fst kv) (snd kv))) d.
Proof.
  unfold dict_comp.
  assert (G : forall acc : dict W,
             NoDup (keys d) ->
             (forall k, In k (keys d) -> ~ In k (keys acc)) ->
             fold_left (fun acc kv => dict_set acc (fst kv) (f (fst kv) (snd kv))) d acc
             = acc ++ map (fun kv => (fst kv, f (fst kv) (snd kv))) d).
  { induction d as [| [k v] d IH]; intros acc Hnd Hfresh; simpl.
    - now rewrite app_nil_r.
    - simpl in Hnd. inversion Hnd as [| ? ? Hk Hd]; subst.
      rewrite dict_set_fresh by (apply Hfresh; simpl; tauto).
      rewrite IH.
      + now rewrite <- app_assoc.
      + exact Hd.
      + intros k' Hk' Hin. unfold keys in Hin. rewrite map_app in Hin.
        apply in_app_or in Hin. destruct Hin as [Hin | Hin].
        * apply (Hfresh k'); [simpl; tauto | exact Hin].
        * simpl in Hin. destruct Hin as [Hin | []]. subst. tauto. }
  intros Hnd. rewrite G; [reflexivity | exact Hnd |]. intros k _ [].
Qed.

(** Adding [v] under a key adds [v] to the total of the values. *)
Lemma sum_values_dict_add (d : dict Q) (k : string) (v : Q) :
  (sum (values (Analyzer.dict_add d k v)) == sum (values d) + v)%Q.
Proof.
  unfold Analyzer.dict_add.
  induction d as [| [k' v'] d IH]; simpl.
  - rewrite sum_cons, sum_nil. ring.
  - destruct (String.eqb k k') eqn:E; simpl.
    + rewrite !sum_cons. ring.
    + rewrite !sum_cons. unfold values in *. rewrite IH. ring.
Qed.

Lemma NoDup_keys_dict_add (d : dict Q) (k : string) (v : Q) :
  NoDup (keys d) -> NoDup (keys (Analyzer.dict_add d k v)).
Proof. apply NoDup_keys_dict_set. Qed.

End DictFacts.

(* ================================================================== *)
(** * The entry aggregator: [generate_insights]                        *)
(* ================================================================== *)

Module AggregatorFacts.
Import Py PyFacts DictFacts Models.
Import Analyzer.

(** The stress trend analysis never divides by zero: both halves of two or
    more levels are non-empty. *)
Lemma stress_trend_of_ok (stress_levels : list Q) :
  exists label, stress_trend_of stress_levels = Ok label.
Proof.
  unfold stress_trend_of.
  destruct (Nat.leb 2 (List.length stress_levels)) eqn:E; [| eauto].
  apply Nat.leb_le in E.
  assert (H1 : 0 < List.length stress_levels / 2).
  { apply Nat.div_str_pos. lia. }
  assert (H2 : 0 < List.length stress_levels - List.length stress_levels / 2).
  { pose proof (Nat.div_lt (List.length stress_levels) 2). lia. }
  rewrite (div_ok _ _ (of_nat_nonzero _ H1)). simpl.
  rewrite (div_ok _ _ (of_nat_nonzero _ H2)). simpl.
  repeat match goal with |- context [if ?c then _ else _] => destruct c end; eauto.
Qed.

(** What [generate_insights] returns for a non-empty sequence. *)
Lemma generate_insights_some (entries : list DreamEntry) :
  entries <> [] ->
  exists label,
    stress_trend_of (present (map Models.stress_level entries)) = Ok label /\
    generate_insights entries =
      Ok (Some
            {| total_entries := List.length entries;
               avg_sentiment :=
                 round (sum (present (filter truthy (map Models.sentiment_score entries)))
                        / of_nat (List.length entries))%Q 3;
               dominant_emotion :=
                 match max_item (all_emotions_of entries) with
                 | Some item => fst item
                 | None => "neutral"
                 end;
               emotion_distribution :=
                 if gtb (sum (values (all_emotions_of entries))) 0%Q
                 then dict_comp
                        (fun _ score =>
                           round (score / sum (values (all_emotions_of entries)))%Q 3)
                        (all_emotions_of entries)
                 else [];
               recurring_themes :=
                 map fst (most_common 5 (Counter (all_themes_of entries)));
               stress_trend := label |}).
Proof.
  intros Hne.
  destruct (stress_trend_of_ok (present (map Models.stress_level entries))) as [label Hl].
  exists label. split; [exact Hl |].
  unfold generate_insights.
  destruct entries as [| e rest]; [congruence |].
  cbn [List.length Nat.eqb].
  rewrite div_ok by (apply of_nat_nonzero; simpl; lia).
  cbn [bind]. rewrite Hl. reflexivity.
Qed.

(** ** The aggregated emotions *)

Lemma NoDup_keys_fold_dict_add (items : dict Q) (acc : dict Q) :
  NoDup (keys acc) ->
  NoDup (keys (fold_left (fun a item => dict_add a (fst item) (snd item)) items acc)).
Proof.
  revert acc. induction items as [| [k v] items IH]; intros acc H; simpl.
  - exact H.
  - apply IH. now apply NoDup_keys_dict_add.
Qed.

Lemma sum_values_fold_dict_add (items : dict Q) (acc : dict Q) :
  (sum (values (fold_left (fun a item => dict_add a (fst item) (snd item)) items acc))
   == sum (values acc) + sum (values items))%Q.
Proof.
  revert acc. induction items as [| [k v] items IH]; intros acc; simpl.
  - rewrite sum_nil. ring.
  - rewrite IH, sum_values_dict_add, sum_cons. simpl. ring.
Qed.

Lemma NoDup_keys_aggregate (entries : list DreamEntry) (acc : dict Q) :
  NoDup (keys acc) ->
  NoDup (keys (fold_left
                 (fun all_emotions entry =>
                    match Models.emotions entry with
                    | Some emotions =>
                        fold_left (fun acc item => dict_add acc (fst item) (snd item))
                                  emotions all_emotions
                    | None => all_emotions
                    end)
                 entries acc)).
Proof.
  revert acc. induction entries as [| e entries IH]; intros acc H; simpl.
  - exact H.
  - apply IH.
    destruct (Models.emotions e); [now apply NoDup_keys_fold_dict_add | exact H].
Qed.

Lemma sum_values_aggregate (entries : list DreamEntry) (acc : dict Q) :
  (sum (values (fold_left
                  (fun all_emotions entry =>
                     match Models.emotions entry with
                     | Some emotions =>
                         fold_left (fun acc item => dict_add acc (fst item) (snd item))
                                   emotions all_emotions
                     | None => all_emotions
                     end)
                  entries acc))
   == sum (values acc) + Spec.emotion_grand_total entries)%Q.
Proof.
  unfold Spec.emotion_grand_total.
  revert acc. induction entries as [| e entries IH]; intros acc; simpl.
  - rewrite sum_nil. ring.
  - rewrite IH.
    destruct (Models.emotions e) as [d |].
    + rewrite sum_values_fold_dict_add, sum_app. ring.
    + simpl. ring.
Qed.

(** The keys of [all_emotions] are distinct. *)
Lemma NoDup_keys_all_emotions (entries : list DreamEntry) :
  NoDup (keys (all_emotions_of entries)).
Proof. apply NoDup_keys_aggregate. constructor. Qed.

(** The total of [all_emotions] is the grand total of the stored scores. *)
Lemma emotion_total_grand_total (entries : list DreamEntry) :
  (sum (values (all_emotions_of entries)) == Spec.emotion_grand_total entries)%Q.
Proof.
  unfold all_emotions_of.
  rewrite sum_values_aggregate. simpl. rewrite sum_nil. ring.
Qed.

(** ** Sums of rounded shares *)

Lemma sum_map_div (vs : list Q) (t : Q) :
  (sum (map (fun v => v / t) vs) == sum vs / t)%Q.
Proof.
  induction vs as [| v vs IH]; simpl.
  - rewrite sum_nil. unfold Qdiv. ring.
  - rewrite !sum_cons, IH. unfold Qdiv. ring.
Qed.

Lemma sum_map_round3 (f : Q -> Q) (vs : list Q) :
  (Qabs (sum (map (fun v => round (f v) 3) vs) - sum (map f vs))
   <= of_nat (List.length vs) * (1 # 2000))%Q.
Proof.
  induction vs as [| v vs IH].
  - vm_compute. discriminate.
  - cbn [map List.length]. rewrite !sum_cons.
    assert (E : (of_nat (S (List.length vs)) == 1 + of_nat (List.length vs))%Q).
    { unfold of_nat. rewrite Nat2Z.inj_succ, <- Z.add_1_l, inject_Z_plus. reflexivity. }
    rewrite E.
    pose proof (round3_error (f v)) as Hv.
    apply Qabs_Qle_condition in Hv. apply Qabs_Qle_condition in IH.
    apply Qabs_Qle_condition. split; lra.
Qed.

End AggregatorFacts.

Module AggregatorProperties.
Import Py PyFacts DictFacts Models.
Import Analyzer AggregatorFacts.

(** C1, as stated, fails: with one entry of sentiment 1.0 and one entry
    without a sentiment, [avg_sentiment] is 0.5 while the mean over the
    entries whose sentiment is present is 1. *)
Lemma avg_sentiment_is_not_mean_of_present :
  exists ins,
    generate_insights Inputs.scored_and_unscored = Ok (Some ins) /\
    (avg_sentiment ins == 1 # 2)%Q /\
    (Spec.mean_of_present Inputs.scored_and_unscored == 1)%Q /\
    ~ (avg_sentiment ins == Spec.mean_of_present Inputs.scored_and_unscored)%Q.
Proof.
  eexists. split; [vm_compute; reflexivity |].
  repeat split; try (vm_compute; reflexivity).
  vm_compute. discriminate.
Qed.

(** In the exact arithmetic of the model, [avg_sentiment] is the sum of
    the sentiments that are present divided by the number of all entries,
    rounded half to even at three decimals. *)
Lemma avg_sentiment_rounded_quotient (entries : list DreamEntry) :
  entries <> [] ->
  exists ins,
    generate_insights entries = Ok (Some ins) /\
    avg_sentiment ins
    = round (sum (Spec.present_sentiments entries) / of_nat (List.length entries))%Q 3 /\
    (Spec.present_sentiments entries = [] -> (avg_sentiment ins == 0)%Q).
Proof.
  intros Hne.
  destruct (generate_insights_some entries Hne) as [label [_ Hgen]].
  eexists. split; [exact Hgen |]. cbn [avg_sentiment].
  assert (E : (sum (present (filter truthy (map Models.sentiment_score entries)))
               / of_nat (List.length entries)
               == sum (Spec.present_sentiments entries)
                  / of_nat (List.length entries))%Q).
  { unfold Spec.present_sentiments. rewrite sum_present_truthy. reflexivity. }
  split.
  - apply round_comp. exact E.
  - intros Hnone. apply round_zero. rewrite E, Hnone, sum_nil.
    unfold Qdiv. ring.
Qed.

(** C1, amended: for every non-empty sequence of entries, [avg_sentiment]
    is the sum of the sentiments that are present divided by the number of
    all entries, rounded to three decimals.  Entries without a sentiment
    are left out of the numerator and still counted in the denominator.
    Nothing is raised, and entries that all lack a sentiment give 0. *)
Theorem avg_sentiment_over_all_entries (entries : list DreamEntry) :
  entries <> [] ->
  exists ins,
    generate_insights entries = Ok (Some ins) /\
    Spec.rounded_to_3_decimals
      (sum (Spec.present_sentiments entries) / of_nat (List.length entries))%Q
      (avg_sentiment ins) /\
    (Spec.present_sentiments entries = [] -> (avg_sentiment ins == 0)%Q).
Proof.
  intros Hne.
  destruct (avg_sentiment_rounded_quotient entries Hne) as (ins & Hgen & Havg & Hzero).
  exists ins. split; [exact Hgen |]. split; [| exact Hzero].
  rewrite Havg. apply round3_rounded.
Qed.

Lemma avg_sentiment_over_all_entries_witness :
  exists ins,
    generate_insights Inputs.scored_and_unscored = Ok (Some ins) /\
    Spec.rounded_to_3_decimals
      (sum (Spec.present_sentiments Inputs.scored_and_unscored)
       / of_nat (List.length Inputs.scored_and_unscored))%Q
      (avg_sentiment ins) /\
    (Spec.present_sentiments Inputs.scored_and_unscored = [] ->
     (avg_sentiment ins == 0)%Q).
Proof.
  apply (avg_sentiment_over_all_entries Inputs.scored_and_unscored).
  discriminate.
Defined.

(** C2, as stated, fails: on the empty sequence [generate_insights] raises
    no error. *)
Lemma generate_insights_empty_does_not_fail :
  ~ exists e, generate_insights [] = Err e.
Proof.
  intros [e H]. discriminate H.
Qed.

(** C2, amended: on the empty sequence [generate_insights] returns [None]
    instead of an insights record and raises nothing; [None] is returned
    for no other input. *)
Theorem generate_insights_empty_is_none :
  generate_insights [] = Ok None /\
  forall entries, generate_insights entries = Ok None -> entries = [].
Proof.
  split; [reflexivity |].
  intros entries H.
  destruct entries as [| e rest]; [reflexivity |].
  destruct (generate_insights_some (e :: rest)) as [label [_ Hgen]]; [discriminate |].
  rewrite Hgen in H. discriminate H.
Qed.

(** C7, as stated, fails: three emotions of equal total have the shares
    0.333, 0.333 and 0.333, whose sum 0.999 is further than 1e-6 from 1
    although the emotion total 1.5 is not zero. *)
Lemma emotion_distribution_sum_off_by_rounding :
  exists ins,
    generate_insights Inputs.three_equal_emotions = Ok (Some ins) /\
    ~ (Spec.emotion_grand_total Inputs.three_equal_emotions == 0)%Q /\
    (sum (values (emotion_distribution ins)) == 999 # 1000)%Q /\
    ~ (Qabs (sum (values (emotion_distribution ins)) - 1) <= 1 # 1000000)%Q.
Proof.
  eexists. split; [vm_compute; reflexivity |].
  split; [vm_compute; discriminate |].
  split; [vm_compute; reflexivity |].
  vm_compute. intros H. apply H. reflexivity.
Qed.

(** In the exact arithmetic of the model: when the grand total of the
    emotion scores is positive, the distribution gives every aggregated
    emotion its total divided by the grand total, rounded half to even at
    three decimals, and its values sum to 1 within 0.0005 per emotion;
    when the grand total is zero (or below) the distribution is empty. *)
Lemma emotion_distribution_rounded_shares (entries : list DreamEntry) (ins : Insights) :
  generate_insights entries = Ok (Some ins) ->
  ((0 < Spec.emotion_grand_total entries)%Q ->
   emotion_distribution ins
   = map (fun item =>
            (fst item,
             round (snd item / sum (values (all_emotions_of entries)))%Q 3))
         (all_emotions_of entries) /\
   (Qabs (sum (values (emotion_distribution ins)) - 1)
    <= of_nat (List.length (emotion_distribution ins)) * (1 # 2000))%Q) /\
  ((Spec.emotion_grand_total entries <= 0)%Q -> emotion_distribution ins = []).
Proof.
  intros Hgen.
  assert (Hne : entries <> []) by (intros ->; discriminate Hgen).
  destruct (generate_insights_some entries Hne) as [label [_ Hsome]].
  rewrite Hsome in Hgen. injection Hgen as <-. cbn [emotion_distribution].
  pose proof (emotion_total_grand_total entries) as Htot.
  set (d := all_emotions_of entries) in *.
  set (t := sum (values d)) in *.
  split.
  - intros Hpos.
    assert (Hgt : gtb t 0%Q = true) by (apply gtb_gt; lra).
    rewrite Hgt.
    rewrite dict_comp_map by apply NoDup_keys_all_emotions.
    split; [reflexivity |].
    unfold values at 1. rewrite map_map. cbn [snd fst].
    rewrite length_map.
    pose proof (sum_map_round3 (fun v => (v / t)%Q) (values d)) as Hr.
    unfold values in Hr at 1 2. rewrite !map_map in Hr.
    unfold values in Hr. rewrite length_map in Hr.
    pose proof (sum_map_div (values d) t) as Hd.
    unfold values in Hd at 1. rewrite map_map in Hd.
    assert (H1 : (sum (values d) / t == 1)%Q).
    { fold t. field. lra. }
    rewrite H1 in Hd.
    apply Qabs_Qle_condition in Hr. apply Qabs_Qle_condition.
    split; lra.
  - intros Hle.
    assert (Hgt : gtb t 0%Q = false) by (apply gtb_le; lra).
    rewrite Hgt. reflexivity.
Qed.

(** C7, amended: when the grand total of the emotion scores is positive,
    the distribution has the aggregated emotions as its keys and gives each
    of them its total divided by the grand total, rounded to three
    decimals; its values sum to 1 within 0.0006 per emotion.  When the
    grand total is zero (or below) the distribution is the empty map. *)
Theorem emotion_distribution_sum (entries : list DreamEntry) (ins : Insights) :
  generate_insights entries = Ok (Some ins) ->
  ((0 < Spec.emotion_grand_total entries)%Q ->
   keys (emotion_distribution ins) = keys (all_emotions_of entries) /\
   (forall emotion share,
       In (emotion, share) (emotion_distribution ins) ->
       exists score,
         In (emotion, score) (all_emotions_of entries) /\
         Spec.rounded_to_3_decimals (score / Spec.emotion_grand_total entries)%Q share) /\
   (Qabs (sum (values (emotion_distribution ins)) - 1)
    <= of_nat (List.length (emotion_distribution ins)) * 0.0006)%Q) /\
  ((Spec.emotion_grand_total entries <= 0)%Q -> emotion_distribution ins = []).
Proof.
  intros Hgen.
  destruct (emotion_distribution_rounded_shares entries ins Hgen) as [Hpos Hzero].
  split; [| exact Hzero].
  intros Htotal. destruct (Hpos Htotal) as [Hdist Hsum].
  split; [| split].
  - rewrite Hdist. unfold keys. rewrite map_map. reflexivity.
  - intros emotion share Hin. rewrite Hdist in Hin.
    apply in_map_iff in Hin. destruct Hin as ([name score] & [= <- <-] & Hin).
    exists score. split; [exact Hin |]. cbn [snd].
    eapply rounded_comp; [| reflexivity | apply round3_rounded].
    now rewrite emotion_total_grand_total.
  - eapply Qle_trans; [exact Hsum |].
    assert (Hn : (0 <= of_nat (List.length (emotion_distribution ins)))%Q).
    { unfold of_nat. change 0%Q with (inject_Z 0). rewrite <- Zle_Qle. lia. }
    assert (Hc : ((1 # 2000) <= 0.0006)%Q) by (vm_compute; discriminate).
    nra.
Qed.

Lemma emotion_distribution_sum_witness :
  exists ins,
    generate_insights Inputs.three_equal_emotions = Ok (Some ins) /\
    keys (emotion_distribution ins) = keys (all_emotions_of Inputs.three_equal_emotions) /\
    (forall emotion share,
        In (emotion, share) (emotion_distribution ins) ->
        exists score,
          In (emotion, score) (all_emotions_of Inputs.three_equal_emotions) /\
          Spec.rounded_to_3_decimals
            (score / Spec.emotion_grand_total Inputs.three_equal_emotions)%Q share) /\
    (Qabs (sum (values (emotion_distribution ins)) - 1)
     <= of_nat (List.length (emotion_distribution ins)) * 0.0006)%Q.
Proof.
  eexists. split; [vm_compute; reflexivity |].
  refine (proj1 (emotion_distribution_sum Inputs.three_equal_emotions _ _) _);
    [vm_compute; reflexivity | vm_compute; reflexivity].
Defined.

End AggregatorProperties.

(* ================================================================== *)
(** * The predictor                                                    *)
(* ================================================================== *)

Module PredictorFacts.
Import Py PyFacts Models.
Import Predictor.

(** ** Sorting *)

Section SortedFacts.
Context {A : Type} (key : A -> Z).

Lemma length_filter_insert (q : A -> bool) (x : A) (l : list A) :
  List.length (filter q (insert key x l)) = List.length (filter q (x :: l)).
Proof.
  induction l as [| y l IH]; [reflexivity |].
  cbn [insert].
  destruct (key y <? key x)%Z; [| reflexivity].
  cbn [filter] in *. destruct (q y), (q x); cbn [List.length] in *; lia.
Qed.

(** Sorting keeps the number of entries that pass a test. *)
Lemma length_filter_sorted (q : A -> bool) (l : list A) :
  List.length (filter q (sorted key l)) = List.length (filter q l).
Proof.
  induction l as [| x l IH]; [reflexivity |].
  cbn [sorted fold_right]. fold (sorted key l).
  rewrite length_filter_insert. cbn [filter].
  destruct (q x); cbn [List.length]; now rewrite IH.
Qed.

Lemma length_sorted (l : list A) : List.length (sorted key l) = List.length l.
Proof.
  pose proof (length_filter_sorted (fun _ => true) l) as H.
  rewrite !forallb_filter_id in H by (apply forallb_forall; reflexivity).
  exact H.
Qed.

(** A list already in key order is returned unchanged. *)
Lemma sorted_of_sorted (l : list A) :
  Sorted (fun a b => (key a <= key b)%Z) l -> sorted key l = l.
Proof.
  induction 1 as [| x l Hs IH Hhd]; [reflexivity |].
  cbn [sorted fold_right]. fold (sorted key l). rewrite IH.
  destruct Hhd as [| y l' Hxy]; [reflexivity |].
  cbn [insert].
  destruct (key y <? key x)%Z eqn:E1; [apply Z.ltb_lt in E1; lia | reflexivity].
Qed.
End SortedFacts.

(** ** Sequences *)

Lemma getlast_app {A : Type} (xs : list A) (x : A) : getlast (xs ++ [x]) = Ok x.
Proof. unfold getlast. rewrite rev_app_distr. reflexivity. Qed.

Lemma getlast_nonempty {A : Type} (xs : list A) :
  xs <> [] -> exists x, getlast xs = Ok x /\ rev xs = x :: rev (removelast xs).
Proof.
  intros H. destruct (exists_last H) as [l [x ->]].
  exists x. rewrite getlast_app, rev_app_distr, removelast_last. split; reflexivity.
Qed.

Lemma range_empty (a b : Z) : range a b = [] <-> (b <= a)%Z.
Proof.
  unfold range. split; intros H.
  - destruct (Z.to_nat (b - a)) eqn:E; [lia | discriminate H].
  - replace (Z.to_nat (b - a)) with 0 by lia. reflexivity.
Qed.

(** ** The training data of [predict_mood_trend] *)

(** The loop over the sorted entries collects the offsets from the first
    listed entry and the sentiments, and raises nothing. *)
Lemma prepare_loop (entries : list DreamEntry) (first : DreamEntry)
      (l : list DreamEntry) (dates : list Z) (sentiments : list Q) :
  getitem entries 0 = Ok first ->
  for_each
    (fun (acc : list Z * list Q) entry =>
       let (dates, sentiments) := acc in
       match sentiment_score entry with
       | Some sentiment =>
           bind (getitem entries 0)
                (fun first =>
                   Ok (dates ++ [days_between (dream_date entry) (dream_date first)],
                       sentiments ++ [sentiment]))
       | None => Ok (dates, sentiments)
       end)
    l (dates, sentiments)
  = Ok (dates ++ map (fun e => days_between (dream_date e) (dream_date first))
                     (Spec.qualifying l),
        sentiments ++ present (map sentiment_score l)).
Proof.
  intros Hfirst. rewrite Hfirst. cbn [bind]. revert dates sentiments.
  induction l as [| e l IH]; intros dates sentiments.
  - cbn. now rewrite !app_nil_r.
  - cbn [for_each Spec.qualifying filter map present flat_map].
    destruct (sentiment_score e) as [s |]; cbn [is_not_none bind].
    + rewrite IH. cbn [map app]. now rewrite <- !app_assoc.
    + rewrite IH. reflexivity.
Qed.

Lemma length_present_qualifying (l : list DreamEntry) :
  List.length (present (map sentiment_score l)) = List.length (Spec.qualifying l).
Proof.
  induction l as [| e l IH]; [reflexivity |].
  cbn [map present flat_map Spec.qualifying filter].
  destruct (sentiment_score e); cbn [is_not_none app List.length].
  - f_equal. exact IH.
  - exact IH.
Qed.

(** The offsets of the training data number as many as the qualifying
    entries. *)
Lemma length_offsets_from (origin : datetime) (entries : list DreamEntry) :
  List.length (Spec.offsets_from origin entries)
  = List.length (Spec.qualifying entries).
Proof.
  unfold Spec.offsets_from, Spec.qualifying.
  rewrite length_map. apply length_filter_sorted.
Qed.

Section Forecast.
Variable model_fit : list Z -> list Q -> result Line.

(** [predict_mood_trend] once its first guard is passed. *)
Lemma predict_mood_trend_prepared (entries : list DreamEntry) (days_ahead : Z) :
  7 <= List.length entries ->
  predict_mood_trend model_fit entries days_ahead =
    if Nat.ltb (List.length (Spec.qualifying entries)) 3 then Ok None
    else try_except
           (fit_and_forecast model_fit (Spec.training_dates entries)
                             (Spec.chronological_sentiments entries) days_ahead)
           (fun _ => Ok None).
Proof.
  intros H7. destruct entries as [| first rest]; [simpl in H7; lia |].
  unfold predict_mood_trend.
  destruct (Nat.ltb (List.length (first :: rest)) 7) eqn:E7;
    [apply Nat.ltb_lt in E7; lia |].
  rewrite (prepare_loop (first :: rest) first) by reflexivity.
  cbn [bind fst snd app].
  fold (Spec.offsets_from (dream_date first) (first :: rest)).
  fold (Spec.chronological_sentiments (first :: rest)).
  rewrite length_offsets_from at 1. reflexivity.
Qed.

(** The [try] statement returns [None] exactly when the fit raises or no
    day is asked for. *)
Lemma guarded_block_cases (dates : list Z) (sentiments : list Q) (days_ahead : Z) :
  dates <> [] ->
  ((exists e, model_fit dates sentiments = Err e) /\
   try_except (fit_and_forecast model_fit dates sentiments days_ahead)
              (fun _ => Ok None) = Ok None)
  \/
  ((exists line, model_fit dates sentiments = Ok line) /\
   (days_ahead < 1)%Z /\
   try_except (fit_and_forecast model_fit dates sentiments days_ahead)
              (fun _ => Ok None) = Ok None)
  \/
  ((1 <= days_ahead)%Z /\
   exists line first_prediction last_prediction,
     model_fit dates sentiments = Ok line /\
     let future_days := Spec.offsets_ahead dates days_ahead in
     let predictions :=
       map (fun x => (coef_ line * inject_Z x + intercept_ line)%Q) future_days in
     getitem predictions 0 = Ok first_prediction /\
     getlast predictions = Ok last_prediction /\
     try_except (fit_and_forecast model_fit dates sentiments days_ahead)
              (fun _ => Ok None) =
       Ok (Some {| days := future_days;
                   predictions := predictions;
                   trend := if gtb last_prediction first_prediction
                            then "improving" else "declining";
                   confidence := if Nat.ltb (List.length dates) 14 then "low"
                                 else if Nat.ltb (List.length dates) 30
                                      then "medium" else "high" |})).
Proof.
  intros Hne. unfold fit_and_forecast.
  destruct (model_fit dates sentiments) as [line | e] eqn:Efit;
    [| left; split; [eauto | reflexivity]].
  right. cbn [bind].
  destruct (getlast_nonempty dates Hne) as [last_day [Hlast Hrev]].
  rewrite Hlast. cbn [bind].
  unfold Spec.offsets_ahead. rewrite Hrev.
  destruct (Z_lt_le_dec days_ahead 1) as [Hd | Hd].
  - left. split; [eauto |]. split; [exact Hd |].
    rewrite (proj2 (range_empty 1 (days_ahead + 1))) by lia. reflexivity.
  - right. split; [exact Hd |].
    destruct (map (fun i => (last_day + i)%Z) (range 1 (days_ahead + 1)))
      as [| d0 ds] eqn:Ef.
    { apply map_eq_nil in Ef. apply range_empty in Ef. lia. }
    cbn [predict bind].
    set (preds := map (fun x => (coef_ line * inject_Z x + intercept_ line)%Q) (d0 :: ds)).
    assert (Hp : preds <> []) by discriminate.
    destruct (getlast_nonempty preds Hp) as [last_prediction [Hpl _]].
    exists line, (coef_ line * inject_Z d0 + intercept_ line)%Q, last_prediction.
    split; [reflexivity |]. cbn zeta.
    split; [reflexivity |]. split; [exact Hpl |].
    rewrite Hpl. reflexivity.
Qed.
End Forecast.

(** For entries listed in chronological order the training offsets are
    measured from the earliest entry. *)
Lemma training_dates_chronological (entries : list DreamEntry) :
  Sorted (fun a b => (by_dream_date a <= by_dream_date b)%Z) entries ->
  Spec.training_dates entries = Spec.offsets_from_earliest entries.
Proof.
  intros Hs. unfold Spec.training_dates, Spec.offsets_from_earliest.
  rewrite (sorted_of_sorted by_dream_date entries Hs).
  reflexivity.
Qed.

(** ** The time-of-day analysis *)

(** The two buckets of [_analyze_time_patterns]. *)
Lemma time_buckets (entries : list DreamEntry)
      (morning evening : list (option Q)) :
  fold_left
    (fun (acc : list (option Q) * list (option Q)) entry =>
       let (morning_dreams, evening_dreams) := acc in
       if (hour (dream_date entry) <? 12)%Z
       then (morning_dreams ++ [sentiment_score entry], evening_dreams)
       else (morning_dreams, evening_dreams ++ [sentiment_score entry]))
    entries (morning, evening)
  = (morning ++ map sentiment_score
                    (filter (fun e => (hour (dream_date e) <? 12)%Z) entries),
     evening ++ map sentiment_score
                    (filter (fun e => negb (hour (dream_date e) <? 12)%Z) entries)).
Proof.
  revert morning evening.
  induction entries as [| e entries IH]; intros morning evening.
  - cbn. now rewrite !app_nil_r.
  - cbn [fold_left filter].
    destruct (hour (dream_date e) <? 12)%Z; cbn [negb]; rewrite IH;
      cbn [map]; now rewrite <- ?app_assoc.
Qed.


End PredictorFacts.

Module PredictorProperties.
Import Py PyFacts Models.
Import Predictor PredictorFacts.

(** C3, as stated, fails: seven chronological entries that all have a
    sentiment are neither too few nor make the fit fail, and still
    [predict_mood_trend] returns [None] when no day ahead is asked for. *)
Lemma predict_none_with_enough_data :
  List.length Inputs.rising_week = 7 /\
  List.length (Spec.qualifying Inputs.rising_week) = 7 /\
  (exists line,
     ols_fit (Spec.training_dates Inputs.rising_week)
             (Spec.chronological_sentiments Inputs.rising_week) = Ok line) /\
  predict_mood_trend ols_fit Inputs.rising_week 0 = Ok None.
Proof.
  split; [reflexivity |]. split; [reflexivity |].
  split; [eexists; reflexivity |].
  vm_compute. reflexivity.
Qed.

(** C3, amended: [predict_mood_trend] never propagates an exception, and it
    returns [None] exactly when there are fewer than 7 entries, or fewer
    than 3 entries with a sentiment, or the line fitting raises, or fewer
    than one day ahead is asked for; in all other cases it returns a
    forecast. *)
Theorem predict_none_cases
        (model_fit : list Z -> list Q -> result Line)
        (entries : list DreamEntry) (days_ahead : Z) :
  (exists r, predict_mood_trend model_fit entries days_ahead = Ok r) /\
  (predict_mood_trend model_fit entries days_ahead = Ok None <->
   List.length entries < 7 \/
   List.length (Spec.qualifying entries) < 3 \/
   (exists e, model_fit (Spec.training_dates entries)
                        (Spec.chronological_sentiments entries) = Err e) \/
   (days_ahead < 1)%Z).
Proof.
  destruct (Nat.ltb (List.length entries) 7) eqn:E7.
  - unfold predict_mood_trend. rewrite E7. apply Nat.ltb_lt in E7.
    split; [eauto | split; [tauto | reflexivity]].
  - apply Nat.ltb_ge in E7.
    rewrite (predict_mood_trend_prepared model_fit entries days_ahead E7).
    destruct (Nat.ltb (List.length (Spec.qualifying entries)) 3) eqn:E3.
    + apply Nat.ltb_lt in E3. split; [eauto | split; [tauto | reflexivity]].
    + apply Nat.ltb_ge in E3.
      assert (Hne : Spec.training_dates entries <> []).
      { destruct entries as [| first rest]; [simpl in E7; lia |].
        unfold Spec.training_dates. intros Hnil.
        apply (f_equal (@List.length Z)) in Hnil.
        rewrite length_offsets_from in Hnil.
        change (List.length (@nil Z)) with 0 in Hnil. lia. }
      destruct (guarded_block_cases model_fit (Spec.training_dates entries)
                  (Spec.chronological_sentiments entries) days_ahead Hne)
        as [[[e He] Hb] | [[[line Hl] [Hd Hb]] | [Hd [line [p0 [pn [Hl [_ [_ Hb]]]]]]]]];
        rewrite Hb.
      * split; [eauto | split; [intros _ | reflexivity]]. eauto.
      * split; [eauto | split; [intros _ | reflexivity]]. tauto.
      * split; [eauto |]. split; [discriminate |].
        intros [H | [H | [[e He] | H]]]; try lia.
        rewrite Hl in He. discriminate He.
Qed.

(** C4 on seven entries listed with the latest first: the offsets are
    measured from the first listed entry, not from the earliest one, so the
    training offsets are -6 .. 0 instead of 0 .. 6 and the forecast covers
    the offsets 1 .. 7 instead of 7 .. 13. *)
Theorem forecast_days_from_first_listed_entry :
  exists f,
    predict_mood_trend ols_fit Inputs.rising_week_latest_first 7 = Ok (Some f) /\
    Spec.training_dates Inputs.rising_week_latest_first
    = [-6; -5; -4; -3; -2; -1; 0]%Z /\
    Spec.offsets_from_earliest Inputs.rising_week_latest_first
    = [0; 1; 2; 3; 4; 5; 6]%Z /\
    days f = [1; 2; 3; 4; 5; 6; 7]%Z /\
    Spec.offsets_ahead (Spec.offsets_from_earliest Inputs.rising_week_latest_first) 7
    = [7; 8; 9; 10; 11; 12; 13]%Z.
Proof.
  eexists. split; [vm_compute; reflexivity |].
  repeat split; vm_compute; reflexivity.
Qed.

(** What a returned forecast is made of: the line fitted to the training
    data, evaluated at the offsets that follow the last training offset,
    the trend comparing its last value with its first. *)
Lemma forecast_shape
      (model_fit : list Z -> list Q -> result Line)
      (entries : list DreamEntry) (days_ahead : Z) (f : Forecast) :
  predict_mood_trend model_fit entries days_ahead = Ok (Some f) ->
  exists line first_prediction last_prediction,
    model_fit (Spec.training_dates entries)
              (Spec.chronological_sentiments entries) = Ok line /\
    days f = Spec.offsets_ahead (Spec.training_dates entries) days_ahead /\
    predictions f
    = map (fun x => (coef_ line * inject_Z x + intercept_ line)%Q) (days f) /\
    getitem (predictions f) 0 = Ok first_prediction /\
    getlast (predictions f) = Ok last_prediction /\
    ((first_prediction < last_prediction)%Q -> trend f = "improving") /\
    ((last_prediction <= first_prediction)%Q -> trend f = "declining").
Proof.
  intros H.
  destruct (Nat.ltb (List.length entries) 7) eqn:E7.
  { unfold predict_mood_trend in H. rewrite E7 in H. discriminate H. }
  apply Nat.ltb_ge in E7.
  rewrite (predict_mood_trend_prepared model_fit entries days_ahead E7) in H.
  destruct (Nat.ltb (List.length (Spec.qualifying entries)) 3) eqn:E3;
    [discriminate H |].
  apply Nat.ltb_ge in E3.
  assert (Hne : Spec.training_dates entries <> []).
  { destruct entries as [| first rest]; [simpl in E7; lia |].
    unfold Spec.training_dates. intros Hnil.
    apply (f_equal (@List.length Z)) in Hnil.
    rewrite length_offsets_from in Hnil.
        change (List.length (@nil Z)) with 0 in Hnil. lia. }
  destruct (guarded_block_cases model_fit (Spec.training_dates entries)
              (Spec.chronological_sentiments entries) days_ahead Hne)
    as [[_ Hb] | [[_ [_ Hb]] | [Hd [line [p0 [pn [Hl [H0 [Hn Hb]]]]]]]]];
    rewrite Hb in H; try discriminate H.
  injection H as <-. cbn [days predictions trend].
  exists line, p0, pn. cbn zeta in H0, Hn.
  repeat split; try assumption.
  - intros Hlt. apply gtb_gt in Hlt. now rewrite Hlt.
  - intros Hle. apply gtb_le in Hle. now rewrite Hle.
Qed.

(** C9 on a morning entry without a sentiment and an evening entry with
    one: both buckets are non-empty and [_analyze_time_patterns] raises a
    [TypeError] instead of returning. *)
Theorem time_patterns_raise_on_missing_sentiment :
  map (fun e => hour (dream_date e)) Inputs.unscored_morning = [7; 22]%Z /\
  map sentiment_score Inputs.unscored_morning = [None; Some 0.5%Q] /\
  _analyze_time_patterns Inputs.unscored_morning = Err TypeError.
Proof.
  repeat split.
Qed.

(** X25 ([_analyze_time_patterns]): the analysis returns [None] when no
    entry lies before noon or no entry lies at or after noon. *)
Lemma time_patterns_none_on_empty_bucket (entries : list DreamEntry) :
  filter (fun e => (hour (dream_date e) <? 12)%Z) entries = [] \/
  filter (fun e => negb (hour (dream_date e) <? 12)%Z) entries = [] ->
  _analyze_time_patterns entries = Ok None.
Proof.
  intros H. unfold _analyze_time_patterns.
  rewrite time_buckets. cbn [fst snd app].
  destruct H as [H | H]; rewrite H; cbn [map List.length Nat.eqb negb andb].
  - reflexivity.
  - now rewrite andb_false_r.
Qed.

Lemma time_patterns_none_on_empty_bucket_witness :
  _analyze_time_patterns Inputs.rising_week = Ok None.
Proof.
  apply (time_patterns_none_on_empty_bucket Inputs.rising_week).
  right. reflexivity.
Defined.



(** ** The personalised insights *)

(** With fewer than five entries [generate_personalized_insights] skips
    its rules and asks for more data. *)
Lemma personalized_insights_need_more_data (entries : list DreamEntry) :
  List.length entries < 5 ->
  exists message tips,
    generate_personalized_insights entries = Ok (NeedMoreData message tips).
Proof.
  intros H. unfold generate_personalized_insights.
  apply Nat.ltb_lt in H. rewrite H. eauto.
Qed.

(** On five fearful entries of sentiment -0.5 its recommendations are the
    two of the negative recent sentiment and the one of frequent
    recording; the dominant emotion plays no part in them. *)
Lemma personalized_insights_fearful_week :
  exists insights stats,
    generate_personalized_insights Inputs.fearful_week
    = Ok (Personalized
            insights
            ["Consider stress-reduction techniques before bed";
             "Try journaling worries before sleep";
             "Your detailed records will provide rich insights"]
            stats).
Proof.
  do 2 eexists. vm_compute. reflexivity.
Qed.

End PredictorProperties.

(* ================================================================== *)
(** * The text signal extractor                                        *)
(* ================================================================== *)

Module TextFacts.
Import Py PyFacts DictFacts.
Import Analyzer.

(** ** White space and stripping *)

Lemma lstrip_whitespace_only (s : string) :
  Spec.whitespace_only s = true -> lstrip s = EmptyString.
Proof.
  induction s as [| c s IH]; [reflexivity |].
  cbn [Spec.whitespace_only lstrip]. intros H.
  apply andb_true_iff in H. destruct H as [Hc Hs].
  rewrite Hc. apply IH. exact Hs.
Qed.

Lemma strip_whitespace_only (s : string) :
  Spec.whitespace_only s = true -> strip s = EmptyString.
Proof.
  intros H. unfold strip. rewrite (lstrip_whitespace_only s H). reflexivity.
Qed.

Lemma rstrip_empty (s : string) :
  rstrip s = EmptyString -> Spec.whitespace_only s = true.
Proof.
  induction s as [| c s IH]; [reflexivity |].
  cbn [rstrip Spec.whitespace_only].
  destruct (rstrip s) eqn:E; [| discriminate].
  destruct (isspace c); [| discriminate].
  intros _. now rewrite IH.
Qed.

Lemma lstrip_empty (s : string) :
  Spec.whitespace_only (lstrip s) = true -> Spec.whitespace_only s = true.
Proof.
  induction s as [| c s IH]; [reflexivity |].
  cbn [lstrip]. destruct (isspace c) eqn:E.
  - intros H. cbn [Spec.whitespace_only]. rewrite E. now apply IH.
  - cbn [Spec.whitespace_only]. now rewrite E.
Qed.

(** [strip] returns the empty string exactly on white space. *)
Lemma strip_empty_iff (s : string) :
  strip s = EmptyString <-> Spec.whitespace_only s = true.
Proof.
  split; [| apply strip_whitespace_only].
  intros H. apply lstrip_empty, rstrip_empty. exact H.
Qed.

(** The guard of [analyze_dream] tests for an empty or white-space text. *)
Lemma empty_guard_iff (content : string) :
  negb (nonempty content) || negb (nonempty (strip content)) = true
  <-> Spec.whitespace_only content = true.
Proof.
  rewrite <- strip_empty_iff. split.
  - intros H. apply orb_true_iff in H. destruct H as [H | H].
    + destruct content; [reflexivity | discriminate H].
    + destruct (strip content); [reflexivity | discriminate H].
  - intros H. rewrite H. apply orb_true_r.
Qed.

(** ** Substrings *)







Lemma NoDup_keys_emotion_keywords : NoDup (keys emotion_keywords).
Proof.
  unfold emotion_keywords, keys. cbn [map fst].
  repeat (constructor; [cbn [In]; intuition discriminate |]).
  constructor.
Qed.

(** ** Emotion detection *)

Section Detect.
Variable nlp : string -> Doc.

Lemma word_count_floor (n : nat) : (if Nat.eqb n 0 then 1 else n) = Nat.max 1 n.
Proof. destruct n as [| [| n]]; reflexivity. Qed.

Lemma word_count_divisor (doc : Doc) :
  ~ (of_nat (Spec.word_count doc) * 0.1 == 0)%Q.
Proof.
  assert (H : (0 < of_nat (Spec.word_count doc))%Q).
  { apply of_nat_pos. unfold Spec.word_count. lia. }
  lra.
Qed.

(** The loop of [_detect_emotions] over a lexicon whose categories are
    distinct and not yet scored. *)
Lemma detect_loop (text : string) (lexicon : dict (list string)) (scores : dict Q) :
  NoDup (keys lexicon) ->
  (forall k, In k (keys lexicon) -> ~ In k (keys scores)) ->
  for_each
    (fun emotion_scores (item : string * list string) =>
       let (emotion, keywords) := item in
       bind (div (of_nat (list_sum
                            (map (fun _ => 1)
                                 (filter (fun keyword => contains (lower text) keyword)
                                         keywords))))
                 (of_nat (Spec.word_count (nlp text)) * 0.1)%Q)
            (fun quotient =>
               Ok (dict_set emotion_scores emotion (round (min quotient 1.0%Q) 3))))
    lexicon scores
  = Ok (scores ++ map (fun item =>
                         (fst item, Spec.emotion_score (nlp text) text (snd item)))
                      lexicon).
Proof.
  revert scores. induction lexicon as [| [emotion keywords] lexicon IH];
    intros scores Hnd Hfresh.
  - cbn. now rewrite app_nil_r.
  - cbn [for_each]. rewrite div_ok by apply word_count_divisor.
    cbn [bind]. cbn [keys map fst] in Hnd, Hfresh.
    inversion Hnd as [| ? ? Hk Hd]; subst.
    rewrite dict_set_fresh by (apply Hfresh; cbn; tauto).
    rewrite IH.
    + rewrite <- app_assoc. cbn [app map fst snd].
      unfold Spec.emotion_score at 2, Spec.matches.
      rewrite list_sum_ones. reflexivity.
    + exact Hd.
    + intros k Hin Hin'. unfold keys in Hin'. rewrite map_app in Hin'.
      apply in_app_or in Hin'. destruct Hin' as [Hin' | Hin'].
      * apply (Hfresh k); [cbn; tauto | exact Hin'].
      * cbn in Hin'. destruct Hin' as [<- | []]. tauto.
Qed.

(** [_detect_emotions] scores every category of the lexicon by the
    formula and raises nothing. *)
Lemma detect_emotions_scores (text : string) :
  _detect_emotions nlp text
  = Ok (map (fun item => (fst item, Spec.emotion_score (nlp text) text (snd item)))
            emotion_keywords).
Proof.
  unfold _detect_emotions. rewrite word_count_floor.
  fold (Spec.word_count (nlp text)).
  rewrite detect_loop.
  - reflexivity.
  - apply NoDup_keys_emotion_keywords.
  - intros k _ [].
Qed.
End Detect.



(** ** Entities *)

Lemma NoDup_distinct (xs : list string) : NoDup (distinct xs).
Proof.
  induction xs as [| x xs IH]; [constructor |].
  cbn [distinct]. constructor.
  - intros Hin. apply filter_In in Hin. destruct Hin as [_ Hin].
    now rewrite String.eqb_refl in Hin.
  - now apply NoDup_filter.
Qed.

Lemma distinct_NoDup (xs : list string) : NoDup xs -> distinct xs = xs.
Proof.
  induction 1 as [| x xs Hx _ IH]; [reflexivity |].
  cbn [distinct]. rewrite IH. f_equal.
  apply forallb_filter_id, forallb_forall. intros y Hy.
  apply negb_true_iff, String.eqb_neq. intros ->. tauto.
Qed.

Lemma distinct_idempotent (xs : list string) : distinct (distinct xs) = distinct xs.
Proof. apply distinct_NoDup, NoDup_distinct. Qed.

(** The loop over the named entities keeps the four categories. *)
Lemma entity_loop_shape (spans : list Span) (people places organizations other : list string) :
  exists people' places' organizations' other',
    fold_left
      (fun entities ent =>
         if String.eqb (label_ ent) "PERSON" then
           dict_append entities "people" (strip (ent_text ent))
         else if existsb (String.eqb (label_ ent)) ["GPE"; "LOC"; "FAC"] then
           dict_append entities "places" (strip (ent_text ent))
         else if String.eqb (label_ ent) "ORG" then
           dict_append entities "organizations" (strip (ent_text ent))
         else
           dict_append entities "other" (strip (ent_text ent)))
      spans
      [("people", people); ("places", places);
       ("organizations", organizations); ("other", other)]
    = [("people", people'); ("places", places');
       ("organizations", organizations'); ("other", other')].
Proof.
  revert people places organizations other.
  induction spans as [| ent spans IH]; intros people places organizations other.
  - cbn. eauto.
  - cbn [fold_left].
    destruct (String.eqb (label_ ent) "PERSON"); [apply IH |].
    destruct (existsb (String.eqb (label_ ent)) ["GPE"; "LOC"; "FAC"]); [apply IH |].
    destruct (String.eqb (label_ ent) "ORG"); apply IH.
Qed.

(** The [symbols] of [_extract_entities]: the first ten qualifying nouns
    are taken, and only then are duplicates dropped. *)
Lemma symbols_of_extract_entities (nlp : string -> Doc) (text : string) :
  dict_get (_extract_entities nlp text) "symbols"
  = Some (distinct (firstn 10 (Spec.qualifying_nouns (nlp text)))).
Proof.
  unfold _extract_entities. cbv zeta.
  destruct (entity_loop_shape (ents (nlp text)) [] [] [] [])
    as [people [places [organizations [other Hloop]]]].
  rewrite Hloop. fold (Spec.qualifying_nouns (nlp text)).
  cbn. rewrite distinct_idempotent. reflexivity.
Qed.

End TextFacts.

Module TextProperties.
Import Py PyFacts DictFacts.
Import Analyzer TextFacts.

(** C5: for every empty or white-space-only text [analyze_dream] returns,
    without raising, the zero vector: sentiment 0, every emotion of the
    lexicon at 0, an empty list for every entity category, no themes,
    intensity 0 and stress 0. *)
Theorem empty_text_zero_vector
        (nlp : string -> Doc) (vader_compound textblob_polarity : string -> Q)
        (content : string) :
  Spec.whitespace_only content = true ->
  analyze_dream nlp vader_compound textblob_polarity content = Ok Spec.zero_vector.
Proof.
  intros H. unfold analyze_dream.
  rewrite (proj2 (empty_guard_iff content) H). reflexivity.
Qed.

Lemma empty_text_zero_vector_witness :
  analyze_dream Inputs.silent_nlp Inputs.neutral_polarity Inputs.neutral_polarity
                "   "
  = Ok Spec.zero_vector.
Proof.
  apply (empty_text_zero_vector Inputs.silent_nlp Inputs.neutral_polarity
                                Inputs.neutral_polarity "   ").
  reflexivity.
Defined.




(** C10 on a text of eleven qualifying nouns, ten of them distinct, whose
    second noun repeats the first: [symbols] has nine entries, the distinct
    nouns among the first ten, while the first ten distinct nouns are ten. *)
Theorem symbols_deduplicated_after_truncation :
  dict_get (_extract_entities Inputs.eleven_nouns_nlp Inputs.eleven_nouns_text)
           "symbols"
  = Some ["door"; "window"; "table"; "chair"; "house"; "garden"; "river";
          "mountain"; "forest"] /\
  Spec.first_distinct_nouns (Inputs.eleven_nouns_nlp Inputs.eleven_nouns_text)
  = ["door"; "window"; "table"; "chair"; "house"; "garden"; "river";
     "mountain"; "forest"; "ocean"] /\
  List.length (distinct (Spec.qualifying_nouns
                           (Inputs.eleven_nouns_nlp Inputs.eleven_nouns_text))) = 10.
Proof.
  repeat split.
Qed.

End TextProperties.

(* ================================================================== *)
(** * Ranges of the extracted signals                                  *)
(* ================================================================== *)

Module RangeFacts.
Import Py PyFacts DictFacts.
Import Analyzer TextFacts.

(** ** Rounding keeps integer bounds *)

Lemma round_half_even_ge (y : Q) (m : Z) :
  (inject_Z m <= y)%Q -> (m <= round_half_even y)%Z.
Proof.
  intros H. unfold round_half_even.
  assert (Hf : (m <= Qfloor y)%Z).
  { rewrite <- (Qfloor_Z m). apply Qfloor_resp_le. exact H. }
  destruct (Qcompare (y - inject_Z (Qfloor y)) (1 # 2)); [| lia | lia].
  destruct (Z.even (Qfloor y)); lia.
Qed.

Lemma round_half_even_le (y : Q) (m : Z) :
  (y <= inject_Z m)%Q -> (round_half_even y <= m)%Z.
Proof.
  intros H. unfold round_half_even.
  pose proof (Qfloor_le y) as Hlo.
  assert (Hf : (Qfloor y <= m)%Z).
  { rewrite Zle_Qle. lra. }
  assert (Hup : (0 < y - inject_Z (Qfloor y))%Q -> (Qfloor y + 1 <= m)%Z).
  { intros Hpos. assert (Hlt : (inject_Z (Qfloor y) < inject_Z m)%Q) by lra.
    rewrite <- Zlt_Qlt in Hlt. lia. }
  destruct (Qcompare (y - inject_Z (Qfloor y)) (1 # 2)) eqn:C.
  - apply Qeq_alt in C. destruct (Z.even (Qfloor y)); [exact Hf |].
    apply Hup. lra.
  - exact Hf.
  - apply Qgt_alt in C. apply Hup. lra.
Qed.

(** Rounding to three decimals stays at or above an integer lower bound
    and at or below an integer upper bound. *)
Lemma round3_ge (x : Q) (m : Z) : (inject_Z m <= x)%Q -> (inject_Z m <= round x 3)%Q.
Proof.
  intros H. unfold round.
  change (inject_Z (10 ^ Z.of_nat 3)) with (1000 # 1)%Q.
  assert (Hy : (inject_Z (m * 1000) <= x * (1000 # 1))%Q).
  { rewrite inject_Z_mult. change (inject_Z 1000) with (1000 # 1)%Q. lra. }
  apply round_half_even_ge in Hy. rewrite Zle_Qle, inject_Z_mult in Hy.
  change (inject_Z 1000) with (1000 # 1)%Q in Hy.
  unfold Qdiv. change (/ (1000 # 1))%Q with (1 # 1000)%Q. lra.
Qed.

Lemma round3_le (x : Q) (m : Z) : (x <= inject_Z m)%Q -> (round x 3 <= inject_Z m)%Q.
Proof.
  intros H. unfold round.
  change (inject_Z (10 ^ Z.of_nat 3)) with (1000 # 1)%Q.
  assert (Hy : (x * (1000 # 1) <= inject_Z (m * 1000))%Q).
  { rewrite inject_Z_mult. change (inject_Z 1000) with (1000 # 1)%Q. lra. }
  apply round_half_even_le in Hy. rewrite Zle_Qle, inject_Z_mult in Hy.
  change (inject_Z 1000) with (1000 # 1)%Q in Hy.
  unfold Qdiv. change (/ (1000 # 1))%Q with (1 # 1000)%Q. lra.
Qed.

Lemma round3_unit (x : Q) : (0 <= x <= 1)%Q -> (0 <= round x 3 <= 1)%Q.
Proof.
  intros [H0 H1]. split.
  - apply (round3_ge x 0). exact H0.
  - apply (round3_le x 1). exact H1.
Qed.

(** ** Capping *)

Lemma min_unit (x : Q) : (0 <= x)%Q -> (0 <= min x 1.0 <= 1)%Q.
Proof.
  intros H. unfold min. destruct (ltb 1.0 x) eqn:E.
  - split; [discriminate | discriminate].
  - apply ltb_ge in E. split; [exact H |]. setoid_replace 1%Q with 1.0%Q by reflexivity.
    exact E.
Qed.

Lemma max_zero_nonneg (x : Q) : (0 <= max 0 x)%Q.
Proof.
  unfold max. destruct (gtb x 0) eqn:E.
  - apply gtb_gt in E. lra.
  - lra.
Qed.

Lemma of_nat_nonneg (n : nat) : (0 <= of_nat n)%Q.
Proof.
  unfold of_nat. change 0%Q with (inject_Z 0). rewrite <- Zle_Qle. lia.
Qed.

Lemma sum_nonneg (xs : list Q) : Forall (fun x => (0 <= x)%Q) xs -> (0 <= sum xs)%Q.
Proof.
  induction 1 as [| x xs Hx _ IH]; [rewrite sum_nil; lra |].
  rewrite sum_cons. lra.
Qed.

Lemma div_nonneg (a b : Q) : (0 <= a)%Q -> (0 < b)%Q -> (0 <= a / b)%Q.
Proof.
  intros Ha Hb. unfold Qdiv. apply Qmult_le_0_compat; [exact Ha |].
  apply Qlt_le_weak, Qinv_lt_0_compat. exact Hb.
Qed.

(** ** The scores *)

Lemma emotion_score_unit (doc : Doc) (text : string) (keywords : list string) :
  (0 <= Spec.emotion_score doc text keywords <= 1)%Q.
Proof.
  unfold Spec.emotion_score. apply round3_unit, min_unit, div_nonneg.
  - apply of_nat_nonneg.
  - assert (H : (0 < of_nat (Spec.word_count doc))%Q).
    { apply of_nat_pos. unfold Spec.word_count. lia. }
    lra.
Qed.

Section Ranges.
Variable nlp : string -> Doc.
Variables vader_compound textblob_polarity : string -> Q.

Lemma intensity_unit (text : string) (emotions : dict Q) :
  Forall (fun x => (0 <= x)%Q) (values emotions) ->
  (0 <= _calculate_intensity text emotions <= 1)%Q.
Proof.
  intros H. unfold _calculate_intensity. apply round3_unit, min_unit.
  pose proof (of_nat_nonneg (split_count text)) as H1.
  pose proof (of_nat_nonneg (count "!"%char text)) as H2.
  pose proof (of_nat_nonneg (count "?"%char text)) as H3.
  pose proof (sum_nonneg _ H) as H4.
  unfold Qdiv. change (/ 500)%Q with (1 # 500)%Q. change (/ 10)%Q with (1 # 10)%Q.
  lra.
Qed.

Lemma stress_unit (text : string) :
  (0 <= _detect_stress vader_compound textblob_polarity text <= 1)%Q.
Proof.
  unfold _detect_stress. apply round3_unit, min_unit.
  pose proof (max_zero_nonneg (- _analyze_sentiment vader_compound textblob_polarity text))
    as H1.
  pose proof (of_nat_nonneg
                (list_sum (map (fun _ => 1)
                               (filter (fun keyword => contains (lower text) keyword)
                                       stress_keywords)))) as H2.
  unfold Qdiv. change (/ 5)%Q with (1 # 5)%Q. lra.
Qed.

End Ranges.

End RangeFacts.

Module RangeProperties.
Import Py PyFacts DictFacts.
Import Analyzer TextFacts RangeFacts.

(** X1: for every text and whatever the pipeline and the two scorers
    return, [analyze_dream] raises nothing (the word count is floored at
    1, so no division by zero) and returns a vector whose emotion scores,
    intensity and stress level all lie between 0 and 1. *)
Theorem analyze_dream_signals_in_unit_range
        (nlp : string -> Doc) (vader_compound textblob_polarity : string -> Q)
        (content : string) :
  exists analysis,
    analyze_dream nlp vader_compound textblob_polarity content = Ok analysis /\
    Forall (fun score => (0 <= score <= 1)%Q) (values (emotions analysis)) /\
    (0 <= dream_intensity analysis <= 1)%Q /\
    (0 <= stress_level analysis <= 1)%Q.
Proof.
  unfold analyze_dream.
  destruct (negb (nonempty content) || negb (nonempty (strip content))).
  - eexists. split; [reflexivity |]. cbn.
    repeat split; try discriminate.
    repeat (constructor; [split; discriminate |]). constructor.
  - rewrite detect_emotions_scores. cbn [bind].
    eexists. split; [reflexivity |].
    cbn [emotions dream_intensity stress_level].
    assert (Hscores : Forall (fun score => (0 <= score <= 1)%Q)
                        (values (map (fun item =>
                                        (fst item,
                                         Spec.emotion_score (nlp content) content (snd item)))
                                     emotion_keywords))).
    { unfold values. rewrite map_map. apply Forall_forall. intros s Hs.
      apply in_map_iff in Hs. destruct Hs as [item [<- _]]. cbn [snd].
      apply emotion_score_unit. }
    split; [exact Hscores |]. split.
    + apply intensity_unit. eapply Forall_impl; [| exact Hscores].
      intros s [H _]. exact H.
    + apply stress_unit.
Qed.

(** X2: when both polarity scorers answer within [-1, 1], the sentiment of
    the returned vector lies within [-1, 1]. *)
Theorem analyze_dream_sentiment_range
        (nlp : string -> Doc) (vader_compound textblob_polarity : string -> Q)
        (content : string) :
  (-1 <= vader_compound content <= 1)%Q ->
  (-1 <= textblob_polarity content <= 1)%Q ->
  exists analysis,
    analyze_dream nlp vader_compound textblob_polarity content = Ok analysis /\
    (-1 <= sentiment_score analysis <= 1)%Q.
Proof.
  intros [Hv0 Hv1] [Ht0 Ht1]. unfold analyze_dream.
  destruct (negb (nonempty content) || negb (nonempty (strip content))).
  - eexists. split; [reflexivity |]. cbn. split; discriminate.
  - rewrite detect_emotions_scores. cbn [bind].
    eexists. split; [reflexivity |]. cbn [sentiment_score].
    unfold _analyze_sentiment. split.
    + apply (round3_ge _ (-1)). unfold Qdiv. change (/ 2)%Q with (1 # 2)%Q.
      change (inject_Z (-1)) with (-1)%Q. lra.
    + apply (round3_le _ 1). unfold Qdiv. change (/ 2)%Q with (1 # 2)%Q.
      change (inject_Z 1) with 1%Q. lra.
Qed.

Lemma analyze_dream_sentiment_range_witness :
  exists analysis,
    analyze_dream Inputs.silent_nlp Inputs.neutral_polarity Inputs.neutral_polarity
                  "I was falling"
    = Ok analysis /\
    (-1 <= sentiment_score analysis <= 1)%Q.
Proof.
  apply (analyze_dream_sentiment_range
           Inputs.silent_nlp Inputs.neutral_polarity Inputs.neutral_polarity
           "I was falling").
  - split; discriminate.
  - split; discriminate.
Defined.

End RangeProperties.

(* ================================================================== *)
(** * Themes and entities                                              *)
(* ================================================================== *)

Module ExtractionFacts.
Import Py PyFacts DictFacts.
Import Analyzer TextFacts.

Lemma lower_char_idempotent (c : ascii) : lower_char (lower_char c) = lower_char c.
Proof.
  destruct c as [[] [] [] [] [] [] [] []]; reflexivity.
Qed.

Lemma lower_idempotent (s : string) : lower (lower s) = lower s.
Proof.
  induction s as [| c s IH]; [reflexivity |].
  cbn [lower]. now rewrite lower_char_idempotent, IH.
Qed.

(** A loop that appends the names of the items passing a test collects
    the names of the filtered items. *)
Lemma collect_names {V : Type} (test : V -> bool) (items : dict V) (acc : list string) :
  fold_left
    (fun collected (item : string * V) =>
       let (name, v) := item in
       if test v then collected ++ [name] else collected)
    items acc
  = acc ++ map fst (filter (fun item => test (snd item)) items).
Proof.
  revert acc. induction items as [| [name v] items IH]; intros acc.
  - cbn. now rewrite app_nil_r.
  - cbn [fold_left filter snd]. destruct (test v); rewrite IH.
    + cbn [map fst]. now rewrite <- app_assoc.
    + reflexivity.
Qed.

Lemma NoDup_keys_common_themes : NoDup (keys common_themes).
Proof.
  unfold common_themes, keys. cbn [map fst].
  repeat (constructor; [cbn [In]; intuition discriminate |]).
  constructor.
Qed.

Lemma NoDup_map_fst_filter {V : Type} (test : string * V -> bool) (d : dict V) :
  NoDup (keys d) -> NoDup (map fst (filter test d)).
Proof.
  induction d as [| [k v] d IH]; intros H; [constructor |].
  cbn [keys map fst] in H. inversion H as [| ? ? Hk Hd]; subst.
  cbn [filter]. destruct (test (k, v)); [| now apply IH].
  cbn [map fst]. constructor; [| now apply IH].
  intros Hin. apply Hk. apply in_map_iff in Hin.
  destruct Hin as [[k' v'] [E Hin]]. cbn in E. subst k'.
  apply filter_In in Hin. unfold keys.
  replace k with (fst (k, v')) by reflexivity. apply in_map. tauto.
Qed.

Lemma in_distinct (xs : list string) (x : string) : In x (distinct xs) <-> In x xs.
Proof.
  induction xs as [| y xs IH]; [tauto |].
  cbn [distinct In]. rewrite filter_In, IH, negb_true_iff, String.eqb_neq.
  destruct (string_dec y x); tauto.
Qed.

Lemma in_firstn {A : Type} (n : nat) (l : list A) (x : A) :
  In x (firstn n l) -> In x l.
Proof.
  intros H. rewrite <- (firstn_skipn n l). apply in_or_app. now left.
Qed.

Lemma length_distinct (xs : list string) : List.length (distinct xs) <= List.length xs.
Proof.
  induction xs as [| x xs IH]; [reflexivity |].
  cbn [distinct List.length].
  pose proof (filter_length_le (fun y => negb (String.eqb x y)) (distinct xs)). lia.
Qed.

Lemma entity_texts_cons (category : string) (ent : Span) (spans : list Span) :
  Spec.entity_texts category (ent :: spans)
  = Spec.entity_texts category [ent] ++ Spec.entity_texts category spans.
Proof.
  unfold Spec.entity_texts. cbn [filter].
  destruct (String.eqb (Spec.category_of (label_ ent)) category); reflexivity.
Qed.

(** One named entity is filed under the category of its label. *)
Lemma entity_step (ent : Span) (people places organizations other : list string) :
  (if String.eqb (label_ ent) "PERSON" then
     dict_append [("people", people); ("places", places);
                  ("organizations", organizations); ("other", other)]
                 "people" (strip (ent_text ent))
   else if existsb (String.eqb (label_ ent)) ["GPE"; "LOC"; "FAC"] then
     dict_append [("people", people); ("places", places);
                  ("organizations", organizations); ("other", other)]
                 "places" (strip (ent_text ent))
   else if String.eqb (label_ ent) "ORG" then
     dict_append [("people", people); ("places", places);
                  ("organizations", organizations); ("other", other)]
                 "organizations" (strip (ent_text ent))
   else
     dict_append [("people", people); ("places", places);
                  ("organizations", organizations); ("other", other)]
                 "other" (strip (ent_text ent)))
  = [("people", people ++ Spec.entity_texts "people" [ent]);
     ("places", places ++ Spec.entity_texts "places" [ent]);
     ("organizations", organizations ++ Spec.entity_texts "organizations" [ent]);
     ("other", other ++ Spec.entity_texts "other" [ent])].
Proof.
  unfold Spec.entity_texts, Spec.category_of. cbn [filter].
  destruct (String.eqb (label_ ent) "PERSON");
    [cbn; now rewrite !app_nil_r |].
  destruct (existsb (String.eqb (label_ ent)) ["GPE"; "LOC"; "FAC"]);
    [cbn; now rewrite !app_nil_r |].
  destruct (String.eqb (label_ ent) "ORG"); cbn; now rewrite !app_nil_r.
Qed.

(** The loop over the named entities files every stripped text under the
    category of its label. *)
Lemma entity_loop_texts (spans : list Span) (people places organizations other : list string) :
  fold_left
    (fun entities ent =>
       if String.eqb (label_ ent) "PERSON" then
         dict_append entities "people" (strip (ent_text ent))
       else if existsb (String.eqb (label_ ent)) ["GPE"; "LOC"; "FAC"] then
         dict_append entities "places" (strip (ent_text ent))
       else if String.eqb (label_ ent) "ORG" then
         dict_append entities "organizations" (strip (ent_text ent))
       else
         dict_append entities "other" (strip (ent_text ent)))
    spans
    [("people", people); ("places", places);
     ("organizations", organizations); ("other", other)]
  = [("people", people ++ Spec.entity_texts "people" spans);
     ("places", places ++ Spec.entity_texts "places" spans);
     ("organizations", organizations ++ Spec.entity_texts "organizations" spans);
     ("other", other ++ Spec.entity_texts "other" spans)].
Proof.
  revert people places organizations other.
  induction spans as [| ent spans IH]; intros people places organizations other.
  - cbn. now rewrite !app_nil_r.
  - cbn [fold_left]. rewrite entity_step, IH.
    rewrite !(entity_texts_cons _ ent spans), !app_assoc. reflexivity.
Qed.

(** The dictionary [_extract_entities] returns. *)
Lemma extract_entities_lists (nlp : string -> Doc) (text : string) :
  _extract_entities nlp text
  = [("people", distinct (Spec.entity_texts "people" (ents (nlp text))));
     ("places", distinct (Spec.entity_texts "places" (ents (nlp text))));
     ("organizations", distinct (Spec.entity_texts "organizations" (ents (nlp text))));
     ("other", distinct (Spec.entity_texts "other" (ents (nlp text))));
     ("symbols", distinct (firstn 10 (Spec.qualifying_nouns (nlp text))))].
Proof.
  unfold _extract_entities. cbv zeta.
  rewrite entity_loop_texts. fold (Spec.qualifying_nouns (nlp text)).
  cbn. rewrite distinct_idempotent. reflexivity.
Qed.

End ExtractionFacts.

Module ExtractionProperties.
Import Py PyFacts DictFacts.
Import Analyzer TextFacts ExtractionFacts.

(** X3: [_identify_themes] reports exactly the themes one of whose
    keywords occurs in the lower-cased text, in the order the themes are
    declared and each at most once; the letter case of the text plays no
    part. *)
Theorem themes_are_matching_categories (text : string) :
  _identify_themes text
  = map fst (filter (fun item =>
                       existsb (fun keyword => contains (lower text) keyword) (snd item))
                    common_themes) /\
  NoDup (_identify_themes text) /\
  (forall theme,
      In theme (_identify_themes text) <->
      exists keywords keyword,
        In (theme, keywords) common_themes /\ In keyword keywords /\
        contains (lower text) keyword = true) /\
  _identify_themes (lower text) = _identify_themes text.
Proof.
  assert (E : forall t,
             _identify_themes t
             = map fst (filter (fun item =>
                                  existsb (fun keyword => contains (lower t) keyword)
                                          (snd item))
                               common_themes)).
  { intros t. unfold _identify_themes.
    apply (collect_names (fun keywords =>
                            existsb (fun keyword => contains (lower t) keyword) keywords)
                         common_themes []). }
  split; [apply E |]. split; [| split].
  - rewrite E. apply NoDup_map_fst_filter, NoDup_keys_common_themes.
  - intros theme. rewrite E, in_map_iff. split.
    + intros [[theme' keywords] [Heq Hin]]. cbn in Heq. subst theme'.
      apply filter_In in Hin. destruct Hin as [Hin Hex]. cbn [snd] in Hex.
      apply existsb_exists in Hex. destruct Hex as [keyword [Hk Hc]].
      exists keywords, keyword. tauto.
    + intros [keywords [keyword [Hin [Hk Hc]]]].
      exists (theme, keywords). split; [reflexivity |].
      apply filter_In. split; [exact Hin |]. cbn [snd].
      apply existsb_exists. eauto.
  - rewrite (E (lower text)), (E text), lower_idempotent. reflexivity.
Qed.

(** X4: [_extract_entities] returns exactly the five categories; each of
    the four entity categories lists, without duplicates, exactly the
    stripped texts of the named entities whose label belongs to it. *)
Theorem entities_filed_by_label (nlp : string -> Doc) (text category : string) :
  In category ["people"; "places"; "organizations"; "other"] ->
  keys (_extract_entities nlp text)
  = ["people"; "places"; "organizations"; "other"; "symbols"] /\
  exists names,
    dict_get (_extract_entities nlp text) category = Some names /\
    NoDup names /\
    forall name,
      In name names <->
      exists span,
        In span (ents (nlp text)) /\
        Spec.category_of (label_ span) = category /\
        strip (ent_text span) = name.
Proof.
  intros Hc. rewrite extract_entities_lists. split; [reflexivity |].
  exists (distinct (Spec.entity_texts category (ents (nlp text)))).
  split.
  - destruct Hc as [<- | [<- | [<- | [<- | []]]]]; reflexivity.
  - split; [apply NoDup_distinct |].
    intros name. rewrite in_distinct. unfold Spec.entity_texts.
    rewrite in_map_iff. split.
    + intros [span [Hs Hin]]. apply filter_In in Hin. destruct Hin as [Hin He].
      apply String.eqb_eq in He. eauto.
    + intros [span [Hin [He Hs]]]. exists span. split; [exact Hs |].
      apply filter_In. split; [exact Hin |]. now apply String.eqb_eq.
Qed.

Lemma entities_filed_by_label_witness :
  keys (_extract_entities Inputs.two_entities_nlp "Anna was in Paris")
  = ["people"; "places"; "organizations"; "other"; "symbols"] /\
  exists names,
    dict_get (_extract_entities Inputs.two_entities_nlp "Anna was in Paris") "people"
    = Some names /\
    NoDup names /\
    forall name,
      In name names <->
      exists span,
        In span (ents (Inputs.two_entities_nlp "Anna was in Paris")) /\
        Spec.category_of (label_ span) = "people" /\
        strip (ent_text span) = name.
Proof.
  apply (entities_filed_by_label Inputs.two_entities_nlp "Anna was in Paris" "people").
  left. reflexivity.
Defined.

(** X5: the [symbols] of [_extract_entities] are at most ten and distinct,
    and each is the lower-cased text of a token tagged as a noun that is
    not a stop word and is longer than three characters. *)
Theorem symbols_are_few_distinct_nouns (nlp : string -> Doc) (text : string) :
  exists symbols,
    dict_get (_extract_entities nlp text) "symbols" = Some symbols /\
    List.length symbols <= 10 /\
    NoDup symbols /\
    forall symbol,
      In symbol symbols ->
      exists token,
        In token (tokens (nlp text)) /\
        pos_ token = "NOUN" /\ is_stop token = false /\
        3 < String.length (tok_text token) /\
        symbol = lower (tok_text token).
Proof.
  exists (distinct (firstn 10 (Spec.qualifying_nouns (nlp text)))).
  split; [rewrite extract_entities_lists; reflexivity |].
  split; [| split].
  - etransitivity; [apply length_distinct |]. apply firstn_le_length.
  - apply NoDup_distinct.
  - intros symbol Hin. apply (proj1 (in_distinct _ _)) in Hin. apply in_firstn in Hin.
    unfold Spec.qualifying_nouns in Hin. apply in_map_iff in Hin.
    destruct Hin as [token [Hs Hin]]. apply filter_In in Hin.
    destruct Hin as [Hin Ht].
    apply andb_true_iff in Ht. destruct Ht as [Ht Hlen].
    apply andb_true_iff in Ht. destruct Ht as [Hpos Hstop].
    exists token. repeat split.
    + exact Hin.
    + now apply String.eqb_eq.
    + now apply negb_true_iff.
    + now apply Nat.ltb_lt.
    + now symmetry.
Qed.

End ExtractionProperties.

(* ================================================================== *)
(** * Sorting, counting and the greatest item                          *)
(* ================================================================== *)

Module OrderFacts.
Import Py PyFacts DictFacts.

Section SortedOrder.
Context {A : Type} (key : A -> Z).

Lemma insert_perm (x : A) (l : list A) : Permutation (insert key x l) (x :: l).
Proof.
  induction l as [| y l IH]; [reflexivity |].
  cbn [insert]. destruct (key y <? key x)%Z; [| reflexivity].
  rewrite IH. apply perm_swap.
Qed.

(** Sorting rearranges the elements. *)
Lemma sorted_perm (l : list A) : Permutation (sorted key l) l.
Proof.
  induction l as [| x l IH]; [reflexivity |].
  cbn [sorted fold_right]. fold (sorted key l).
  rewrite insert_perm. now constructor.
Qed.

Lemma insert_sorted (x : A) (l : list A) :
  StronglySorted (fun a b => (key a <= key b)%Z) l ->
  StronglySorted (fun a b => (key a <= key b)%Z) (insert key x l).
Proof.
  induction 1 as [| y l Hs IH Hall]; cbn [insert].
  - constructor; constructor.
  - destruct (key y <? key x)%Z eqn:E.
    + apply Z.ltb_lt in E. constructor; [exact IH |].
      eapply Permutation_Forall; [symmetry; apply insert_perm |].
      constructor; [lia | exact Hall].
    + apply Z.ltb_ge in E. constructor.
      * now constructor.
      * constructor; [exact E |].
        eapply Forall_impl; [| exact Hall]. cbn. intros a Ha. lia.
Qed.

(** The sorted list is in key order. *)
Lemma sorted_in_order (l : list A) :
  StronglySorted (fun a b => (key a <= key b)%Z) (sorted key l).
Proof.
  induction l as [| x l IH]; [constructor |].
  cbn [sorted fold_right]. fold (sorted key l). now apply insert_sorted.
Qed.
End SortedOrder.

Lemma StronglySorted_firstn {A : Type} (R : A -> A -> Prop) (n : nat) (l : list A) :
  StronglySorted R l -> StronglySorted R (firstn n l).
Proof.
  intros H. revert n. induction H as [| x l Hs IH Hall]; intros n.
  - rewrite firstn_nil. constructor.
  - destruct n as [| n]; [constructor |]. cbn [firstn]. constructor; [apply IH |].
    rewrite Forall_forall in *. intros y Hy. apply Hall.
    rewrite <- (firstn_skipn n l). apply in_or_app. now left.
Qed.

(** In a sorted list every element kept by [firstn] precedes every element
    that is cut off. *)
Lemma StronglySorted_firstn_skipn {A : Type} (R : A -> A -> Prop) (n : nat) (l : list A) :
  StronglySorted R l ->
  forall a b, In a (firstn n l) -> In b (skipn n l) -> R a b.
Proof.
  intros H. revert n. induction H as [| x l Hs IH Hall]; intros n a b Ha Hb.
  - rewrite firstn_nil in Ha. contradiction.
  - destruct n as [| n]; [contradiction |]. cbn [firstn skipn] in Ha, Hb.
    destruct Ha as [<- | Ha].
    + rewrite Forall_forall in Hall. apply Hall.
      rewrite <- (firstn_skipn n l). apply in_or_app. now right.
    + now apply (IH n).
Qed.

Lemma StronglySorted_map {A B : Type} (f : A -> B) (R : B -> B -> Prop) (l : list A) :
  StronglySorted (fun a b => R (f a) (f b)) l -> StronglySorted R (map f l).
Proof.
  induction 1 as [| x l Hs IH Hall]; cbn [map]; constructor; [exact IH |].
  rewrite Forall_forall in *. intros y Hy. apply in_map_iff in Hy.
  destruct Hy as [a [<- Ha]]. now apply Hall.
Qed.

Lemma NoDup_firstn {A : Type} (n : nat) (l : list A) : NoDup l -> NoDup (firstn n l).
Proof.
  intros H. rewrite <- (firstn_skipn n l) in H. now apply NoDup_app_remove_r in H.
Qed.

(** ** Dictionaries *)

Lemma in_keys_dict_set {V : Type} (d : dict V) (k k' : string) (v : V) :
  In k (keys (dict_set d k' v)) <-> k = k' \/ In k (keys d).
Proof.
  destruct (in_dec string_dec k' (keys d)) as [I | I].
  - rewrite keys_dict_set_present by exact I. split; [tauto |].
    intros [-> | H]; assumption.
  - rewrite keys_dict_set_fresh by exact I. rewrite in_app_iff. cbn. intuition.
Qed.

Lemma in_dict_get {V : Type} (d : dict V) (k : string) (v : V) :
  NoDup (keys d) -> In (k, v) d -> dict_get d k = Some v.
Proof.
  induction d as [| [k' v'] d IH]; intros Hnd Hin; [contradiction |].
  cbn [keys map fst] in Hnd. inversion Hnd as [| ? ? Hk Hd]; subst.
  cbn [dict_get]. destruct Hin as [E | Hin].
  - injection E as -> ->. now rewrite String.eqb_refl.
  - destruct (String.eqb k k') eqn:E.
    + apply String.eqb_eq in E. subst k'. exfalso. apply Hk. unfold keys.
      replace k with (fst (k, v)) by reflexivity. now apply in_map.
    + now apply IH.
Qed.

Lemma dict_get_in {V : Type} (d : dict V) (k : string) (v : V) :
  dict_get d k = Some v -> In (k, v) d.
Proof.
  induction d as [| [k' v'] d IH]; [discriminate |].
  cbn [dict_get]. destruct (String.eqb k k') eqn:E.
  - apply String.eqb_eq in E. subst k'. intros [= ->]. now left.
  - intros H. right. now apply IH.
Qed.

(** ** The counter *)

Lemma counter_loop (xs : list string) (c : dict nat) (x : string) :
  NoDup (keys c) ->
  let c' := fold_left
              (fun c x =>
                 dict_set c x (match dict_get c x with Some n => n | None => 0 end + 1))
              xs c in
  NoDup (keys c') /\
  (In x (keys c') <-> In x (keys c) \/ In x xs) /\
  match dict_get c' x with Some n => n | None => 0 end
  = match dict_get c x with Some n => n | None => 0 end + count_occ string_dec xs x.
Proof.
  revert c. induction xs as [| y xs IH]; intros c Hnd.
  - cbn. split; [exact Hnd |]. split; [tauto | lia].
  - cbn [fold_left].
    set (c1 := dict_set c y (match dict_get c y with Some n => n | None => 0 end + 1)).
    destruct (IH c1 (NoDup_keys_dict_set c y _ Hnd)) as [H1 [H2 H3]].
    split; [exact H1 |]. split.
    + cbn zeta in H2. rewrite H2. unfold c1. rewrite in_keys_dict_set. cbn [In].
      intuition.
    + cbn zeta in H3. rewrite H3. unfold c1. cbn [count_occ].
      destruct (string_dec y x) as [-> | N].
      * rewrite dict_get_set_same. lia.
      * rewrite dict_get_set_other by exact N. lia.
Qed.

(** [Counter(xs)] holds each element of [xs] once, with the number of its
    occurrences. *)
Lemma counter_items (xs : list string) :
  NoDup (keys (Analyzer.Counter xs)) /\
  forall x n, In (x, n) (Analyzer.Counter xs) <-> In x xs /\ n = count_occ string_dec xs x.
Proof.
  unfold Analyzer.Counter.
  assert (Hnil : NoDup (keys (@nil (string * nat)))) by constructor.
  split; [apply (counter_loop xs [] EmptyString Hnil) |].
  intros x n. destruct (counter_loop xs [] x Hnil) as [Hnd [Hin Hcount]].
  cbn zeta in Hin, Hcount. cbn [dict_get keys map In] in Hin, Hcount. split.
  - intros H. split.
    + assert (Hk : In x (keys (fold_left
                                 (fun c x =>
                                    dict_set c x
                                      (match dict_get c x with Some n => n | None => 0 end
                                       + 1))
                                 xs []))).
      { unfold keys. replace x with (fst (x, n)) by reflexivity. now apply in_map. }
      apply Hin in Hk. destruct Hk as [[] | Hk]. exact Hk.
    + rewrite (in_dict_get _ x n Hnd H) in Hcount. exact Hcount.
  - intros [Hx ->]. apply dict_get_in.
    assert (Hk : In x (keys (fold_left
                               (fun c x =>
                                  dict_set c x
                                    (match dict_get c x with Some n => n | None => 0 end + 1))
                               xs []))) by (apply Hin; tauto).
    destruct (dict_get (fold_left
                          (fun c x =>
                             dict_set c x
                               (match dict_get c x with Some n => n | None => 0 end + 1))
                          xs []) x) as [m |] eqn:Hm.
    + now rewrite Hcount.
    + apply dict_get_none in Hm. contradiction.
Qed.

(** ** The greatest item *)

(** [max_item] returns the first item of greatest value: the items before
    it are smaller, the items after it are not greater. *)
Lemma max_item_first_greatest (d : dict Q) (k : string) (v : Q) :
  Analyzer.max_item d = Some (k, v) ->
  exists before after,
    d = before ++ (k, v) :: after /\
    Forall (fun item => (snd item < v)%Q) before /\
    Forall (fun item => (snd item <= v)%Q) after.
Proof.
  unfold Analyzer.max_item. destruct d as [| first rest]; [discriminate |].
  assert (G : forall (todo : dict Q) (before after : dict Q) (best : string * Q),
             Forall (fun item => (snd item < snd best)%Q) before ->
             Forall (fun item => (snd item <= snd best)%Q) after ->
             exists before' after',
               before ++ best :: after ++ todo
               = before' ++ fold_left
                              (fun best kv' => if gtb (snd kv') (snd best) then kv' else best)
                              todo best :: after' /\
               Forall (fun item =>
                         (snd item
                          < snd (fold_left
                                   (fun best kv' =>
                                      if gtb (snd kv') (snd best) then kv' else best)
                                   todo best))%Q) before' /\
               Forall (fun item =>
                         (snd item
                          <= snd (fold_left
                                    (fun best kv' =>
                                       if gtb (snd kv') (snd best) then kv' else best)
                                    todo best))%Q) after').
  { induction todo as [| item todo IH]; intros before after best Hb Ha.
    - exists before, after. rewrite app_nil_r. cbn. tauto.
    - cbn [fold_left]. destruct (gtb (snd item) (snd best)) eqn:E.
      + apply gtb_gt in E.
        destruct (IH (before ++ best :: after) [] item) as [b' [a' [Heq [Hb' Ha']]]].
        * apply Forall_app. split.
          -- eapply Forall_impl; [| exact Hb]. cbn. intros a H. lra.
          -- constructor; [exact E |].
             eapply Forall_impl; [| exact Ha]. cbn. intros a H. lra.
        * constructor.
        * exists b', a'. split; [| tauto].
          rewrite <- Heq. cbn [app]. rewrite <- !app_assoc. reflexivity.
      + apply gtb_le in E.
        destruct (IH before (after ++ [item]) best) as [b' [a' [Heq [Hb' Ha']]]].
        * exact Hb.
        * apply Forall_app. split; [exact Ha |]. constructor; [exact E | constructor].
        * exists b', a'. split; [| tauto].
          rewrite <- Heq. rewrite <- !app_assoc. reflexivity. }
  intros H. injection H as H.
  destruct (G rest [] [] first) as [b' [a' [Heq [Hb' Ha']]]]; [constructor | constructor |].
  rewrite H in Heq, Hb', Ha'. cbn [app snd] in Heq, Hb', Ha'.
  exists b', a'. tauto.
Qed.

End OrderFacts.

(* ================================================================== *)
(** * More on the entry aggregator                                     *)
(* ================================================================== *)

Module InsightFacts.
Import Py PyFacts DictFacts Models.
Import Analyzer AggregatorFacts RangeFacts OrderFacts.

(** ** Totals per emotion *)

Lemma total_of_dict_add (d : dict Q) (k k' : string) (v : Q) :
  Spec.total_of (dict_add d k' v) k
  = if String.eqb k (k') then (Spec.total_of d k + v)%Q else Spec.total_of d k.
Proof.
  unfold Spec.total_of, dict_add.
  destruct (String.eqb k k') eqn:E.
  - apply String.eqb_eq in E. subst k'. now rewrite dict_get_set_same.
  - apply String.eqb_neq in E. rewrite dict_get_set_other by congruence. reflexivity.
Qed.

Lemma total_of_fold_dict_add (items : dict Q) (acc : dict Q) (k : string) :
  (Spec.total_of (fold_left (fun a item => dict_add a (fst item) (snd item)) items acc) k
   == Spec.total_of acc k
      + sum (values (filter (fun item => String.eqb k (fst item)) items)))%Q.
Proof.
  revert acc. induction items as [| [k' v] items IH]; intros acc.
  - cbn. try rewrite sum_nil. ring.
  - cbn [fold_left fst snd filter]. rewrite IH, total_of_dict_add.
    destruct (String.eqb k k'); cbn [values map snd].
    + rewrite sum_cons. unfold values. ring.
    + reflexivity.
Qed.

Lemma in_keys_fold_dict_add (items : dict Q) (acc : dict Q) (k : string) :
  In k (keys (fold_left (fun a item => dict_add a (fst item) (snd item)) items acc))
  <-> In k (keys acc) \/ In k (keys items).
Proof.
  revert acc. induction items as [| [k' v] items IH]; intros acc.
  - cbn. tauto.
  - cbn [fold_left fst snd]. rewrite IH. unfold dict_add.
    rewrite in_keys_dict_set. cbn [keys map fst In]. intuition.
Qed.

(** The value [all_emotions] holds for an emotion is its summed score. *)
Lemma total_of_all_emotions (entries : list DreamEntry) (k : string) :
  (Spec.total_of (all_emotions_of entries) k == Spec.emotion_total k entries)%Q.
Proof.
  unfold all_emotions_of, Spec.emotion_total.
  assert (G : forall acc,
             (Spec.total_of
                (fold_left
                   (fun all_emotions entry =>
                      match Models.emotions entry with
                      | Some emotions =>
                          fold_left (fun a item => dict_add a (fst item) (snd item))
                                    emotions all_emotions
                      | None => all_emotions
                      end)
                   entries acc) k
              == Spec.total_of acc k
                 + sum (flat_map
                          (fun e =>
                             match Models.emotions e with
                             | Some d =>
                                 values (filter (fun item => String.eqb k (fst item)) d)
                             | None => []
                             end) entries))%Q).
  { induction entries as [| e entries IH]; intros acc.
    - cbn. try rewrite sum_nil. ring.
    - cbn [fold_left flat_map]. rewrite IH, sum_app.
      destruct (Models.emotions e) as [d |].
      + rewrite total_of_fold_dict_add. ring.
      + rewrite sum_nil. ring. }
  rewrite G. cbn. ring.
Qed.

(** The keys of [all_emotions] are the emotion names stored in the
    entries. *)
Lemma in_keys_all_emotions (entries : list DreamEntry) (k : string) :
  In k (keys (all_emotions_of entries)) <-> In k (Spec.emotion_names entries).
Proof.
  unfold all_emotions_of, Spec.emotion_names.
  assert (G : forall acc,
             In k (keys
                     (fold_left
                        (fun all_emotions entry =>
                           match Models.emotions entry with
                           | Some emotions =>
                               fold_left (fun a item => dict_add a (fst item) (snd item))
                                         emotions all_emotions
                           | None => all_emotions
                           end)
                        entries acc))
             <-> In k (keys acc)
                 \/ In k (flat_map (fun e => match Models.emotions e with
                                             | Some d => keys d
                                             | None => []
                                             end) entries)).
  { induction entries as [| e entries IH]; intros acc.
    - cbn. tauto.
    - cbn [fold_left flat_map]. rewrite IH, in_app_iff.
      destruct (Models.emotions e) as [d |].
      + rewrite in_keys_fold_dict_add. tauto.
      + cbn [In]. tauto. }
  rewrite G. cbn. tauto.
Qed.

(** ** Themes *)

Lemma all_themes_stored (entries : list DreamEntry) :
  all_themes_of entries = Spec.stored_themes entries.
Proof.
  unfold all_themes_of, Spec.stored_themes.
  assert (G : forall acc,
             fold_left
               (fun all_themes entry =>
                  match Models.themes entry with
                  | Some themes => all_themes ++ themes
                  | None => all_themes
                  end)
               entries acc
             = acc ++ flat_map (fun e => match Models.themes e with
                                         | Some ts => ts
                                         | None => []
                                         end) entries).
  { induction entries as [| e entries IH]; intros acc.
    - cbn. now rewrite app_nil_r.
    - cbn [fold_left flat_map]. rewrite IH.
      destruct (Models.themes e); [now rewrite <- app_assoc | reflexivity]. }
  apply (G []).
Qed.

(** ** Bounded sums *)

Lemma sum_bounded (xs : list Q) :
  Forall (fun x => (-1 <= x <= 1)%Q) xs ->
  (- of_nat (List.length xs) <= sum xs <= of_nat (List.length xs))%Q.
Proof.
  induction 1 as [| x xs Hx _ IH].
  - rewrite sum_nil. cbn. split; discriminate.
  - rewrite sum_cons. cbn [List.length].
    assert (E : (of_nat (S (List.length xs)) == 1 + of_nat (List.length xs))%Q).
    { unfold of_nat. rewrite Nat2Z.inj_succ, <- Z.add_1_l, inject_Z_plus. reflexivity. }
    rewrite E. lra.
Qed.

Lemma of_nat_le (m n : nat) : m <= n -> (of_nat m <= of_nat n)%Q.
Proof. intros H. unfold of_nat. rewrite <- Zle_Qle. lia. Qed.

Lemma sum_repeat (c : Q) (n : nat) : (sum (repeat c n) == of_nat n * c)%Q.
Proof.
  induction n as [| n IH].
  - cbn. try rewrite sum_nil. unfold of_nat. cbn. ring.
  - cbn [repeat]. rewrite sum_cons, IH.
    assert (E : (of_nat (S n) == 1 + of_nat n)%Q).
    { unfold of_nat. rewrite Nat2Z.inj_succ, <- Z.add_1_l, inject_Z_plus. reflexivity. }
    rewrite E. ring.
Qed.

Lemma firstn_of_repeat {A : Type} (c : A) (k n : nat) :
  k <= n -> firstn k (repeat c n) = repeat c k.
Proof.
  revert n. induction k as [| k IH]; intros n H; [reflexivity |].
  destruct n as [| n]; [lia |]. cbn [repeat firstn]. f_equal. apply IH. lia.
Qed.

Lemma skipn_of_repeat {A : Type} (c : A) (k n : nat) :
  skipn k (repeat c n) = repeat c (n - k).
Proof.
  revert n. induction k as [| k IH]; intros n.
  - now rewrite Nat.sub_0_r.
  - destruct n as [| n]; [reflexivity |]. cbn [repeat skipn]. apply IH.
Qed.

Lemma in_le_sum (xs : list Q) (x : Q) :
  Forall (fun y => (0 <= y)%Q) xs -> In x xs -> (x <= sum xs)%Q.
Proof.
  induction 1 as [| y xs Hy Hall IH]; intros Hin; [contradiction |].
  rewrite sum_cons. pose proof (sum_nonneg xs Hall) as Hs.
  destruct Hin as [-> | Hin]; [lra |]. specialize (IH Hin). lra.
Qed.

End InsightFacts.

Module InsightProperties.
Import Py PyFacts DictFacts Models.
Import Analyzer AggregatorFacts RangeFacts ExtractionFacts OrderFacts InsightFacts.

(** X6: the dominant emotion of [generate_insights] is "neutral" exactly
    when no entry stores an emotion; otherwise it is an emotion stored in
    the entries whose summed score no other emotion exceeds. *)
Theorem dominant_emotion_has_greatest_total (entries : list DreamEntry) (ins : Insights) :
  generate_insights entries = Ok (Some ins) ->
  (Spec.emotion_names entries = [] -> dominant_emotion ins = "neutral") /\
  (Spec.emotion_names entries <> [] ->
   In (dominant_emotion ins) (Spec.emotion_names entries) /\
   forall emotion,
     In emotion (Spec.emotion_names entries) ->
     (Spec.emotion_total emotion entries
      <= Spec.emotion_total (dominant_emotion ins) entries)%Q).
Proof.
  intros Hgen.
  assert (Hne : entries <> []) by (intros ->; discriminate Hgen).
  destruct (generate_insights_some entries Hne) as [label [_ Hsome]].
  rewrite Hsome in Hgen. injection Hgen as <-. cbn [dominant_emotion].
  pose proof (NoDup_keys_all_emotions entries) as Hnd.
  pose proof (in_keys_all_emotions entries) as Hkeys.
  pose proof (total_of_all_emotions entries) as Htot.
  destruct (max_item (all_emotions_of entries)) as [[k v] |] eqn:Hmax.
  - apply max_item_first_greatest in Hmax.
    destruct Hmax as [before [after [Hd [Hb Ha]]]].
    assert (Hin : In (k, v) (all_emotions_of entries)).
    { rewrite Hd. apply in_or_app. right. now left. }
    assert (Hk : In k (Spec.emotion_names entries)).
    { apply Hkeys. unfold keys. replace k with (fst (k, v)) by reflexivity.
      now apply in_map. }
    split.
    + intros Hnil. rewrite Hnil in Hk. contradiction.
    + intros _. cbn [fst]. split; [exact Hk |].
      intros emotion He. apply Hkeys in He. unfold keys in He.
      apply in_map_iff in He. destruct He as [[e' v'] [Ee Hin']]. cbn in Ee. subst e'.
      rewrite <- (Htot emotion), <- (Htot k). unfold Spec.total_of.
      rewrite (in_dict_get _ _ _ Hnd Hin), (in_dict_get _ _ _ Hnd Hin').
      rewrite Hd in Hin'. apply in_app_or in Hin'.
      rewrite Forall_forall in Hb, Ha.
      destruct Hin' as [Hin' | [Hin' | Hin']].
      * apply Qlt_le_weak. apply (Hb _ Hin').
      * injection Hin' as _ ->. apply Qle_refl.
      * apply (Ha _ Hin').
  - split; [reflexivity |]. intros Hnames. exfalso.
    unfold max_item in Hmax.
    destruct (all_emotions_of entries) as [| item rest] eqn:Hd; [| discriminate Hmax].
    destruct (Spec.emotion_names entries) as [| name names]; [congruence |].
    apply (proj2 (Hkeys name)). now left.
Qed.

Lemma dominant_emotion_has_greatest_total_witness :
  exists ins,
    generate_insights Inputs.fearful_week = Ok (Some ins) /\
    In (dominant_emotion ins) (Spec.emotion_names Inputs.fearful_week) /\
    forall emotion,
      In emotion (Spec.emotion_names Inputs.fearful_week) ->
      (Spec.emotion_total emotion Inputs.fearful_week
       <= Spec.emotion_total (dominant_emotion ins) Inputs.fearful_week)%Q.
Proof.
  eexists. split; [vm_compute; reflexivity |].
  refine (proj2 (dominant_emotion_has_greatest_total Inputs.fearful_week _ _) _).
  - vm_compute. reflexivity.
  - discriminate.
Defined.

(** X7: the recurring themes of [generate_insights] are at most five
    distinct themes stored in the entries, listed from the most frequent
    down, and no theme that is left out occurs more often than a listed
    one. *)
Theorem recurring_themes_are_most_frequent (entries : list DreamEntry) (ins : Insights) :
  generate_insights entries = Ok (Some ins) ->
  List.length (recurring_themes ins) <= 5 /\
  NoDup (recurring_themes ins) /\
  (forall theme, In theme (recurring_themes ins) ->
                 In theme (Spec.stored_themes entries)) /\
  StronglySorted (fun a b => Spec.theme_count entries b <= Spec.theme_count entries a)
                 (recurring_themes ins) /\
  (forall listed other,
      In listed (recurring_themes ins) ->
      In other (Spec.stored_themes entries) ->
      ~ In other (recurring_themes ins) ->
      Spec.theme_count entries other <= Spec.theme_count entries listed).
Proof.
  intros Hgen.
  assert (Hne : entries <> []) by (intros ->; discriminate Hgen).
  destruct (generate_insights_some entries Hne) as [label [_ Hsome]].
  rewrite Hsome in Hgen. injection Hgen as <-. cbn [recurring_themes].
  rewrite all_themes_stored. unfold most_common, Spec.theme_count.
  set (themes := Spec.stored_themes entries).
  set (key := fun kv : string * nat => (- Z.of_nat (snd kv))%Z).
  destruct (counter_items themes) as [Hnd Hitems].
  pose proof (sorted_perm key (Counter themes)) as Hperm.
  pose proof (sorted_in_order key (Counter themes)) as Hsorted.
  assert (Hitem : forall t n, In (t, n) (sorted key (Counter themes)) ->
                              In t themes /\ n = count_occ string_dec themes t).
  { intros t n Hin. apply Hitems. eapply Permutation_in; [exact Hperm | exact Hin]. }
  assert (Hnd' : NoDup (map fst (sorted key (Counter themes)))).
  { eapply Permutation_NoDup; [| exact Hnd].
    apply Permutation_map. symmetry. exact Hperm. }
  split; [rewrite length_map; apply firstn_le_length |].
  split; [rewrite <- firstn_map; now apply NoDup_firstn |].
  split; [| split].
  - intros theme Hin. apply in_map_iff in Hin.
    destruct Hin as [[t n] [Ht Hin]]. cbn in Ht. subst t.
    apply in_firstn in Hin. apply (Hitem _ _ Hin).
  - apply StronglySorted_map, StronglySorted_firstn.
    assert (G : forall l : list (string * nat),
               (forall t n, In (t, n) l -> n = count_occ string_dec themes t) ->
               StronglySorted (fun a b => (key a <= key b)%Z) l ->
               StronglySorted
                 (fun a b => count_occ string_dec themes (fst b)
                             <= count_occ string_dec themes (fst a)) l).
    { intros l Hl Hs. induction Hs as [| [t n] l Hs IH Hall]; constructor.
      - apply IH. intros t' n' Hin. apply Hl. now right.
      - rewrite Forall_forall in *. intros [t' n'] Hin. cbn [fst].
        rewrite <- (Hl t n) by now left.
        rewrite <- (Hl t' n') by now right.
        specialize (Hall _ Hin). unfold key in Hall. cbn [snd] in Hall. lia. }
    apply G; [| exact Hsorted]. intros t n Hin. apply (Hitem _ _ Hin).
  - intros listed other Hl Ho Hno.
    apply in_map_iff in Hl. destruct Hl as [[t n] [Ht Hl]]. cbn in Ht. subst t.
    assert (Hoin : In (other, count_occ string_dec themes other)
                      (sorted key (Counter themes))).
    { eapply Permutation_in; [symmetry; exact Hperm |]. apply Hitems. tauto. }
    rewrite <- (firstn_skipn 5 (sorted key (Counter themes))) in Hoin.
    apply in_app_or in Hoin. destruct Hoin as [Hoin | Hoin].
    + exfalso. apply Hno. apply in_map_iff.
      exists (other, count_occ string_dec themes other). tauto.
    + pose proof (StronglySorted_firstn_skipn _ 5 _ Hsorted _ _ Hl Hoin) as Hle.
      unfold key in Hle. cbn [snd] in Hle.
      apply in_firstn in Hl. destruct (Hitem _ _ Hl) as [_ Hn]. lia.
Qed.

Lemma recurring_themes_are_most_frequent_witness :
  exists ins,
    generate_insights Inputs.themed_entries = Ok (Some ins) /\
    List.length (recurring_themes ins) <= 5 /\
    NoDup (recurring_themes ins).
Proof.
  eexists. split; [vm_compute; reflexivity |].
  refine (let H := recurring_themes_are_most_frequent Inputs.themed_entries _ _ in
          conj (proj1 H) (proj1 (proj2 H))).
  vm_compute. reflexivity.
Defined.

(** X8: when every sentiment that is present lies within [-1, 1], the
    [avg_sentiment] of [generate_insights] lies within [-1, 1]. *)
Theorem avg_sentiment_in_range (entries : list DreamEntry) (ins : Insights) :
  generate_insights entries = Ok (Some ins) ->
  Forall (fun s => (-1 <= s <= 1)%Q) (Spec.present_sentiments entries) ->
  (-1 <= avg_sentiment ins <= 1)%Q.
Proof.
  intros Hgen Hall.
  assert (Hne : entries <> []) by (intros ->; discriminate Hgen).
  destruct (generate_insights_some entries Hne) as [label [_ Hsome]].
  rewrite Hsome in Hgen. injection Hgen as <-. cbn [avg_sentiment].
  pose proof (sum_bounded _ Hall) as [Hlo Hhi].
  pose proof (sum_present_truthy (map Models.sentiment_score entries)) as Hsum.
  fold (Spec.present_sentiments entries) in Hsum.
  assert (Hlen : List.length (Spec.present_sentiments entries) <= List.length entries).
  { unfold Spec.present_sentiments, present. clear.
    induction entries as [| e entries IH]; [reflexivity |].
    cbn [map flat_map]. rewrite length_app.
    destruct (Models.sentiment_score e); cbn [List.length]; lia. }
  apply of_nat_le in Hlen.
  assert (Hpos : (0 < of_nat (List.length entries))%Q).
  { apply of_nat_pos. destruct entries; [congruence | cbn; lia]. }
  split.
  - apply (round3_ge _ (-1)). change (inject_Z (-1)) with (-1)%Q.
    apply Qle_shift_div_l; [exact Hpos |]. lra.
  - apply (round3_le _ 1). change (inject_Z 1) with 1%Q.
    apply Qle_shift_div_r; [exact Hpos |]. lra.
Qed.

Lemma avg_sentiment_in_range_witness :
  exists ins,
    generate_insights Inputs.fearful_week = Ok (Some ins) /\
    (-1 <= avg_sentiment ins <= 1)%Q.
Proof.
  eexists. split; [vm_compute; reflexivity |].
  apply (avg_sentiment_in_range Inputs.fearful_week).
  - vm_compute. reflexivity.
  - repeat (constructor; [split; discriminate |]). constructor.
Defined.

(** X9: the stress trend of [generate_insights] is "insufficient data"
    exactly when fewer than two entries carry a stress level; otherwise it
    is "increasing", "decreasing" or "stable". *)
Theorem stress_trend_insufficient_iff (entries : list DreamEntry) (ins : Insights) :
  generate_insights entries = Ok (Some ins) ->
  (stress_trend ins = "insufficient data"
   <-> List.length (Spec.stress_levels entries) < 2) /\
  (2 <= List.length (Spec.stress_levels entries) ->
   stress_trend ins = "increasing" \/ stress_trend ins = "decreasing"
   \/ stress_trend ins = "stable").
Proof.
  intros Hgen.
  assert (Hne : entries <> []) by (intros ->; discriminate Hgen).
  destruct (generate_insights_some entries Hne) as [label [Hl Hsome]].
  rewrite Hsome in Hgen. injection Hgen as <-. cbn [stress_trend].
  fold (Spec.stress_levels entries) in Hl. revert Hl.
  unfold stress_trend_of.
  destruct (Nat.leb 2 (List.length (Spec.stress_levels entries))) eqn:E.
  - apply Nat.leb_le in E.
    assert (H1 : 0 < List.length (Spec.stress_levels entries) / 2).
    { apply Nat.div_str_pos. lia. }
    assert (H2 : 0 < List.length (Spec.stress_levels entries)
                     - List.length (Spec.stress_levels entries) / 2).
    { pose proof (Nat.div_lt (List.length (Spec.stress_levels entries)) 2). lia. }
    rewrite (div_ok _ _ (of_nat_nonzero _ H1)). cbn [bind].
    rewrite (div_ok _ _ (of_nat_nonzero _ H2)). cbn [bind].
    repeat match goal with |- context [if ?c then _ else _] => destruct c end;
      intros [= <-]; (split; [split; [discriminate | lia] | tauto]).
  - apply Nat.leb_gt in E. intros [= <-]. split; [tauto | lia].
Qed.

Lemma stress_trend_insufficient_iff_witness :
  exists ins,
    generate_insights Inputs.themed_entries = Ok (Some ins)
    /\ (stress_trend ins = "insufficient data"
        <-> List.length (Spec.stress_levels Inputs.themed_entries) < 2)
    /\ (2 <= List.length (Spec.stress_levels Inputs.themed_entries) ->
        stress_trend ins = "increasing" \/ stress_trend ins = "decreasing"
        \/ stress_trend ins = "stable").
Proof.
  eexists. split; [vm_compute; reflexivity |].
  apply (stress_trend_insufficient_iff Inputs.themed_entries).
  vm_compute. reflexivity.
Defined.

(** X10: when at least two entries carry a stress level and all the levels
    are the same non-negative value, the stress trend is "stable". *)
Theorem constant_stress_is_stable
        (entries : list DreamEntry) (ins : Insights) (level : Q) (n : nat) :
  generate_insights entries = Ok (Some ins) ->
  Spec.stress_levels entries = repeat level n ->
  2 <= n ->
  (0 <= level)%Q ->
  stress_trend ins = "stable".
Proof.
  intros Hgen Hlevels Hn Hpos.
  assert (Hne : entries <> []) by (intros ->; discriminate Hgen).
  destruct (generate_insights_some entries Hne) as [label [Hl Hsome]].
  rewrite Hsome in Hgen. injection Hgen as <-. cbn [stress_trend].
  fold (Spec.stress_levels entries) in Hl. rewrite Hlevels in Hl. revert Hl.
  unfold stress_trend_of. rewrite repeat_length.
  destruct (Nat.leb 2 n) eqn:E; [| apply Nat.leb_gt in E; lia].
  assert (H1 : 0 < n / 2) by (apply Nat.div_str_pos; lia).
  assert (H2 : 0 < n - n / 2) by (pose proof (Nat.div_lt n 2); lia).
  rewrite (div_ok _ _ (of_nat_nonzero _ H1)). cbn [bind].
  rewrite (div_ok _ _ (of_nat_nonzero _ H2)). cbn [bind].
  rewrite firstn_of_repeat by (pose proof (Nat.div_lt n 2); lia).
  rewrite skipn_of_repeat.
  assert (Hmean : forall m, 0 < m -> (sum (repeat level m) / of_nat m == level)%Q).
  { intros m Hm. rewrite sum_repeat. field. now apply of_nat_nonzero. }
  destruct (gtb (sum (repeat level (n - n / 2)) / of_nat (n - n / 2))
                (sum (repeat level (n / 2)) / of_nat (n / 2) * 1.1)) eqn:G.
  { apply gtb_gt in G. rewrite !Hmean in G by assumption. lra. }
  destruct (ltb (sum (repeat level (n - n / 2)) / of_nat (n - n / 2))
                (sum (repeat level (n / 2)) / of_nat (n / 2) * 0.9)) eqn:L.
  { apply ltb_lt in L. rewrite !Hmean in L by assumption. lra. }
  intros [= <-]. reflexivity.
Qed.

Lemma constant_stress_is_stable_witness :
  exists ins,
    generate_insights
      [Inputs.themed_entry 0 [] (Some 0.5%Q); Inputs.themed_entry 1 [] (Some 0.5%Q)]
    = Ok (Some ins) /\
    stress_trend ins = "stable".
Proof.
  eexists. split; [vm_compute; reflexivity |].
  apply (constant_stress_is_stable
           [Inputs.themed_entry 0 [] (Some 0.5%Q); Inputs.themed_entry 1 [] (Some 0.5%Q)]
           _ 0.5%Q 2).
  - vm_compute. reflexivity.
  - reflexivity.
  - lia.
  - discriminate.
Defined.

(** X11: when no stored emotion score is negative, every share of the
    emotion distribution of [generate_insights] lies between 0 and 1. *)
Theorem emotion_shares_in_unit_range (entries : list DreamEntry) (ins : Insights) :
  generate_insights entries = Ok (Some ins) ->
  Forall (fun score => (0 <= score)%Q) (Spec.emotion_scores entries) ->
  Forall (fun share => (0 <= share <= 1)%Q) (values (emotion_distribution ins)).
Proof.
  intros Hgen Hall.
  assert (Hne : entries <> []) by (intros ->; discriminate Hgen).
  destruct (generate_insights_some entries Hne) as [label [_ Hsome]].
  rewrite Hsome in Hgen. injection Hgen as <-. cbn [emotion_distribution].
  destruct (gtb (sum (values (all_emotions_of entries))) 0) eqn:G; [| constructor].
  apply gtb_gt in G.
  rewrite dict_comp_map by apply NoDup_keys_all_emotions.
  unfold values at 1. rewrite map_map. cbn [fst snd].
  assert (Hvals : Forall (fun v => (0 <= v)%Q) (values (all_emotions_of entries))).
  { apply Forall_forall. intros v Hv. unfold values in Hv.
    apply in_map_iff in Hv. destruct Hv as [[k v'] [Ev Hin]]. cbn in Ev. subst v'.
    pose proof (total_of_all_emotions entries k) as Ht. unfold Spec.total_of in Ht.
    rewrite (in_dict_get _ _ _ (NoDup_keys_all_emotions entries) Hin) in Ht.
    rewrite Ht. unfold Spec.emotion_total. apply sum_nonneg.
    apply Forall_forall. intros x Hx. rewrite Forall_forall in Hall. apply Hall.
    unfold Spec.emotion_scores. apply in_flat_map in Hx. apply in_flat_map.
    destruct Hx as [e [He Hx]]. exists e. split; [exact He |].
    destruct (Models.emotions e) as [d |]; [| contradiction].
    unfold values in *. apply in_map_iff in Hx. destruct Hx as [item [<- Hi]].
    apply filter_In in Hi. apply in_map. tauto. }
  apply Forall_forall. intros share Hs. apply in_map_iff in Hs.
  destruct Hs as [[k v] [<- Hin]]. cbn [snd].
  assert (Hv : In v (values (all_emotions_of entries))).
  { unfold values. replace v with (snd (k, v)) by reflexivity. now apply in_map. }
  pose proof (in_le_sum _ _ Hvals Hv) as Hle.
  rewrite Forall_forall in Hvals. specialize (Hvals _ Hv).
  split.
  - apply (round3_ge _ 0). change (inject_Z 0) with 0%Q.
    apply Qle_shift_div_l; [exact G |]. lra.
  - apply (round3_le _ 1). change (inject_Z 1) with 1%Q.
    apply Qle_shift_div_r; [exact G |]. lra.
Qed.

Lemma emotion_shares_in_unit_range_witness :
  exists ins,
    generate_insights Inputs.three_equal_emotions = Ok (Some ins) /\
    Forall (fun share => (0 <= share <= 1)%Q) (values (emotion_distribution ins)).
Proof.
  eexists. split; [vm_compute; reflexivity |].
  apply (emotion_shares_in_unit_range Inputs.three_equal_emotions).
  - vm_compute. reflexivity.
  - repeat (constructor; [discriminate |]). constructor.
Defined.

End InsightProperties.

(* ================================================================== *)
(** * Recommendations and forecasts                                    *)
(* ================================================================== *)

Module AdviceProperties.
Import Py PyFacts Models.
Import Predictor PredictorFacts.

(** X12: [_generate_recommendations] always gives between one and three
    recommendations and never an empty text; the balanced-pattern default
    is given exactly when no rule fires (average sentiment within
    [-0.3, 0.3], stress trend not increasing, dominant emotion neither
    fear nor sadness), and then it is the only recommendation. *)
Theorem recommendations_never_empty (ins : Analyzer.Insights) :
  1 <= List.length (App.recommendations ins) <= 3 /\
  App._generate_recommendations ins <> EmptyString /\
  (In App.balanced_text (App.recommendations ins)
   <-> App.recommendations ins = [App.balanced_text]) /\
  (App.recommendations ins = [App.balanced_text]
   <-> (-0.3 <= Analyzer.avg_sentiment ins <= 0.3)%Q /\
       Analyzer.stress_trend ins <> "increasing" /\
       Analyzer.dominant_emotion ins <> "fear" /\
       Analyzer.dominant_emotion ins <> "sadness").
Proof.
  unfold App._generate_recommendations, App.recommendations.
  destruct (ltb (Analyzer.avg_sentiment ins) (-0.3)) eqn:Eneg;
    [apply ltb_lt in Eneg | apply ltb_ge in Eneg];
    (destruct (gtb (Analyzer.avg_sentiment ins) 0.3) eqn:Epos;
     [apply gtb_gt in Epos | apply gtb_le in Epos]);
    (destruct (String.eqb (Analyzer.stress_trend ins) "increasing") eqn:Etrend;
     [apply String.eqb_eq in Etrend | apply String.eqb_neq in Etrend]);
    (destruct (String.eqb (Analyzer.dominant_emotion ins) "fear") eqn:Efear;
     [apply String.eqb_eq in Efear | apply String.eqb_neq in Efear]);
    (destruct (String.eqb (Analyzer.dominant_emotion ins) "sadness") eqn:Esad;
     [apply String.eqb_eq in Esad | apply String.eqb_neq in Esad]);
    cbn [app List.length];
    (split; [lia |]);
    (split; [vm_compute; discriminate |]);
    (split; [split; intros H;
             [first [reflexivity
                    | exfalso; cbn [In] in H;
                      unfold App.balanced_text, App.stress_reduction_text,
                        App.positive_text, App.relaxation_text, App.fear_text,
                        App.sadness_text in H;
                      intuition discriminate]
             | first [now left
                     | exfalso;
                       unfold App.balanced_text, App.stress_reduction_text,
                         App.positive_text, App.relaxation_text, App.fear_text,
                         App.sadness_text in H;
                       discriminate H]]
            |]);
    (split;
     [intros H;
      first [exfalso;
             unfold App.balanced_text, App.stress_reduction_text,
               App.positive_text, App.relaxation_text, App.fear_text,
               App.sadness_text in H;
             discriminate H
            | repeat split; assumption]
     | intros [[H1 H2] [H3 [H4 H5]]];
       first [reflexivity | exfalso; first [lra | contradiction]]]).
Qed.


(** ** Forecasts *)

Lemma length_range (a b : Z) : List.length (range a b) = Z.to_nat (b - a).
Proof. unfold range. now rewrite length_map, length_seq. Qed.

(** The first and the last of the values over [range(1, d + 1)]. *)
Lemma map_range_ends {B : Type} (g : Z -> B) (d : Z) :
  (1 <= d)%Z ->
  getitem (map g (range 1 (d + 1))) 0 = Ok (g 1%Z) /\
  getlast (map g (range 1 (d + 1))) = Ok (g d).
Proof.
  intros Hd. unfold range.
  replace (Z.to_nat (d + 1 - 1)) with (S (Z.to_nat (d - 1))) by lia.
  split.
  - reflexivity.
  - rewrite seq_S, !map_app. cbn [map Nat.add]. rewrite getlast_app.
    f_equal. f_equal. lia.
Qed.

Lemma length_training_dates (entries : list DreamEntry) :
  entries <> [] ->
  List.length (Spec.training_dates entries) = List.length (Spec.qualifying entries).
Proof.
  destruct entries as [| first rest]; [congruence |]. intros _.
  unfold Spec.training_dates. apply length_offsets_from.
Qed.

(** A returned forecast, taken apart: the fitted line, the last training
    offset and the number of training points. *)
Lemma forecast_parts
      (model_fit : list Z -> list Q -> result Line)
      (entries : list DreamEntry) (days_ahead : Z) (f : Forecast) :
  predict_mood_trend model_fit entries days_ahead = Ok (Some f) ->
  exists line last_day,
    (1 <= days_ahead)%Z /\
    model_fit (Spec.training_dates entries) (Spec.chronological_sentiments entries)
    = Ok line /\
    f = {| days := map (fun i => (last_day + i)%Z) (range 1 (days_ahead + 1));
           predictions :=
             map (fun x => (coef_ line * inject_Z x + intercept_ line)%Q)
                 (map (fun i => (last_day + i)%Z) (range 1 (days_ahead + 1)));
           trend :=
             if gtb (coef_ line * inject_Z (last_day + days_ahead) + intercept_ line)
                    (coef_ line * inject_Z (last_day + 1) + intercept_ line)
             then "improving" else "declining";
           confidence :=
             if Nat.ltb (List.length (Spec.qualifying entries)) 14 then "low"
             else if Nat.ltb (List.length (Spec.qualifying entries)) 30
                  then "medium" else "high" |}.
Proof.
  intros H.
  destruct (Nat.ltb (List.length entries) 7) eqn:E7.
  { unfold predict_mood_trend in H. rewrite E7 in H. discriminate H. }
  apply Nat.ltb_ge in E7.
  rewrite (predict_mood_trend_prepared model_fit entries days_ahead E7) in H.
  destruct (Nat.ltb (List.length (Spec.qualifying entries)) 3) eqn:E3;
    [discriminate H |].
  apply Nat.ltb_ge in E3.
  assert (Hent : entries <> []) by (intros ->; cbn in E7; lia).
  pose proof (length_training_dates entries Hent) as Hlen.
  assert (Hne : Spec.training_dates entries <> []).
  { intros Hnil. rewrite Hnil in Hlen. cbn in Hlen. lia. }
  destruct (guarded_block_cases model_fit (Spec.training_dates entries)
              (Spec.chronological_sentiments entries) days_ahead Hne)
    as [[_ Hb] | [[_ [_ Hb]] | [Hd [line [p0 [pn [Hl [H0 [Hn Hb]]]]]]]]];
    rewrite Hb in H; try discriminate H.
  injection H as <-. cbn zeta in H0, Hn.
  destruct (getlast_nonempty _ Hne) as [last_day [_ Hrev]].
  unfold Spec.offsets_ahead in *. rewrite Hrev in *.
  exists line, last_day. split; [exact Hd |]. split; [exact Hl |].
  rewrite map_map in H0, Hn.
  destruct (map_range_ends
              (fun i => (coef_ line * inject_Z (last_day + i) + intercept_ line)%Q)
              days_ahead Hd) as [G0 Gn].
  rewrite G0 in H0. rewrite Gn in Hn. injection H0 as <-. injection Hn as <-.
  rewrite Hlen. reflexivity.
Qed.

(** X13: a returned forecast covers the [days_ahead] consecutive offsets
    that follow the last training offset (the offset of the latest entry
    that has a sentiment), holds one prediction per offset, and its
    confidence is "low" below 14 entries with a sentiment, "medium" from
    14 to 29 and "high" from 30 on. *)
Theorem forecast_length_and_confidence
        (model_fit : list Z -> list Q -> result Line)
        (entries : list DreamEntry) (days_ahead : Z) (f : Forecast) :
  predict_mood_trend model_fit entries days_ahead = Ok (Some f) ->
  (1 <= days_ahead)%Z /\
  List.length (days f) = Z.to_nat days_ahead /\
  List.length (predictions f) = Z.to_nat days_ahead /\
  (exists last_day,
      getlast (Spec.training_dates entries) = Ok last_day /\
      days f = map (fun i => (last_day + i)%Z) (range 1 (days_ahead + 1))) /\
  (List.length (Spec.qualifying entries) < 14 -> confidence f = "low") /\
  (14 <= List.length (Spec.qualifying entries) < 30 -> confidence f = "medium") /\
  (30 <= List.length (Spec.qualifying entries) -> confidence f = "high").
Proof.
  intros H.
  destruct (PredictorProperties.forecast_shape model_fit entries days_ahead f H)
    as (_ & _ & _ & _ & Hdays & _).
  destruct (forecast_parts _ _ _ _ H) as [line [last_day [Hd [_ Hf]]]].
  assert (Hlen : List.length (days f) = Z.to_nat days_ahead).
  { rewrite Hf. cbn [days]. rewrite length_map, length_range. lia. }
  split; [exact Hd |]. split; [exact Hlen |].
  split; [rewrite Hf; cbn [predictions]; rewrite !length_map, length_range; lia |].
  split.
  - unfold Spec.offsets_ahead in Hdays. unfold getlast.
    destruct (rev (Spec.training_dates entries)) as [| last_offset others].
    + rewrite Hdays in Hlen. cbn in Hlen. lia.
    + exists last_offset. split; [reflexivity | exact Hdays].
  - rewrite Hf. cbn [confidence].
    destruct (Nat.ltb (List.length (Spec.qualifying entries)) 14) eqn:E14;
      [apply Nat.ltb_lt in E14 | apply Nat.ltb_ge in E14];
      (destruct (Nat.ltb (List.length (Spec.qualifying entries)) 30) eqn:E30;
       [apply Nat.ltb_lt in E30 | apply Nat.ltb_ge in E30]);
      repeat split; intros; try reflexivity; lia.
Qed.

Lemma forecast_length_and_confidence_witness :
  exists f,
    predict_mood_trend ols_fit Inputs.rising_week 7 = Ok (Some f) /\
    (1 <= 7)%Z /\
    List.length (days f) = Z.to_nat 7 /\
    List.length (predictions f) = Z.to_nat 7 /\
    (exists last_day,
        getlast (Spec.training_dates Inputs.rising_week) = Ok last_day /\
        days f = map (fun i => (last_day + i)%Z) (range 1 (7 + 1))) /\
    (List.length (Spec.qualifying Inputs.rising_week) < 14 -> confidence f = "low") /\
    (14 <= List.length (Spec.qualifying Inputs.rising_week) < 30
     -> confidence f = "medium") /\
    (30 <= List.length (Spec.qualifying Inputs.rising_week) -> confidence f = "high").
Proof.
  eexists. split; [vm_compute; reflexivity |].
  apply (forecast_length_and_confidence ols_fit Inputs.rising_week 7).
  vm_compute. reflexivity.
Defined.

(** X14: the trend of a returned forecast is "improving" exactly when at
    least two days ahead are asked for and the fitted line rises;
    otherwise it is "declining".  A forecast of a single day is always
    "declining". *)
Theorem forecast_trend_follows_slope
        (model_fit : list Z -> list Q -> result Line)
        (entries : list DreamEntry) (days_ahead : Z) (f : Forecast) :
  predict_mood_trend model_fit entries days_ahead = Ok (Some f) ->
  exists line,
    model_fit (Spec.training_dates entries) (Spec.chronological_sentiments entries)
    = Ok line /\
    (trend f = "improving" <-> (2 <= days_ahead)%Z /\ (0 < coef_ line)%Q) /\
    (trend f = "improving" \/ trend f = "declining").
Proof.
  intros H. destruct (forecast_parts _ _ _ _ H) as [line [last_day [Hd [Hl ->]]]].
  exists line. split; [exact Hl |]. cbn [trend].
  assert (Hdiff : (coef_ line * inject_Z (last_day + days_ahead) + intercept_ line
                   - (coef_ line * inject_Z (last_day + 1) + intercept_ line)
                   == coef_ line * inject_Z (days_ahead - 1))%Q).
  { replace (last_day + days_ahead)%Z with (last_day + 1 + (days_ahead - 1))%Z by lia.
    rewrite (inject_Z_plus (last_day + 1)). ring. }
  destruct (gtb (coef_ line * inject_Z (last_day + days_ahead) + intercept_ line)
                (coef_ line * inject_Z (last_day + 1) + intercept_ line)) eqn:G;
    [apply gtb_gt in G | apply gtb_le in G].
  - split; [| now left]. split; [| reflexivity]. intros _.
    assert (Hprod : (0 < coef_ line * inject_Z (days_ahead - 1))%Q) by lra.
    destruct (Z.eq_dec days_ahead 1) as [-> | Hne].
    + cbn in Hprod. exfalso. revert Hprod.
      setoid_replace (coef_ line * inject_Z 0)%Q with 0%Q by ring. discriminate.
    + split; [lia |].
      assert (Hpos : (0 < inject_Z (days_ahead - 1))%Q).
      { change 0%Q with (inject_Z 0). rewrite <- Zlt_Qlt. lia. }
      destruct (Qlt_le_dec 0 (coef_ line)) as [Hc | Hc]; [exact Hc |].
      exfalso.
      assert (Hneg : (coef_ line * inject_Z (days_ahead - 1) <= 0)%Q).
      { setoid_replace 0%Q with (0 * inject_Z (days_ahead - 1))%Q by ring.
        apply Qmult_le_compat_r; [exact Hc | now apply Qlt_le_weak]. }
      lra.
  - split; [| now right]. split; [discriminate |]. intros [Hd2 Hc]. exfalso.
    assert (Hpos : (0 < inject_Z (days_ahead - 1))%Q).
    { change 0%Q with (inject_Z 0). rewrite <- Zlt_Qlt. lia. }
    pose proof (Qmult_lt_0_compat _ _ Hc Hpos) as Hprod. lra.
Qed.

Lemma forecast_trend_follows_slope_witness :
  exists f line,
    predict_mood_trend ols_fit Inputs.rising_week 7 = Ok (Some f) /\
    ols_fit (Spec.training_dates Inputs.rising_week)
            (Spec.chronological_sentiments Inputs.rising_week) = Ok line /\
    (trend f = "improving" <-> (2 <= 7)%Z /\ (0 < coef_ line)%Q).
Proof.
  eexists.
  refine (let H := forecast_trend_follows_slope ols_fit Inputs.rising_week 7 _ _ in
          match H with
          | ex_intro _ line (conj Hl (conj Ht _)) =>
              ex_intro _ line (conj _ (conj Hl Ht))
          end).
  Unshelve.
  all: vm_compute; reflexivity.
Defined.

End AdviceProperties.

(* ================================================================== *)
(** * The personalised insights                                        *)
(* ================================================================== *)

Module PersonalFacts.
Import Py PyFacts Models.
Import Predictor PredictorFacts.

Lemma length_last_n {A : Type} (n : nat) (xs : list A) :
  List.length (last_n n xs) = Nat.min n (List.length xs).
Proof. unfold last_n. rewrite length_skipn. lia. Qed.

Lemma length_recent_entries (entries : list DreamEntry) :
  List.length (Spec.recent_entries entries) = Nat.min 7 (List.length entries).
Proof.
  unfold Spec.recent_entries. now rewrite length_last_n, length_sorted.
Qed.

(** A sentiment below -0.5 is not zero, so the truth-value test of the
    nightmare count changes nothing. *)
Lemma nightmare_filter (l : list DreamEntry) :
  list_sum
    (map (fun _ => 1)
         (filter (fun e => truthy (sentiment_score e)
                           && match sentiment_score e with
                              | Some s => ltb s (-0.5)%Q
                              | None => false
                              end) l))
  = List.length
      (filter (fun e => match sentiment_score e with
                        | Some s => ltb s (-0.5)%Q
                        | None => false
                        end) l).
Proof.
  rewrite list_sum_ones. f_equal. apply filter_ext. intros e.
  destruct (sentiment_score e) as [s |]; [| reflexivity].
  cbn [truthy]. destruct (ltb s (-0.5)) eqn:L; [| apply andb_false_r].
  apply ltb_lt in L. destruct (Qeq_bool s 0) eqn:E; [| reflexivity].
  apply Qeq_bool_iff in E. rewrite E in L. discriminate L.
Qed.

Lemma ltb_comp (a a' b : Q) : (a == a')%Q -> ltb a b = ltb a' b.
Proof.
  intros H. destruct (ltb a' b) eqn:E.
  - apply ltb_lt. rewrite H. now apply ltb_lt.
  - apply ltb_ge. rewrite H. now apply ltb_ge.
Qed.

Lemma gtb_comp (a a' b : Q) : (a == a')%Q -> gtb a b = gtb a' b.
Proof.
  intros H. destruct (gtb a' b) eqn:E.
  - apply gtb_gt. rewrite H. now apply gtb_gt.
  - apply gtb_le. rewrite H. now apply gtb_le.
Qed.

(** [generate_personalized_insights] on five or more entries: nothing is
    raised, and each of the four rules adds its texts in turn. *)
Lemma personalized_insights_rules (entries : list DreamEntry) :
  5 <= List.length entries ->
  exists stats,
    total_dreams stats = List.length entries /\
    dreams_per_week stats = round (Spec.frequency entries) 1 /\
    generate_personalized_insights entries =
      Ok (Personalized
            ((if ltb (Spec.recent_sentiment entries) (-0.3)%Q
              then ["Your recent dreams show negative sentiment patterns"]
              else if gtb (Spec.recent_sentiment entries) 0.3%Q
                   then ["Your recent dreams are predominantly positive!"]
                   else [])
             ++ (if gtb (Spec.recent_stress entries) 0.6%Q
                 then ["High stress indicators detected in your dreams"]
                 else [])
             ++ (if Nat.leb 3 (Spec.nightmare_count entries)
                 then [("You've had " ++ str_of_nat (Spec.nightmare_count entries)
                        ++ " nightmares in the past week")%string]
                 else [])
             ++ (if ltb (Spec.frequency entries) 2%Q
                 then ["You're recording dreams infrequently"]
                 else if gtb (Spec.frequency entries) 5%Q
                      then ["Excellent dream recall! You're recording frequently"]
                      else []))
            ((if ltb (Spec.recent_sentiment entries) (-0.3)%Q
              then ["Consider stress-reduction techniques before bed";
                    "Try journaling worries before sleep"]
              else if gtb (Spec.recent_sentiment entries) 0.3%Q
                   then ["Continue your current sleep routine"]
                   else [])
             ++ (if gtb (Spec.recent_stress entries) 0.6%Q
                 then ["Practice relaxation exercises before bed";
                       "Reduce screen time in the evening"]
                 else [])
             ++ (if Nat.leb 3 (Spec.nightmare_count entries)
                 then ["Consider speaking with a healthcare professional if nightmares persist"]
                 else [])
             ++ (if ltb (Spec.frequency entries) 2%Q
                 then ["Try setting a morning reminder to record dreams"]
                 else if gtb (Spec.frequency entries) 5%Q
                      then ["Your detailed records will provide rich insights"]
                      else []))
            stats).
Proof.
  intros H5.
  assert (Hrecent : 0 < List.length (Spec.recent_entries entries)).
  { rewrite length_recent_entries. lia. }
  destruct entries as [| first rest]; [cbn in H5; lia |].
  remember (first :: rest) as entries eqn:Hent.
  assert (Hne : entries <> []) by (rewrite Hent; discriminate).
  destruct (getlast_nonempty entries Hne) as [last_entry [Hlast Hrev]].
  assert (Hfirst : getitem entries 0 = Ok first) by (rewrite Hent; reflexivity).
  assert (Hspan : Spec.listed_span entries
                  = days_between (dream_date last_entry) (dream_date first)).
  { unfold Spec.listed_span. rewrite Hent in Hrev |- *. rewrite Hrev. reflexivity. }
  unfold generate_personalized_insights.
  destruct (Nat.ltb (List.length entries) 5) eqn:E5; [apply Nat.ltb_lt in E5; lia |].
  fold (Spec.recent_entries entries).
  rewrite !(div_ok _ (of_nat (List.length (Spec.recent_entries entries))))
    by (apply of_nat_nonzero; exact Hrecent).
  rewrite Hlast, Hfirst. cbn [bind].
  rewrite (div_ok _ (inject_Z _))
    by (intros E; assert (Hz : (0 < inject_Z
                                      (Z.max (days_between (dream_date last_entry)
                                                           (dream_date first)) 1))%Q)
          by (change 0%Q with (inject_Z 0); rewrite <- Zlt_Qlt; lia); lra).
  rewrite (div_ok _ (of_nat (List.length entries)))
    by (apply of_nat_nonzero; lia).
  cbn [bind]. rewrite nightmare_filter.
  fold (Spec.nightmare_count entries). rewrite <- Hspan.
  fold (Spec.frequency entries).
  rewrite (ltb_comp _ (Spec.recent_sentiment entries) (-0.3)%Q)
    by (unfold Spec.recent_sentiment, Spec.present_sentiments;
        now rewrite sum_present_truthy).
  rewrite (gtb_comp _ (Spec.recent_sentiment entries) 0.3%Q)
    by (unfold Spec.recent_sentiment, Spec.present_sentiments;
        now rewrite sum_present_truthy).
  rewrite (gtb_comp _ (Spec.recent_stress entries) 0.6%Q)
    by (unfold Spec.recent_stress; now rewrite sum_present_truthy).
  eexists.
  destruct (ltb (Spec.recent_sentiment entries) (-0.3));
    destruct (gtb (Spec.recent_sentiment entries) 0.3);
    destruct (gtb (Spec.recent_stress entries) 0.6);
    destruct (Nat.leb 3 (Spec.nightmare_count entries));
    destruct (ltb (Spec.frequency entries) 2);
    destruct (gtb (Spec.frequency entries) 5);
    cbn [app]; (split; [| split; [| reflexivity]]); reflexivity.
Qed.

End PersonalFacts.

Module PersonalProperties.
Import Py PyFacts Models.
Import Predictor PredictorFacts PersonalFacts InsightFacts.


(** X16: on five or more entries [generate_personalized_insights] gives
    the stress-reduction and the journaling recommendation, always
    together, whenever the sentiment summed over the seven latest entries
    and divided by their number is at most -0.300001, and only when it is
    below -0.299999; it gives the keep-your-routine recommendation whenever
    that mean is at least 0.300001, and only when it is above 0.299999. *)
Theorem personalized_sentiment_rule (entries : list DreamEntry) :
  5 <= List.length entries ->
  exists insights recommendations stats,
    generate_personalized_insights entries
    = Ok (Personalized insights recommendations stats) /\
    ((Spec.recent_sentiment entries <= -0.300001)%Q ->
     In "Consider stress-reduction techniques before bed" recommendations
     /\ In "Try journaling worries before sleep" recommendations) /\
    (In "Consider stress-reduction techniques before bed" recommendations
     \/ In "Try journaling worries before sleep" recommendations ->
     (Spec.recent_sentiment entries < -0.299999)%Q) /\
    ((0.300001 <= Spec.recent_sentiment entries)%Q ->
     In "Continue your current sleep routine" recommendations) /\
    (In "Continue your current sleep routine" recommendations ->
     (0.299999 < Spec.recent_sentiment entries)%Q) /\
    (In "Consider stress-reduction techniques before bed" recommendations
     <-> In "Try journaling worries before sleep" recommendations).
Proof.
  intros H. destruct (personalized_insights_rules entries H) as [stats [_ [_ Hr]]].
  do 3 eexists. split; [exact Hr |].
  destruct (ltb (Spec.recent_sentiment entries) (-0.3)) eqn:Eneg;
    [apply ltb_lt in Eneg | apply ltb_ge in Eneg];
    (destruct (gtb (Spec.recent_sentiment entries) 0.3) eqn:Epos;
     [apply gtb_gt in Epos | apply gtb_le in Epos]);
    destruct (gtb (Spec.recent_stress entries) 0.6);
    destruct (Nat.leb 3 (Spec.nightmare_count entries));
    destruct (ltb (Spec.frequency entries) 2);
    destruct (gtb (Spec.frequency entries) 5);
    cbn [app In];
    repeat match goal with
           | |- _ /\ _ => split
           | |- _ <-> _ => split
           | |- _ -> _ => intros ?
           end;
    first [assumption
          | lra
          | tauto
          | exfalso; lra
          | exfalso; intuition discriminate ].
Qed.

Lemma personalized_sentiment_rule_witness :
  exists insights recommendations stats,
    generate_personalized_insights Inputs.fearful_week
    = Ok (Personalized insights recommendations stats) /\
    ((Spec.recent_sentiment Inputs.fearful_week <= -0.300001)%Q ->
     In "Consider stress-reduction techniques before bed" recommendations
     /\ In "Try journaling worries before sleep" recommendations) /\
    (In "Consider stress-reduction techniques before bed" recommendations
     \/ In "Try journaling worries before sleep" recommendations ->
     (Spec.recent_sentiment Inputs.fearful_week < -0.299999)%Q) /\
    ((0.300001 <= Spec.recent_sentiment Inputs.fearful_week)%Q ->
     In "Continue your current sleep routine" recommendations) /\
    (In "Continue your current sleep routine" recommendations ->
     (0.299999 < Spec.recent_sentiment Inputs.fearful_week)%Q) /\
    (In "Consider stress-reduction techniques before bed" recommendations
     <-> In "Try journaling worries before sleep" recommendations).
Proof.
  apply (personalized_sentiment_rule Inputs.fearful_week).
  cbn. lia.
Defined.

Lemma round_half_even_integer (z : Z) : round_half_even (inject_Z z) = z.
Proof.
  unfold round_half_even. rewrite Qfloor_Z.
  assert (E : ((inject_Z z - inject_Z z) ?= (1 # 2))%Q = Lt).
  { apply Qlt_alt. setoid_replace (inject_Z z - inject_Z z)%Q with 0%Q by ring.
    reflexivity. }
  now rewrite E.
Qed.

(** X17: the recording frequency is taken over the days from the first
    listed entry to the last listed one.  When five or more entries are
    listed so that this span is less than one day (for instance latest
    first), [dreams_per_week] is seven times the number of entries and the
    frequent-recording praise is given. *)
Theorem frequency_over_listed_span (entries : list DreamEntry) :
  5 <= List.length entries ->
  (Spec.listed_span entries < 1)%Z ->
  exists insights recommendations stats,
    generate_personalized_insights entries
    = Ok (Personalized insights recommendations stats) /\
    (dreams_per_week stats == 7 * of_nat (List.length entries))%Q /\
    In "Excellent dream recall! You're recording frequently" insights /\
    In "Your detailed records will provide rich insights" recommendations.
Proof.
  intros H5 Hspan.
  destruct (personalized_insights_rules entries H5) as [stats [_ [Hw Hr]]].
  do 3 eexists. split; [exact Hr |].
  assert (Hf : (Spec.frequency entries == 7 * of_nat (List.length entries))%Q).
  { unfold Spec.frequency. replace (Z.max (Spec.listed_span entries) 1) with 1%Z by lia.
    change (inject_Z 1) with 1%Q. field. }
  assert (Hbig : (35 <= Spec.frequency entries)%Q).
  { rewrite Hf. apply of_nat_le in H5. change (of_nat 5) with 5%Q in H5. lra. }
  split.
  - rewrite Hw. unfold round. change (inject_Z (10 ^ Z.of_nat 1)) with 10%Q.
    rewrite (round_half_even_comp _ (inject_Z (70 * Z.of_nat (List.length entries)))).
    + rewrite round_half_even_integer, inject_Z_mult. unfold of_nat.
      change (inject_Z 70) with 70%Q. field.
    + rewrite Hf, inject_Z_mult. unfold of_nat. change (inject_Z 70) with 70%Q. ring.
  - assert (E2 : ltb (Spec.frequency entries) 2 = false) by (apply ltb_ge; lra).
    assert (E5 : gtb (Spec.frequency entries) 5 = true) by (apply gtb_gt; lra).
    rewrite E2, E5. split; apply in_or_app; right; apply in_or_app; right;
      apply in_or_app; right; now left.
Qed.

Lemma frequency_over_listed_span_witness :
  exists insights recommendations stats,
    generate_personalized_insights Inputs.rising_week_latest_first
    = Ok (Personalized insights recommendations stats) /\
    (dreams_per_week stats
     == 7 * of_nat (List.length Inputs.rising_week_latest_first))%Q /\
    In "Excellent dream recall! You're recording frequently" insights /\
    In "Your detailed records will provide rich insights" recommendations.
Proof.
  apply (frequency_over_listed_span Inputs.rising_week_latest_first).
  - cbn. lia.
  - vm_compute. reflexivity.
Defined.

End PersonalProperties.

(** * The two composers of recommendations *)

Module ComposerProperties.
Import Py Models Predictor PyFacts PersonalFacts.
Local Open Scope py_scope.




End ComposerProperties.

(** * Forecasts for chronological input *)

Module ForecastProperties.
Import Py Models Predictor PyFacts.
Local Open Scope py_scope.

(** X27 ([predict_mood_trend]): for entries listed in chronological order, a
    forecast is the line fitted to the day offsets from the earliest entry,
    evaluated on the days that follow the last of these offsets. *)
Theorem chronological_forecast
        (model_fit : list Z -> list Q -> result Line)
        (entries : list DreamEntry) (days_ahead : Z) (f : Forecast) :
  Sorted (fun a b => (by_dream_date a <= by_dream_date b)%Z) entries ->
  predict_mood_trend model_fit entries days_ahead = Ok (Some f) ->
  exists line,
    model_fit (Spec.offsets_from_earliest entries)
              (Spec.chronological_sentiments entries) = Ok line
    /\ days f = Spec.offsets_ahead (Spec.offsets_from_earliest entries) days_ahead
    /\ predictions f
       = map (fun x => (coef_ line * inject_Z x + intercept_ line)%Q) (days f).
Proof.
  intros Hsorted Hf.
  destruct (PredictorProperties.forecast_shape model_fit entries days_ahead f Hf)
    as (line & _ & _ & Hfit & Hdays & Hpred & _).
  rewrite (PredictorFacts.training_dates_chronological entries Hsorted) in Hfit, Hdays.
  exists line. auto.
Qed.

Lemma chronological_forecast_witness :
  exists f,
    predict_mood_trend ols_fit Inputs.rising_week 7 = Ok (Some f)
    /\ exists line,
        ols_fit (Spec.offsets_from_earliest Inputs.rising_week)
                (Spec.chronological_sentiments Inputs.rising_week) = Ok line
        /\ days f = Spec.offsets_ahead (Spec.offsets_from_earliest Inputs.rising_week) 7
        /\ predictions f
           = map (fun x => (coef_ line * inject_Z x + intercept_ line)%Q) (days f).
Proof.
  eexists. split; [vm_compute; reflexivity |].
  apply (chronological_forecast ols_fit Inputs.rising_week 7).
  - repeat constructor; vm_compute; discriminate.
  - vm_compute. reflexivity.
Defined.

End ForecastProperties.

(** * The tags column *)

Module TagFacts.
Import Py Models.

Lemma rstrip_idempotent s : rstrip (rstrip s) = rstrip s.
Proof.
  induction s as [| c r IH]; simpl; [reflexivity |].
  destruct (rstrip r) as [| c' r'] eqn:E.
  - destruct (isspace c) eqn:Hc; simpl; [reflexivity | now rewrite Hc].
  - simpl in *. rewrite IH. reflexivity.
Qed.

Lemma rstrip_keeps_head c r :
  isspace c = false -> exists r', rstrip (String c r) = String c r'.
Proof.
  intros Hc. simpl. destruct (rstrip r); [rewrite Hc |]; eauto.
Qed.

Lemma lstrip_head s :
  lstrip s = "" \/ exists c r, lstrip s = String c r /\ isspace c = false.
Proof.
  induction s as [| c r IH]; simpl; [now left |].
  destruct (isspace c) eqn:Hc; [exact IH | right; eauto].
Qed.

Lemma strip_idempotent s : strip (strip s) = strip s.
Proof.
  unfold strip. destruct (lstrip_head s) as [E | (c & r & E & Hc)]; rewrite E.
  - reflexivity.
  - destruct (rstrip_keeps_head c r Hc) as [r' Hr]. rewrite Hr.
    simpl lstrip. rewrite Hc. rewrite <- Hr. apply rstrip_idempotent.
Qed.

Lemma count_lstrip c s : count c s = 0 -> count c (lstrip s) = 0.
Proof.
  induction s as [| d r IH]; simpl; [trivial |].
  intros H. destruct (isspace d); [apply IH; lia | simpl; exact H].
Qed.

Lemma count_rstrip c s : count c s = 0 -> count c (rstrip s) = 0.
Proof.
  induction s as [| d r IH]; simpl; [trivial |].
  intros H. assert (Hr : count c r = 0) by lia. specialize (IH Hr).
  destruct (rstrip r) as [| d' r'] eqn:E.
  - destruct (isspace d); simpl; lia.
  - change (count c (String d (String d' r'))) with
      ((if Ascii.eqb c d then 1 else 0) + count c (String d' r')). lia.
Qed.

Lemma count_strip c s : count c s = 0 -> count c (strip s) = 0.
Proof. intros H. unfold strip. now apply count_rstrip, count_lstrip. Qed.

(** The pieces of a split hold no separator. *)
Lemma split_on_parts sep s : Forall (fun part => count sep part = 0) (split_on sep s).
Proof.
  induction s as [| c r IH]; simpl.
  - constructor; [reflexivity | constructor].
  - destruct (Ascii.eqb c sep) eqn:E.
    + constructor; [reflexivity | exact IH].
    + destruct (split_on sep r) as [| part parts].
      * constructor; [| constructor]. simpl. now rewrite Ascii.eqb_sym, E.
      * inversion IH as [| ? ? Hpart Hparts]; subst.
        constructor; [| exact Hparts]. simpl. now rewrite Ascii.eqb_sym, E.
Qed.

Lemma split_on_whole sep s : count sep s = 0 -> split_on sep s = [s].
Proof.
  induction s as [| c r IH]; simpl; [reflexivity |].
  rewrite Ascii.eqb_sym. destruct (Ascii.eqb c sep); [discriminate |].
  intros H. now rewrite IH.
Qed.

Lemma split_on_app sep p s :
  count sep p = 0 -> split_on sep (p ++ String sep s) = p :: split_on sep s.
Proof.
  induction p as [| c r IH]; simpl.
  - now rewrite Ascii.eqb_refl.
  - rewrite Ascii.eqb_sym. destruct (Ascii.eqb c sep); [discriminate |].
    intros H. now rewrite IH.
Qed.

Lemma split_on_join sep parts :
  parts <> [] -> Forall (fun part => count sep part = 0) parts ->
  split_on sep (join (String sep "") parts) = parts.
Proof.
  induction parts as [| p rest IH]; [congruence |].
  intros _ H. inversion H as [| ? ? Hp Hrest]; subst.
  destruct rest as [| q rest'].
  - simpl. now apply split_on_whole.
  - change (join (String sep "") (p :: q :: rest'))
      with (p ++ String sep (join (String sep "") (q :: rest')))%string.
    rewrite split_on_app by exact Hp. f_equal. apply IH; [discriminate | exact Hrest].
Qed.

Lemma clean_tag_spec tag :
  Spec.clean_tag tag = true <-> tag <> "" /\ strip tag = tag /\ count "," tag = 0.
Proof.
  unfold Spec.clean_tag. rewrite !andb_true_iff, String.eqb_eq, Nat.eqb_eq.
  destruct tag; simpl nonempty; intuition congruence.
Qed.

Lemma nonempty_join sep p rest : nonempty p = true -> nonempty (join sep (p :: rest)) = true.
Proof.
  destruct p; [discriminate |]. intros _. destruct rest; reflexivity.
Qed.

End TagFacts.

Module TagProperties.
Import Py Models TagFacts.

(** X18 ([get_tags_list], [set_tags_list]): a list of tags that are not
    empty, have no white space at their ends and hold no comma is read back
    from the [tags] column exactly as it was stored; the empty list is
    stored as NULL and read back as the empty list. *)
Theorem tags_round_trip (tags_list : list string) :
  forallb Spec.clean_tag tags_list = true ->
  get_tags_list (set_tags_list tags_list) = tags_list.
Proof.
  intros H. rewrite forallb_forall in H.
  destruct tags_list as [| p rest]; [reflexivity |].
  unfold set_tags_list, get_tags_list.
  assert (Hall : Forall (fun t => t <> "" /\ strip t = t /\ count "," t = 0) (p :: rest)).
  { apply Forall_forall. intros t Ht. now apply clean_tag_spec, H. }
  assert (Hp : nonempty p = true).
  { inversion Hall as [| ? ? [Hne _] _]; subst. destruct p; [congruence | reflexivity]. }
  rewrite (nonempty_join "," p rest Hp).
  assert (Hsplit : split_on "," (join "," (p :: rest)) = p :: rest).
  { apply split_on_join; [discriminate |].
    eapply Forall_impl; [| exact Hall]. simpl. tauto. }
  rewrite Hsplit. clear Hsplit Hp H.
  induction Hall as [| t ts (Hne & Hs & _) _ IH]; [reflexivity |].
  simpl. rewrite Hs. destruct t; [congruence |]. simpl nonempty. cbv iota.
  simpl map. rewrite Hs. f_equal. apply IH.
Qed.

Lemma tags_round_trip_witness :
  get_tags_list (set_tags_list Inputs.two_tags) = Inputs.two_tags.
Proof. apply (tags_round_trip Inputs.two_tags). reflexivity. Defined.

(** X19 ([get_tags_list]): whatever the [tags] column holds, every tag read
    from it is not empty, has no white space at its ends and holds no
    comma; a NULL or empty column gives no tags. *)
Theorem tags_read_are_clean (tags : option string) :
  forallb Spec.clean_tag (get_tags_list tags) = true
  /\ get_tags_list None = []
  /\ get_tags_list (Some "") = [].
Proof.
  split; [| split; reflexivity].
  apply forallb_forall. intros tag Hin. apply clean_tag_spec.
  destruct tags as [text |]; [| contradiction].
  unfold get_tags_list in Hin. destruct (nonempty text); [| contradiction].
  apply in_map_iff in Hin. destruct Hin as (raw & <- & Hraw).
  apply filter_In in Hraw. destruct Hraw as [Hraw Hne].
  split; [| split].
  - intros E. rewrite E in Hne. discriminate.
  - apply strip_idempotent.
  - apply count_strip.
    pose proof (split_on_parts "," text) as Hparts.
    rewrite Forall_forall in Hparts. now apply Hparts.
Qed.

End TagProperties.

(** * The weekday analysis *)

Module WeekdayFacts.
Import Py Models Predictor Loops PyFacts.
Local Open Scope py_scope.

Section Extremes.
Context {K : Type}.

Lemma max_by_value_greatest (first : K * Q) (rest : list (K * Q)) :
  In (max_by_value first rest) (first :: rest)
  /\ forall kv, In kv (first :: rest) -> (snd kv <= snd (max_by_value first rest))%Q.
Proof.
  unfold max_by_value. revert first.
  induction rest as [| x rest IH]; intros first; simpl fold_left.
  - split; [now left |]. intros kv [<- | []]. apply Qle_refl.
  - destruct (IH (if gtb (snd x) (snd first) then x else first)) as [Hin Hmax].
    split.
    + destruct Hin as [E | Hin]; [| now right; right].
      rewrite <- E. destruct (gtb (snd x) (snd first)); [right; now left | now left].
    + intros kv Hkv.
      assert (Hstep : (snd kv <= snd (if gtb (snd x) (snd first) then x else first))%Q
                      \/ In kv rest).
      { destruct Hkv as [<- | [<- | Hrest]]; [| | now right]; left;
          destruct (gtb (snd x) (snd first)) eqn:E;
          try apply Qle_refl.
        - apply gtb_gt in E. now apply Qlt_le_weak.
        - now apply gtb_le in E. }
      destruct Hstep as [Hle | Hrest].
      * eapply Qle_trans; [exact Hle |]. apply Hmax. now left.
      * apply Hmax. now right.
Qed.

Lemma min_by_value_least (first : K * Q) (rest : list (K * Q)) :
  In (min_by_value first rest) (first :: rest)
  /\ forall kv, In kv (first :: rest) -> (snd (min_by_value first rest) <= snd kv)%Q.
Proof.
  unfold min_by_value. revert first.
  induction rest as [| x rest IH]; intros first; simpl fold_left.
  - split; [now left |]. intros kv [<- | []]. apply Qle_refl.
  - destruct (IH (if ltb (snd x) (snd first) then x else first)) as [Hin Hmin].
    split.
    + destruct Hin as [E | Hin]; [| now right; right].
      rewrite <- E. destruct (ltb (snd x) (snd first)); [right; now left | now left].
    + intros kv Hkv.
      assert (Hstep : (snd (if ltb (snd x) (snd first) then x else first) <= snd kv)%Q
                      \/ In kv rest).
      { destruct Hkv as [<- | [<- | Hrest]]; [| | now right]; left;
          destruct (ltb (snd x) (snd first)) eqn:E;
          try apply Qle_refl.
        - apply ltb_lt in E. now apply Qlt_le_weak.
        - now apply ltb_ge in E. }
      destruct Hstep as [Hle | Hrest].
      * eapply Qle_trans; [| exact Hle]. apply Hmin. now left.
      * apply Hmin. now right.
Qed.

End Extremes.

Lemma weekday_in_week (d : datetime) : In (weekday d) (range 0 7).
Proof.
  unfold weekday.
  pose proof (Z.mod_pos_bound (ordinal d + 6) 7 ltac:(lia)) as H.
  change (range 0 7) with [0; 1; 2; 3; 4; 5; 6]%Z. simpl.
  lia.
Qed.

(** The sentiments of a weekday, entry by entry. *)
Lemma weekday_sentiments_cons (e : DreamEntry) (entries : list DreamEntry) (day : Z) :
  Spec.weekday_sentiments (e :: entries) day
  = (match sentiment_score e with
     | Some score => if (day =? weekday (dream_date e))%Z then [score] else []
     | None => []
     end) ++ Spec.weekday_sentiments entries day.
Proof.
  unfold Spec.weekday_sentiments. simpl filter. rewrite Z.eqb_sym.
  destruct (day =? weekday (dream_date e))%Z.
  - simpl map. unfold present. simpl flat_map.
    destruct (sentiment_score e); reflexivity.
  - destruct (sentiment_score e); reflexivity.
Qed.

(** The dictionary of the first loop: every weekday with its sentiments. *)
Lemma day_sentiments_loop (entries : list DreamEntry) (f : Z -> list Q) (days : list Z) :
  fold_left
    (fun day_sentiments entry =>
       let day := weekday (dream_date entry) in
       match sentiment_score entry with
       | Some score => day_append day_sentiments day score
       | None => day_sentiments
       end)
    entries (map (fun i => (i, f i)) days)
  = map (fun i => (i, f i ++ Spec.weekday_sentiments entries i)) days.
Proof.
  revert f. induction entries as [| e entries IH]; intros f; simpl fold_left.
  - apply map_ext. intros i. unfold Spec.weekday_sentiments. simpl.
    now rewrite app_nil_r.
  - destruct (sentiment_score e) as [score |] eqn:Hs.
    + unfold day_append. rewrite map_map. cbn [fst snd].
      rewrite (map_ext _ (fun i => (i, (fun i => if (i =? weekday (dream_date e))%Z
                                                  then f i ++ [score] else f i) i))).
      2:{ intros i. now destruct (i =? weekday (dream_date e))%Z. }
      rewrite IH. apply map_ext. intros i.
      rewrite weekday_sentiments_cons, Hs.
      destruct (i =? weekday (dream_date e))%Z; [now rewrite <- app_assoc | reflexivity].
    + rewrite IH. apply map_ext. intros i.
      now rewrite weekday_sentiments_cons, Hs.
Qed.

Lemma day_averages_loop (entries : list DreamEntry) (days : list Z)
      (acc : list (Z * option Q)) :
  for_each
    (fun (acc : list (Z * option Q)) (item : Z * list Q) =>
       let (day, scores) := item in
       match scores with
       | [] => Ok (acc ++ [(day, None)])
       | _ =>
           average <- div (sum scores) (of_nat (List.length scores)) ;;
           Ok (acc ++ [(day, Some average)])
       end)
    (map (fun i => (i, Spec.weekday_sentiments entries i)) days) acc
  = Ok (acc ++ map (fun i => (i, match Spec.weekday_sentiments entries i with
                                 | [] => None
                                 | _ => Some (Spec.weekday_mean entries i)
                                 end)) days).
Proof.
  revert acc. induction days as [| d days IH]; intros acc; simpl.
  - now rewrite app_nil_r.
  - unfold Spec.weekday_mean.
    destruct (Spec.weekday_sentiments entries d) as [| s ss] eqn:E.
    + cbn [bind]. rewrite IH. now rewrite <- app_assoc.
    + rewrite div_ok by (apply of_nat_nonzero; simpl; lia).
      cbn [bind]. rewrite IH. rewrite <- app_assoc. reflexivity.
Qed.

Lemma valid_days_of (entries : list DreamEntry) (days : list Z) :
  flat_map (fun item : Z * option Q =>
              match snd item with
              | Some average => [(fst item, average)]
              | None => []
              end)
           (map (fun i => (i, match Spec.weekday_sentiments entries i with
                              | [] => None
                              | _ => Some (Spec.weekday_mean entries i)
                              end)) days)
  = flat_map (fun day => match Spec.weekday_sentiments entries day with
                         | [] => []
                         | _ => [(day, Spec.weekday_mean entries day)]
                         end) days.
Proof.
  induction days as [| d days IH]; simpl; [reflexivity |].
  rewrite IH. now destruct (Spec.weekday_sentiments entries d).
Qed.

Lemma in_scored_days (entries : list DreamEntry) (kv : Z * Q) :
  In kv (scored_days entries)
  <-> In (fst kv) (range 0 7) /\ Spec.weekday_sentiments entries (fst kv) <> []
      /\ snd kv = Spec.weekday_mean entries (fst kv).
Proof.
  unfold scored_days. rewrite in_flat_map. split.
  - intros (d & Hd & Hin).
    destruct (Spec.weekday_sentiments entries d) eqn:E; [contradiction |].
    destruct Hin as [<- | []]. simpl. rewrite E. repeat split; [exact Hd | discriminate].
  - intros (Hd & Hne & Hv). exists (fst kv). split; [exact Hd |].
    destruct (Spec.weekday_sentiments entries (fst kv)); [congruence |].
    left. destruct kv; simpl in *. now rewrite Hv.
Qed.

(** Some weekday has a sentiment exactly when some entry has one. *)
Lemma scored_days_nil (entries : list DreamEntry) :
  scored_days entries = [] <-> Spec.present_sentiments entries = [].
Proof.
  split.
  - intros Hnil. induction entries as [| e entries IH]; [reflexivity |].
    unfold Spec.present_sentiments, present. simpl.
    destruct (sentiment_score e) as [score |] eqn:Hs.
    + exfalso.
      assert (Hin : In (weekday (dream_date e),
                        Spec.weekday_mean (e :: entries) (weekday (dream_date e)))
                       (scored_days (e :: entries))).
      { apply in_scored_days. simpl. repeat split.
        - apply weekday_in_week.
        - rewrite weekday_sentiments_cons, Hs, Z.eqb_refl. discriminate. }
      rewrite Hnil in Hin. contradiction.
    + simpl. apply IH.
      unfold scored_days in *.
      etransitivity; [| exact Hnil]. apply flat_map_ext. intros d.
      unfold Spec.weekday_mean. now rewrite weekday_sentiments_cons, Hs.
  - intros Hnone. unfold scored_days.
    assert (Hall : forall d, Spec.weekday_sentiments entries d = []).
    { intros d. induction entries as [| e entries IH]; [reflexivity |].
      unfold Spec.present_sentiments, present in Hnone. simpl in Hnone.
      rewrite weekday_sentiments_cons.
      destruct (sentiment_score e); [discriminate |]. simpl. apply IH. exact Hnone. }
    induction (range 0 7) as [| d days IH]; [reflexivity |].
    simpl. now rewrite Hall.
Qed.

Lemma day_name (day : Z) :
  In day (range 0 7) -> exists name, getitem days_names (Z.to_nat day) = Ok name.
Proof.
  change (range 0 7) with [0; 1; 2; 3; 4; 5; 6]%Z. simpl.
  intros [<- | [<- | [<- | [<- | [<- | [<- | [<- | []]]]]]]]; eexists; reflexivity.
Qed.

(** [_analyze_day_patterns], step by step. *)
Lemma day_patterns_steps (entries : list DreamEntry) :
  _analyze_day_patterns entries
  = match scored_days entries with
    | [] => Ok None
    | first :: rest =>
        let best := max_by_value first rest in
        let worst := min_by_value first rest in
        best_name <- getitem days_names (Z.to_nat (fst best)) ;;
        worst_name <- getitem days_names (Z.to_nat (fst worst)) ;;
        insight_name <- getitem days_names (Z.to_nat (fst best)) ;;
        Ok (Some {| best_day := best_name;
                    best_score := snd best;
                    worst_day := worst_name;
                    worst_score := snd worst;
                    day_insight :=
                      ("Dreams on " ++ insight_name ++ " tend to be most positive")%string |})
    end.
Proof.
  unfold _analyze_day_patterns.
  pose proof (day_sentiments_loop entries (fun _ => []) (range 0 7)) as Hloop.
  cbv zeta in Hloop |- *. rewrite Hloop. cbn [app].
  rewrite (day_averages_loop entries (range 0 7) []). cbn [bind app].
  rewrite valid_days_of. reflexivity.
Qed.

End WeekdayFacts.

Module WeekdayProperties.
Import Py Models Predictor Loops PyFacts WeekdayFacts.
Local Open Scope py_scope.

(** X20 ([_analyze_day_patterns]): the analysis raises nothing, and it
    returns None exactly when no entry has a sentiment. *)
Theorem day_patterns_none_iff_unscored (entries : list DreamEntry) :
  exists r,
    _analyze_day_patterns entries = Ok r
    /\ (r = None <-> Spec.present_sentiments entries = []).
Proof.
  rewrite day_patterns_steps.
  pose proof (scored_days_nil entries) as Hnil.
  destruct (scored_days entries) as [| first rest] eqn:E.
  - exists None. tauto.
  - pose proof (max_by_value_greatest first rest) as [Hbest _].
    pose proof (min_by_value_least first rest) as [Hworst _].
    rewrite <- E in Hbest, Hworst.
    apply in_scored_days in Hbest, Hworst.
    destruct (day_name _ (proj1 Hbest)) as [bn Hbn].
    destruct (day_name _ (proj1 Hworst)) as [wn Hwn].
    cbv zeta. rewrite Hbn, Hwn. cbn [bind].
    eexists. split; [reflexivity |].
    split; [discriminate |]. intros Hnone. apply Hnil in Hnone. discriminate.
Qed.

(** X21 ([_analyze_day_patterns]): a report names as best day a weekday
    whose mean sentiment is the greatest among the weekdays that have a
    sentiment, and as worst day one whose mean is the least; the two scores
    are these means, so the worst score never exceeds the best. *)
Theorem day_patterns_best_and_worst (entries : list DreamEntry) (r : DayPatterns) :
  _analyze_day_patterns entries = Ok (Some r) ->
  exists best worst,
    getitem days_names (Z.to_nat best) = Ok (best_day r)
    /\ getitem days_names (Z.to_nat worst) = Ok (worst_day r)
    /\ Spec.weekday_sentiments entries best <> []
    /\ Spec.weekday_sentiments entries worst <> []
    /\ best_score r = Spec.weekday_mean entries best
    /\ worst_score r = Spec.weekday_mean entries worst
    /\ (forall day,
          Spec.weekday_sentiments entries day <> [] ->
          (Spec.weekday_mean entries worst <= Spec.weekday_mean entries day)%Q
          /\ (Spec.weekday_mean entries day <= Spec.weekday_mean entries best)%Q)
    /\ (worst_score r <= best_score r)%Q.
Proof.
  rewrite day_patterns_steps.
  destruct (scored_days entries) as [| first rest] eqn:E; [discriminate |].
  pose proof (max_by_value_greatest first rest) as [Hbest Hmax].
  pose proof (min_by_value_least first rest) as [Hworst Hmin].
  rewrite <- E in Hbest, Hworst.
  apply in_scored_days in Hbest, Hworst.
  destruct Hbest as (Hbd & Hbne & Hbs). destruct Hworst as (Hwd & Hwne & Hws).
  destruct (day_name _ Hbd) as [bn Hbn]. destruct (day_name _ Hwd) as [wn Hwn].
  cbv zeta. rewrite Hbn, Hwn. cbn [bind]. intros [= <-]. cbn.
  exists (fst (max_by_value first rest)), (fst (min_by_value first rest)).
  assert (Hall : forall day,
             Spec.weekday_sentiments entries day <> [] ->
             In (day, Spec.weekday_mean entries day) (first :: rest)).
  { intros day Hne. rewrite <- E. apply in_scored_days. simpl.
    repeat split; [| exact Hne].
    unfold Spec.weekday_sentiments, present in Hne.
    destruct (flat_map _ _) eqn:F in Hne; [congruence |].
    assert (Hin : In q (flat_map (fun x : option Q => match x with
                                                     | Some v => [v]
                                                     | None => []
                                                     end)
                                 (map sentiment_score
                                      (filter (fun e => (weekday (dream_date e) =? day)%Z)
                                              entries)))).
    { rewrite F. now left. }
    apply in_flat_map in Hin. destruct Hin as (o & Ho & _).
    apply in_map_iff in Ho. destruct Ho as (e & _ & He).
    apply filter_In in He. destruct He as [_ He]. apply Z.eqb_eq in He.
    rewrite <- He. apply weekday_in_week. }
  repeat split; try assumption.
  - rewrite <- Hws. apply (Hmin _ (Hall day H)).
  - rewrite <- Hbs. apply (Hmax _ (Hall day H)).
  - apply (Hmin _ (proj1 (max_by_value_greatest first rest))).
Qed.

Lemma day_patterns_best_and_worst_witness :
  exists r,
    _analyze_day_patterns Inputs.rising_week = Ok (Some r)
    /\ exists best worst,
        getitem days_names (Z.to_nat best) = Ok (best_day r)
        /\ getitem days_names (Z.to_nat worst) = Ok (worst_day r)
        /\ Spec.weekday_sentiments Inputs.rising_week best <> []
        /\ Spec.weekday_sentiments Inputs.rising_week worst <> []
        /\ best_score r = Spec.weekday_mean Inputs.rising_week best
        /\ worst_score r = Spec.weekday_mean Inputs.rising_week worst
        /\ (forall day,
              Spec.weekday_sentiments Inputs.rising_week day <> [] ->
              (Spec.weekday_mean Inputs.rising_week worst
               <= Spec.weekday_mean Inputs.rising_week day)%Q
              /\ (Spec.weekday_mean Inputs.rising_week day
                  <= Spec.weekday_mean Inputs.rising_week best)%Q)
        /\ (worst_score r <= best_score r)%Q.
Proof.
  eexists. split; [vm_compute; reflexivity |].
  apply (day_patterns_best_and_worst Inputs.rising_week). vm_compute. reflexivity.
Defined.

End WeekdayProperties.

(** * The cyclical themes *)

Module CycleFacts.
Import Py Models Predictor Loops PyFacts DictFacts OrderFacts.
Local Open Scope py_scope.

Lemma record_theme_get (date : Z) (tl : dict (list Z)) (theme' theme : string) :
  dict_get (record_theme date tl theme') theme
  = if String.eqb theme theme' then Some (dates_of tl theme ++ [date])
    else dict_get tl theme.
Proof.
  unfold record_theme, dates_of.
  destruct (String.eqb theme theme') eqn:E.
  - apply String.eqb_eq in E. subst theme'.
    destruct (dict_get tl theme) as [dates |] eqn:G.
    + rewrite G. apply dict_get_set_same.
    + rewrite dict_get_set_same. apply dict_get_set_same.
  - apply String.eqb_neq in E.
    assert (N : theme' <> theme) by congruence.
    destruct (dict_get tl theme') as [dates |] eqn:G.
    + rewrite G. now apply dict_get_set_other.
    + rewrite dict_get_set_same. rewrite !dict_get_set_other by exact N. reflexivity.
Qed.

Lemma record_theme_NoDup (date : Z) (tl : dict (list Z)) (theme : string) :
  NoDup (keys tl) -> NoDup (keys (record_theme date tl theme)).
Proof.
  intros H. unfold record_theme.
  destruct (dict_get tl theme) as [dates |] eqn:G.
  - rewrite G. now apply NoDup_keys_dict_set.
  - rewrite dict_get_set_same. now apply NoDup_keys_dict_set, NoDup_keys_dict_set.
Qed.

Lemma holds_dates_of tl occ theme : holds tl occ -> dates_of tl theme = occ theme.
Proof.
  intros [_ H]. unfold dates_of. rewrite H. now destruct (occ theme).
Qed.

Lemma themes_loop (date : Z) (ts : list string) :
  forall tl occ,
    holds tl occ ->
    holds (fold_left (record_theme date) ts tl)
          (fun theme => occ theme ++ map (fun _ => date) (filter (String.eqb theme) ts)).
Proof.
  induction ts as [| t ts IH]; intros tl occ H; simpl fold_left.
  - destruct H as [Hnd Hget]. split; [exact Hnd |].
    intros theme. simpl. rewrite app_nil_r. apply Hget.
  - specialize (IH (record_theme date tl t)
                   (fun theme => occ theme ++ if String.eqb theme t then [date] else [])).
    destruct IH as [Hnd Hget].
    + split; [apply record_theme_NoDup, H |].
      intros theme. rewrite record_theme_get, (holds_dates_of tl occ theme H).
      destruct (String.eqb theme t).
      * now destruct (occ theme).
      * rewrite app_nil_r. apply H.
    + split; [exact Hnd |]. intros theme. rewrite Hget. simpl filter.
      destruct (String.eqb theme t); simpl; rewrite <- app_assoc; reflexivity.
Qed.

Lemma entries_loop (sorted_entries : list DreamEntry) :
  forall tl occ,
    holds tl occ ->
    holds (fold_left
             (fun (theme_timeline : dict (list Z)) entry =>
                match themes entry with
                | Some themes =>
                    fold_left (record_theme (ordinal (dream_date entry)))
                              themes theme_timeline
                | None => theme_timeline
                end)
             sorted_entries tl)
          (fun theme =>
             occ theme
             ++ flat_map (fun e => match themes e with
                                   | Some ts =>
                                       map (fun _ => ordinal (dream_date e))
                                           (filter (String.eqb theme) ts)
                                   | None => []
                                   end)
                         sorted_entries).
Proof.
  induction sorted_entries as [| e es IH]; intros tl occ H; simpl fold_left.
  - destruct H as [Hnd Hget]. split; [exact Hnd |].
    intros theme. simpl. rewrite app_nil_r. apply Hget.
  - destruct (themes e) as [ts |] eqn:T.
    + pose proof (IH _ _ (themes_loop (ordinal (dream_date e)) ts tl occ H)) as [Hnd Hget].
      split; [exact Hnd |]. intros theme. rewrite Hget. simpl flat_map. rewrite T.
      now rewrite <- app_assoc.
    + pose proof (IH _ _ H) as [Hnd Hget].
      split; [exact Hnd |]. intros theme. rewrite Hget. simpl flat_map. now rewrite T.
Qed.

Lemma timeline_holds (entries : list DreamEntry) :
  holds (theme_timeline_of entries) (Spec.occurrence_dates entries).
Proof.
  apply (entries_loop (sorted by_dream_date entries) [] (fun _ => [])).
  split; [constructor | reflexivity].
Qed.

Lemma timeline_items (entries : list DreamEntry) (theme : string) (dates : list Z) :
  In (theme, dates) (theme_timeline_of entries)
  <-> dates <> [] /\ Spec.occurrence_dates entries theme = dates.
Proof.
  destruct (timeline_holds entries) as [Hnd Hget]. split.
  - intros Hin. apply (in_dict_get _ _ _ Hnd) in Hin. rewrite Hget in Hin.
    destruct (Spec.occurrence_dates entries theme); [discriminate |].
    injection Hin as <-. split; [discriminate | reflexivity].
  - intros [Hne <-]. apply dict_get_in. rewrite Hget.
    destruct (Spec.occurrence_dates entries theme); [congruence | reflexivity].
Qed.

Lemma cyclical_loop (items : list (string * list Z)) (acc : list CyclicalTheme) :
  for_each
    (fun (cyclical_themes : list CyclicalTheme) (item : string * list Z) =>
       let (theme, dates) := item in
       if Nat.leb 3 (List.length dates) then
         let intervals := map inject_Z (intervals_of dates) in
         match intervals with
         | [] => Ok cyclical_themes
         | _ =>
             avg_interval <- div (sum intervals) (of_nat (List.length intervals)) ;;
             variance <-
               div (sum (map (fun i => ((i - avg_interval) * (i - avg_interval))%Q)
                             intervals))
                   (of_nat (List.length intervals)) ;;
             if ltb variance (avg_interval * 0.5)%Q then
               Ok (cyclical_themes
                     ++ [ {| theme := theme;
                             avg_interval_days := round avg_interval 1;
                             occurrences := List.length dates |} ])
             else Ok cyclical_themes
         end
       else Ok cyclical_themes)
    items acc
  = Ok (acc ++ flat_map cyclical_of items).
Proof.
  revert acc. induction items as [| [theme dates] items IH]; intros acc.
  - simpl. now rewrite app_nil_r.
  - cbn [for_each flat_map]. unfold cyclical_of at 1. cbv zeta.
    destruct (Nat.leb 3 (List.length dates)).
    + destruct (map inject_Z (intervals_of dates)) as [| i others] eqn:E.
      * cbn [bind]. rewrite IH. reflexivity.
      * rewrite div_ok by (apply of_nat_nonzero; simpl; lia). cbn [bind].
        rewrite div_ok by (apply of_nat_nonzero; simpl; lia). cbn [bind].
        match goal with |- context [if ?c then _ else _] => destruct c end;
          cbn [bind]; rewrite IH; [now rewrite <- app_assoc | reflexivity].
    + cbn [bind]. rewrite IH. reflexivity.
Qed.

Section Steps.
Variable float_text : Q -> string.

Lemma cyclical_themes_steps (entries : list DreamEntry) :
  _analyze_cyclical_themes float_text entries
  = match flat_map cyclical_of (theme_timeline_of entries) with
    | [] => Ok None
    | first :: rest =>
        Ok (Some {| cyclical_themes := first :: rest;
                    cyclical_insight :=
                      ("Theme '" ++ theme first ++ "' appears every ~"
                       ++ float_text (avg_interval_days first) ++ " days")%string |})
    end.
Proof.
  pose proof (cyclical_loop (theme_timeline_of entries) []) as Hloop.
  cbn [app] in Hloop.
  unfold _analyze_cyclical_themes. cbv zeta.
  match goal with
  | |- bind ?m _ = _ =>
      replace m with (Ok (flat_map cyclical_of (theme_timeline_of entries)))
        by (symmetry; exact Hloop)
  end.
  cbn [bind]. now destruct (flat_map cyclical_of (theme_timeline_of entries)).
Qed.

End Steps.

(** What an item contributes. *)
Lemma in_cyclical_of (item : string * list Z) (c : CyclicalTheme) :
  In c (cyclical_of item) ->
  theme c = fst item /\ occurrences c = List.length (snd item)
  /\ 3 <= List.length (snd item).
Proof.
  destruct item as [theme dates]. unfold cyclical_of. cbv zeta.
  destruct (Nat.leb 3 (List.length dates)) eqn:L; [| contradiction].
  apply Nat.leb_le in L.
  destruct (map inject_Z (intervals_of dates)); [contradiction |].
  match goal with |- context [if ?c then _ else _] => destruct c end; [| contradiction].
  intros [<- | []]. simpl. auto.
Qed.

Lemma cyclical_keys (items : list (string * list Z)) (name : string) :
  In name (map theme (flat_map cyclical_of items)) -> In name (keys items).
Proof.
  intros H. apply in_map_iff in H. destruct H as (c & <- & Hc).
  apply in_flat_map in Hc. destruct Hc as (item & Hitem & Hc).
  apply in_cyclical_of in Hc. destruct Hc as (-> & _).
  unfold keys. now apply in_map.
Qed.

Lemma cyclical_NoDup (items : list (string * list Z)) :
  NoDup (keys items) -> NoDup (map theme (flat_map cyclical_of items)).
Proof.
  induction items as [| item items IH]; [constructor |].
  cbn [keys map flat_map]. intros Hnd. inversion Hnd as [| ? ? Hk Hrest]; subst.
  rewrite map_app.
  assert (Hone : cyclical_of item = []
                 \/ exists c, cyclical_of item = [c] /\ theme c = fst item).
  { destruct item as [name dates]. unfold cyclical_of. cbv zeta.
    destruct (Nat.leb 3 (List.length dates)); [| now left].
    destruct (map inject_Z (intervals_of dates)); [now left |].
    match goal with |- context [if ?c then _ else _] => destruct c end; [| now left].
    right. eexists. split; reflexivity. }
  destruct Hone as [-> | (c & -> & Hc)]; [now apply IH |].
  simpl. constructor; [| now apply IH].
  rewrite Hc. intros Hin. apply Hk. now apply cyclical_keys.
Qed.

(** ** Evenly spaced dates *)

Lemma intervals_of_cons (a b : Z) (rest : list Z) :
  intervals_of (a :: b :: rest) = (b - a)%Z :: intervals_of (b :: rest).
Proof. reflexivity. Qed.

Lemma intervals_of_progression (start gap : Z) (n a : nat) :
  intervals_of (map (fun i => (start + gap * Z.of_nat i)%Z) (seq a n))
  = repeat gap (n - 1).
Proof.
  revert a. induction n as [| n IH]; intros a; [reflexivity |].
  destruct n as [| n]; [reflexivity |].
  change (seq a (S (S n))) with (a :: seq (S a) (S n)).
  specialize (IH (S a)).
  change (seq (S a) (S n)) with (S a :: seq (S (S a)) n) in IH |- *.
  cbn [map] in IH |- *. rewrite intervals_of_cons, IH.
  replace (S (S n) - 1) with (S (S n - 1)) by lia. cbn [repeat]. f_equal.
  rewrite Nat2Z.inj_succ. ring.
Qed.

Lemma intervals_evenly_spaced (start gap : Z) (n : nat) :
  intervals_of (Spec.evenly_spaced start gap n) = repeat gap (n - 1).
Proof. apply intervals_of_progression. Qed.

Lemma map_repeat {A B : Type} (f : A -> B) (x : A) (n : nat) :
  map f (repeat x n) = repeat (f x) n.
Proof. induction n; simpl; congruence. Qed.

Lemma length_evenly_spaced (start gap : Z) (n : nat) :
  List.length (Spec.evenly_spaced start gap n) = n.
Proof. unfold Spec.evenly_spaced. now rewrite length_map, length_seq. Qed.

Lemma round1_integer (z : Z) : (round (inject_Z z) 1 == inject_Z z)%Q.
Proof.
  unfold round. change (inject_Z (10 ^ Z.of_nat 1)) with (inject_Z 10).
  rewrite (round_half_even_comp (inject_Z z * inject_Z 10) (inject_Z (z * 10)))
    by (now rewrite inject_Z_mult).
  rewrite PersonalProperties.round_half_even_integer.
  rewrite inject_Z_mult. field.
Qed.

(** The entry of the report for dates that lie [gap] days apart. *)
Lemma cyclical_of_evenly_spaced (name : string) (start gap : Z) (n : nat) :
  3 <= n ->
  cyclical_of (name, Spec.evenly_spaced start gap n)
  = if ltb 0 (inject_Z gap * 0.5)%Q
    then [ {| theme := name;
              avg_interval_days := round (inject_Z gap) 1;
              occurrences := n |} ]
    else [].
Proof.
  intros Hn. unfold cyclical_of. cbv zeta.
  rewrite length_evenly_spaced.
  assert (L : Nat.leb 3 n = true) by now apply Nat.leb_le.
  rewrite L, intervals_evenly_spaced, map_repeat.
  destruct (n - 1) as [| m] eqn:M; [lia |].
  remember (S m) as k.
  assert (Hk : ~ (of_nat k == 0)%Q) by (apply of_nat_nonzero; lia).
  assert (Havg : (sum (repeat (inject_Z gap) k) / of_nat (List.length (repeat (inject_Z gap) k))
                  == inject_Z gap)%Q).
  { rewrite repeat_length, InsightFacts.sum_repeat. now field. }
  assert (Hvar : (sum (map (fun i => ((i - sum (repeat (inject_Z gap) k)
                                           / of_nat (List.length (repeat (inject_Z gap) k)))
                                      * (i - sum (repeat (inject_Z gap) k)
                                             / of_nat (List.length (repeat (inject_Z gap) k))))%Q)
                           (repeat (inject_Z gap) k))
                   / of_nat (List.length (repeat (inject_Z gap) k)) == 0)%Q).
  { rewrite map_repeat, InsightFacts.sum_repeat, Havg, repeat_length. now field. }
  destruct (repeat (inject_Z gap) k) as [| i others] eqn:R; [subst k; discriminate |].
  rewrite <- R in *.
  rewrite (PersonalFacts.ltb_comp _ _ _ Hvar).
  assert (Hlt : ltb 0 (sum (repeat (inject_Z gap) k)
                       / of_nat (List.length (repeat (inject_Z gap) k)) * 0.5)%Q
                = ltb 0 (inject_Z gap * 0.5)%Q).
  { destruct (ltb 0 (inject_Z gap * 0.5)%Q) eqn:E.
    - apply ltb_lt. apply ltb_lt in E. now rewrite Havg.
    - apply ltb_ge. apply ltb_ge in E. now rewrite Havg. }
  rewrite Hlt. rewrite (round_comp _ _ 1 Havg). reflexivity.
Qed.

End CycleFacts.

Module CycleProperties.
Import Py Models Predictor Loops PyFacts CycleFacts.
Local Open Scope py_scope.

Section Cycles.
Variable float_text : Q -> string.

(** X22 ([_analyze_cyclical_themes]): the analysis raises nothing, whatever
    the entries: the two divisions are reached only with at least one
    interval.  A report is never empty, lists no theme twice, and gives for
    each listed theme the number of times it is stored in the entries, which
    is at least 3. *)
Theorem cyclical_report_shape (entries : list DreamEntry) :
  exists r,
    _analyze_cyclical_themes float_text entries = Ok r
    /\ match r with
       | None => True
       | Some report =>
           cyclical_themes report <> []
           /\ NoDup (map theme (cyclical_themes report))
           /\ Forall (fun c =>
                        3 <= occurrences c
                        /\ occurrences c
                           = List.length (Spec.occurrence_dates entries (theme c)))
                     (cyclical_themes report)
       end.
Proof.
  rewrite cyclical_themes_steps.
  pose proof (cyclical_NoDup _ (proj1 (timeline_holds entries))) as Hnd.
  assert (Hall : Forall (fun c =>
                           3 <= occurrences c
                           /\ occurrences c
                              = List.length (Spec.occurrence_dates entries (theme c)))
                        (flat_map cyclical_of (theme_timeline_of entries))).
  { apply Forall_forall. intros c Hc. apply in_flat_map in Hc.
    destruct Hc as ([name dates] & Hitem & Hc).
    apply in_cyclical_of in Hc. cbn [fst snd] in Hc. destruct Hc as (Ht & Ho & Hlen).
    apply timeline_items in Hitem. destruct Hitem as [_ Hdates].
    rewrite Ht, Hdates, Ho. split; [exact Hlen | reflexivity]. }
  destruct (flat_map cyclical_of (theme_timeline_of entries)) as [| first rest].
  - exists None. split; [reflexivity | exact I].
  - eexists. split; [reflexivity |]. cbn [cyclical_themes].
    split; [discriminate |]. split; assumption.
Qed.

(** X23 ([_analyze_cyclical_themes]): a theme stored on at least 3 days
    that lie a fixed positive number of days apart is reported as cyclical,
    with that number as its interval and with the number of its
    occurrences. *)
Theorem evenly_spaced_theme_is_cyclical
        (entries : list DreamEntry) (name : string) (start gap : Z) (n : nat) :
  3 <= n -> (0 < gap)%Z ->
  Spec.occurrence_dates entries name = Spec.evenly_spaced start gap n ->
  exists report c,
    _analyze_cyclical_themes float_text entries = Ok (Some report)
    /\ In c (cyclical_themes report)
    /\ theme c = name
    /\ (avg_interval_days c == inject_Z gap)%Q
    /\ occurrences c = n.
Proof.
  intros Hn Hgap Hocc. rewrite cyclical_themes_steps.
  assert (Hitem : In (name, Spec.evenly_spaced start gap n) (theme_timeline_of entries)).
  { apply timeline_items. split; [| exact Hocc].
    intros E. apply (f_equal (@List.length Z)) in E.
    rewrite length_evenly_spaced in E. simpl in E. lia. }
  assert (Hlt : ltb 0 (inject_Z gap * 0.5)%Q = true).
  { apply ltb_lt. apply Qmult_lt_0_compat; [| reflexivity].
    change 0%Q with (inject_Z 0). now rewrite <- Zlt_Qlt. }
  assert (Hin : In {| theme := name;
                      avg_interval_days := round (inject_Z gap) 1;
                      occurrences := n |}
                   (flat_map cyclical_of (theme_timeline_of entries))).
  { apply in_flat_map. eexists. split; [exact Hitem |].
    rewrite (cyclical_of_evenly_spaced name start gap n Hn), Hlt. now left. }
  destruct (flat_map cyclical_of (theme_timeline_of entries)) as [| first rest];
    [contradiction |].
  eexists. eexists. split; [reflexivity |]. cbn [cyclical_themes].
  split; [exact Hin |]. cbn [theme avg_interval_days occurrences].
  split; [reflexivity |]. split; [apply round1_integer | reflexivity].
Qed.

(** X24 ([_analyze_cyclical_themes]): a theme whose occurrences all fall on
    one calendar day is never reported as cyclical, however often it
    occurs. *)
Theorem same_day_theme_is_not_cyclical
        (entries : list DreamEntry) (name : string) (day : Z) (n : nat)
        (report : CyclicalThemes) :
  Spec.occurrence_dates entries name = repeat day n ->
  _analyze_cyclical_themes float_text entries = Ok (Some report) ->
  ~ In name (map theme (cyclical_themes report)).
Proof.
  intros Hocc. rewrite cyclical_themes_steps.
  assert (Hnone : ~ In name (map theme (flat_map cyclical_of (theme_timeline_of entries)))).
  { intros Hin. apply in_map_iff in Hin. destruct Hin as (c & Hc & Hin).
    apply in_flat_map in Hin. destruct Hin as ([name' dates] & Hitem & Hin).
    pose proof (in_cyclical_of _ _ Hin) as (Ht & _ & Hlen). cbn [fst snd] in Ht, Hlen.
    assert (E0 : name' = name) by congruence. rewrite E0 in Hitem, Hin. clear E0 Ht.
    apply timeline_items in Hitem. destruct Hitem as [_ Hdates].
    rewrite Hocc in Hdates. subst dates. rewrite repeat_length in Hlen.
    assert (E : repeat day n = Spec.evenly_spaced day 0 n).
    { unfold Spec.evenly_spaced. clear. generalize 0%nat.
      induction n as [| n IH]; intros a; [reflexivity |].
      cbn [repeat seq map]. f_equal; [lia | apply IH]. }
    rewrite E, (cyclical_of_evenly_spaced name day 0 n Hlen) in Hin.
    exact Hin. }
  destruct (flat_map cyclical_of (theme_timeline_of entries)) as [| first rest];
    [discriminate |].
  intros [= <-]. exact Hnone.
Qed.

End Cycles.

Lemma evenly_spaced_theme_is_cyclical_witness :
  exists report c,
    _analyze_cyclical_themes Inputs.whole_float_text Inputs.weekly_water = Ok (Some report)
    /\ In c (cyclical_themes report)
    /\ theme c = "water"
    /\ (avg_interval_days c == inject_Z 7)%Q
    /\ occurrences c = 3.
Proof.
  apply (evenly_spaced_theme_is_cyclical
           Inputs.whole_float_text Inputs.weekly_water "water" 739000 7 3).
  - lia.
  - lia.
  - reflexivity.
Defined.

Lemma same_day_theme_is_not_cyclical_witness :
  exists report,
    _analyze_cyclical_themes Inputs.whole_float_text Inputs.weekly_water = Ok (Some report)
    /\ ~ In "home" (map theme (cyclical_themes report)).
Proof.
  eexists. split; [vm_compute; reflexivity |].
  apply (same_day_theme_is_not_cyclical
           Inputs.whole_float_text Inputs.weekly_water "home" 739007 3).
  - reflexivity.
  - vm_compute. reflexivity.
Defined.

End CycleProperties.

(** * Dictionaries with other keys *)

Module AssocFacts.
Import Py.

Section Assoc.
Context {K : Type} (eqb : K -> K -> bool).
Hypothesis eqb_eq : forall a b, eqb a b = true <-> a = b.

Lemma eqb_same (a : K) : eqb a a = true.
Proof. now apply eqb_eq. Qed.

Lemma eqb_other (a b : K) : a <> b -> eqb a b = false.
Proof.
  intros N. destruct (eqb a b) eqn:E; [| reflexivity].
  apply eqb_eq in E. contradiction.
Qed.

Lemma key_dec (a b : K) : {a = b} + {a <> b}.
Proof.
  destruct (eqb a b) eqn:E.
  - left. now apply eqb_eq.
  - right. intros H. apply eqb_eq in H. congruence.
Qed.

Lemma assoc_get_none {V : Type} (d : list (K * V)) (k : K) :
  assoc_get eqb d k = None <-> ~ In k (map fst d).
Proof.
  induction d as [| [k' v'] d IH]; simpl; [tauto |].
  destruct (eqb k k') eqn:E.
  - apply eqb_eq in E. split; [discriminate | intros H; exfalso; apply H; now left].
  - rewrite IH. split.
    + intros H [F | F]; [| contradiction].
      subst k'. rewrite eqb_same in E. discriminate.
    + intros H F. apply H. now right.
Qed.

Lemma assoc_get_set_same {V : Type} (d : list (K * V)) (k : K) (v : V) :
  assoc_get eqb (assoc_set eqb d k v) k = Some v.
Proof.
  induction d as [| [k' v'] d IH]; simpl.
  - now rewrite eqb_same.
  - destruct (eqb k k') eqn:E; simpl; rewrite E; [reflexivity | exact IH].
Qed.

Lemma assoc_get_set_other {V : Type} (d : list (K * V)) (k k' : K) (v : V) :
  k <> k' -> assoc_get eqb (assoc_set eqb d k v) k' = assoc_get eqb d k'.
Proof.
  intros N. assert (N' : k' <> k) by congruence.
  induction d as [| [k0 v0] d IH]; simpl.
  - now rewrite (eqb_other k' k N').
  - destruct (eqb k k0) eqn:E; simpl.
    + apply eqb_eq in E. subst k0. now rewrite (eqb_other k' k N').
    + now rewrite IH.
Qed.

Lemma assoc_set_fresh {V : Type} (d : list (K * V)) (k : K) (v : V) :
  ~ In k (map fst d) -> assoc_set eqb d k v = d ++ [(k, v)].
Proof.
  induction d as [| [k' v'] d IH]; simpl; intros H; [reflexivity |].
  destruct (eqb k k') eqn:E.
  - apply eqb_eq in E. exfalso. apply H. left. congruence.
  - rewrite IH; [reflexivity |]. intros F. apply H. now right.
Qed.

Lemma assoc_keys_set_present {V : Type} (d : list (K * V)) (k : K) (v : V) :
  In k (map fst d) -> map fst (assoc_set eqb d k v) = map fst d.
Proof.
  induction d as [| [k' v'] d IH]; simpl; intros H; [contradiction |].
  destruct (eqb k k') eqn:E; simpl; [reflexivity |].
  f_equal. apply IH. destruct H as [H | H]; [| exact H].
  subst k'. rewrite eqb_same in E. discriminate.
Qed.

Lemma in_assoc_keys_set {V : Type} (d : list (K * V)) (k k' : K) (v : V) :
  In k (map fst (assoc_set eqb d k' v)) <-> k = k' \/ In k (map fst d).
Proof.
  destruct (in_dec key_dec k' (map fst d)) as [I | I].
  - rewrite assoc_keys_set_present by exact I. split; [tauto |].
    intros [-> | H]; assumption.
  - rewrite assoc_set_fresh by exact I. rewrite map_app, in_app_iff. simpl. intuition.
Qed.

Lemma NoDup_assoc_keys_set {V : Type} (d : list (K * V)) (k : K) (v : V) :
  NoDup (map fst d) -> NoDup (map fst (assoc_set eqb d k v)).
Proof.
  intros H. destruct (in_dec key_dec k (map fst d)) as [I | I].
  - now rewrite assoc_keys_set_present.
  - rewrite assoc_set_fresh by exact I. rewrite map_app. simpl.
    apply NoDup_rev in H. rewrite <- (rev_involutive (map fst d ++ [k])).
    apply NoDup_rev. rewrite rev_app_distr. simpl. constructor; [| exact H].
    now rewrite <- in_rev.
Qed.

Lemma in_assoc_get {V : Type} (d : list (K * V)) (k : K) (v : V) :
  NoDup (map fst d) -> In (k, v) d -> assoc_get eqb d k = Some v.
Proof.
  induction d as [| [k' v'] d IH]; intros Hnd Hin; [contradiction |].
  simpl in Hnd. inversion Hnd as [| ? ? Hk Hd]; subst.
  simpl. destruct Hin as [E | Hin].
  - injection E as -> ->. now rewrite eqb_same.
  - destruct (eqb k k') eqn:E.
    + apply eqb_eq in E. subst k'. exfalso. apply Hk.
      apply in_map_iff. exists (k, v). now split.
    + now apply IH.
Qed.

Lemma assoc_get_in {V : Type} (d : list (K * V)) (k : K) (v : V) :
  assoc_get eqb d k = Some v -> In (k, v) d.
Proof.
  induction d as [| [k' v'] d IH]; [discriminate |].
  simpl. destruct (eqb k k') eqn:E.
  - apply eqb_eq in E. subst k'. intros [= ->]. now left.
  - intros H. right. now apply IH.
Qed.

(** ** The counter *)

Lemma assoc_counter_loop (xs : list K) (c : list (K * nat)) (x : K) :
  NoDup (map fst c) ->
  let c' := fold_left
              (fun c x =>
                 assoc_set eqb c x
                           (match assoc_get eqb c x with Some n => n | None => 0 end + 1))
              xs c in
  NoDup (map fst c') /\
  (In x (map fst c') <-> In x (map fst c) \/ In x xs) /\
  match assoc_get eqb c' x with Some n => n | None => 0 end
  = match assoc_get eqb c x with Some n => n | None => 0 end
    + List.length (filter (eqb x) xs).
Proof.
  revert c. induction xs as [| y xs IH]; intros c Hnd.
  - cbn. split; [exact Hnd |]. split; [tauto | lia].
  - cbn [fold_left].
    set (c1 := assoc_set eqb c y
                         (match assoc_get eqb c y with Some n => n | None => 0 end + 1)).
    destruct (IH c1 (NoDup_assoc_keys_set c y _ Hnd)) as [H1 [H2 H3]].
    split; [exact H1 |]. split.
    + cbn zeta in H2. rewrite H2. unfold c1. rewrite in_assoc_keys_set. cbn [In].
      intuition.
    + cbn zeta in H3. rewrite H3. unfold c1. cbn [filter].
      destruct (key_dec y x) as [-> | N].
      * rewrite assoc_get_set_same, eqb_same. cbn [List.length]. lia.
      * rewrite assoc_get_set_other by exact N.
        rewrite (eqb_other x y) by congruence. lia.
Qed.

(** [Counter(xs)] holds each element of [xs] once, with the number of its
    occurrences. *)
Lemma assoc_counter_items (xs : list K) :
  NoDup (map fst (assoc_counter eqb xs)) /\
  forall x n, In (x, n) (assoc_counter eqb xs)
              <-> In x xs /\ n = List.length (filter (eqb x) xs).
Proof.
  unfold assoc_counter.
  assert (Hnil : NoDup (map fst (@nil (K * nat)))) by constructor.
  split.
  - destruct xs as [| x0 xs]; [constructor |].
    apply (assoc_counter_loop (x0 :: xs) [] x0 Hnil).
  - intros x n. destruct (assoc_counter_loop xs [] x Hnil) as [Hnd [Hin Hcount]].
    cbn zeta in Hin, Hcount. cbn [assoc_get map In] in Hin, Hcount.
    set (c := fold_left
                (fun c x =>
                   assoc_set eqb c x
                             (match assoc_get eqb c x with Some n => n | None => 0 end + 1))
                xs []) in *.
    split.
    + intros H. split.
      * assert (Hk : In x (map fst c)).
        { replace x with (fst (x, n)) by reflexivity. now apply in_map. }
        apply Hin in Hk. destruct Hk as [[] | Hk]. exact Hk.
      * rewrite (in_assoc_get _ x n Hnd H) in Hcount. exact Hcount.
    + intros [Hx ->]. apply assoc_get_in.
      assert (Hk : In x (map fst c)) by (apply Hin; tauto).
      destruct (assoc_get eqb c x) as [m |] eqn:Hm.
      * now rewrite Hcount.
      * apply assoc_get_none in Hm. contradiction.
Qed.

End Assoc.

Lemma pair_eqb_eq (a b : string * string) : pair_eqb a b = true <-> a = b.
Proof.
  unfold pair_eqb. rewrite andb_true_iff, !String.eqb_eq.
  destruct a, b; simpl. split; [intros [-> ->]; reflexivity | intros [= -> ->]; auto].
Qed.

End AssocFacts.

(** * The sleep-quality analysis *)

Module SleepFacts.
Import Py Models Predictor Loops PyFacts AssocFacts.
Local Open Scope py_scope.

(** ** Dictionaries with integer keys *)

Lemma int_dict_get_none {V : Type} (d : int_dict V) (k : Z) :
  int_dict_get d k = None <-> ~ In k (map fst d).
Proof. apply (assoc_get_none Z.eqb Z.eqb_eq). Qed.

Lemma int_dict_get_set_same {V : Type} (d : int_dict V) (k : Z) (v : V) :
  int_dict_get (int_dict_set d k v) k = Some v.
Proof. apply (assoc_get_set_same Z.eqb Z.eqb_eq). Qed.

Lemma int_dict_get_set_other {V : Type} (d : int_dict V) (k k' : Z) (v : V) :
  k <> k' -> int_dict_get (int_dict_set d k v) k' = int_dict_get d k'.
Proof. apply (assoc_get_set_other Z.eqb Z.eqb_eq). Qed.

Lemma int_dict_set_fresh {V : Type} (d : int_dict V) (k : Z) (v : V) :
  ~ In k (map fst d) -> int_dict_set d k v = d ++ [(k, v)].
Proof. apply (assoc_set_fresh Z.eqb Z.eqb_eq). Qed.

Lemma NoDup_int_keys_set {V : Type} (d : int_dict V) (k : Z) (v : V) :
  NoDup (map fst d) -> NoDup (map fst (int_dict_set d k v)).
Proof. apply (NoDup_assoc_keys_set Z.eqb Z.eqb_eq). Qed.

Lemma in_int_dict_get {V : Type} (d : int_dict V) (k : Z) (v : V) :
  NoDup (map fst d) -> In (k, v) d -> int_dict_get d k = Some v.
Proof. apply (in_assoc_get Z.eqb Z.eqb_eq). Qed.

(** A comprehension over the items of a dictionary keeps keys and order. *)
Lemma averages_loop (d : int_dict (list Q)) :
  NoDup (map fst d) ->
  Forall (fun item => snd item <> []) d ->
  for_each
    (fun (quality_averages : int_dict Q) (item : Z * list Q) =>
       let (q, scores) := item in
       average <- div (sum scores) (of_nat (List.length scores)) ;;
       Ok (int_dict_set quality_averages q average))
    d []
  = Ok (map (fun item => (fst item, (sum (snd item) / of_nat (List.length (snd item)))%Q)) d).
Proof.
  intros Hnd Hne.
  enough (G : forall acc,
             (forall k, In k (map fst acc) -> ~ In k (map fst d)) ->
             for_each
               (fun (quality_averages : int_dict Q) (item : Z * list Q) =>
                  let (q, scores) := item in
                  average <- div (sum scores) (of_nat (List.length scores)) ;;
                  Ok (int_dict_set quality_averages q average))
               d acc
             = Ok (acc ++ map (fun item =>
                                 (fst item,
                                  (sum (snd item) / of_nat (List.length (snd item)))%Q)) d)).
  { apply (G []). intros k []. }
  induction d as [| [q scores] d IH]; intros acc Hacc.
  - simpl. now rewrite app_nil_r.
  - simpl in Hnd. inversion Hnd as [| ? ? Hq Hd]; subst.
    inversion Hne as [| ? ? Hs Hrest]; subst. cbn [snd] in Hs.
    cbn [for_each map fst snd].
    rewrite div_ok.
    2:{ apply of_nat_nonzero. destruct scores; [congruence | simpl; lia]. }
    cbn [bind].
    rewrite int_dict_set_fresh.
    2:{ intros F. apply (Hacc q F). now left. }
    rewrite IH; [now rewrite <- app_assoc | exact Hd | exact Hrest |].
    intros k Hk F. rewrite map_app, in_app_iff in Hk. simpl in Hk.
    destruct Hk as [Hk | [<- | []]]; [| contradiction].
    apply (Hacc k Hk). now right.
Qed.

Lemma lookups_of_own_keys {V : Type} (d : int_dict V) :
  NoDup (map fst d) ->
  flat_map (fun q => match int_dict_get d q with
                     | Some v => [v]
                     | None => []
                     end) (map fst d)
  = map snd d.
Proof.
  intros Hnd.
  enough (G : forall items,
             (forall item, In item items -> In item d) ->
             flat_map (fun q => match int_dict_get d q with
                                | Some v => [v]
                                | None => []
                                end) (map fst items)
             = map snd items).
  { apply G. auto. }
  induction items as [| [k v] items IH]; intros Hsub; [reflexivity |].
  simpl. rewrite (in_int_dict_get d k v Hnd) by (apply Hsub; now left).
  simpl. f_equal. apply IH. intros item Hin. apply Hsub. now right.
Qed.

(** ** The first loop *)

Lemma record_quality_get (d : int_dict (list Q)) (quality' quality : Z) (score : Q) :
  int_dict_get (record_quality d quality' score) quality
  = if (quality =? quality')%Z
    then Some (match int_dict_get d quality with
               | Some scores => scores
               | None => []
               end ++ [score])
    else int_dict_get d quality.
Proof.
  unfold record_quality.
  destruct (quality =? quality')%Z eqn:E.
  - apply Z.eqb_eq in E. subst quality'.
    destruct (int_dict_get d quality) as [scores |] eqn:G.
    + rewrite G. apply int_dict_get_set_same.
    + rewrite int_dict_get_set_same. apply int_dict_get_set_same.
  - apply Z.eqb_neq in E.
    assert (N : quality' <> quality) by congruence.
    destruct (int_dict_get d quality') as [scores |] eqn:G.
    + rewrite G. now apply int_dict_get_set_other.
    + rewrite int_dict_get_set_same. rewrite !int_dict_get_set_other by exact N.
      reflexivity.
Qed.

Lemma record_quality_NoDup (d : int_dict (list Q)) (quality : Z) (score : Q) :
  NoDup (map fst d) -> NoDup (map fst (record_quality d quality score)).
Proof.
  intros H. unfold record_quality.
  destruct (int_dict_get d quality) as [scores |] eqn:G.
  - rewrite G. now apply NoDup_int_keys_set.
  - rewrite int_dict_get_set_same. now apply NoDup_int_keys_set, NoDup_int_keys_set.
Qed.

Lemma quality_loop (entries : list DreamEntry) :
  forall d occ,
    holds_scores d occ ->
    holds_scores
      (fold_left
         (fun (quality_sentiments : int_dict (list Q)) entry =>
            match sleep_quality entry, sentiment_score entry with
            | Some quality, Some score =>
                if (quality =? 0)%Z then quality_sentiments
                else record_quality quality_sentiments quality score
            | _, _ => quality_sentiments
            end)
         entries d)
      (fun quality => occ quality ++ Spec.quality_sentiments entries quality).
Proof.
  induction entries as [| e entries IH]; intros d occ H; simpl fold_left.
  - destruct H as [Hnd Hget]. split; [exact Hnd |].
    intros quality. unfold Spec.quality_sentiments. simpl. rewrite app_nil_r. apply Hget.
  - assert (Hskip :
              (forall quality,
                  Spec.quality_sentiments (e :: entries) quality
                  = Spec.quality_sentiments entries quality) ->
              holds_scores
                (fold_left
                   (fun (quality_sentiments : int_dict (list Q)) entry =>
                      match sleep_quality entry, sentiment_score entry with
                      | Some quality, Some score =>
                          if (quality =? 0)%Z then quality_sentiments
                          else record_quality quality_sentiments quality score
                      | _, _ => quality_sentiments
                      end)
                   entries d)
                (fun quality => occ quality ++ Spec.quality_sentiments (e :: entries) quality)).
    { intros Hsame. destruct (IH d occ H) as [Hnd Hget]. split; [exact Hnd |].
      intros quality. rewrite Hsame. apply Hget. }
    destruct (sleep_quality e) as [q |] eqn:Hq.
    2:{ apply Hskip. intros quality. unfold Spec.quality_sentiments. simpl.
        now rewrite Hq. }
    destruct (sentiment_score e) as [score |] eqn:Hs.
    2:{ apply Hskip. intros quality. unfold Spec.quality_sentiments. simpl.
        now rewrite Hq, Hs. }
    destruct (q =? 0)%Z eqn:Hz.
    { apply Hskip. intros quality. unfold Spec.quality_sentiments. simpl.
      now rewrite Hq, Hs, Hz. }
    specialize (IH (record_quality d q score)
                   (fun quality => occ quality ++ if (quality =? q)%Z then [score] else [])).
    destruct IH as [Hnd Hget].
    + split; [apply record_quality_NoDup, H |].
      intros quality. rewrite record_quality_get.
      destruct H as [_ Hd]. rewrite Hd.
      destruct (quality =? q)%Z.
      * now destruct (occ quality).
      * now rewrite app_nil_r.
    + split; [exact Hnd |]. intros quality. rewrite Hget.
      unfold Spec.quality_sentiments. simpl flat_map. rewrite Hq, Hs, Hz.
      destruct (quality =? q)%Z; simpl; rewrite <- app_assoc; reflexivity.
Qed.

Lemma quality_sentiments_hold (entries : list DreamEntry) :
  holds_scores (quality_sentiments_of entries) (Spec.quality_sentiments entries).
Proof.
  apply (quality_loop entries [] (fun _ => [])).
  split; [constructor | reflexivity].
Qed.

Lemma in_quality_sentiments (entries : list DreamEntry) (quality : Z) :
  Spec.quality_sentiments entries quality <> []
  <-> In quality (Spec.recorded_qualities entries).
Proof.
  unfold Spec.quality_sentiments, Spec.recorded_qualities.
  induction entries as [| e entries IH]; simpl; [tauto |].
  rewrite in_app_iff, <- IH.
  destruct (sleep_quality e) as [q |]; [| simpl; tauto].
  destruct (sentiment_score e) as [score |]; [| simpl; tauto].
  destruct (q =? 0)%Z; [simpl; tauto |].
  destruct (quality =? q)%Z eqn:E.
  - apply Z.eqb_eq in E. subst q. simpl. split; [intros _ | discriminate]. left. now left.
  - apply Z.eqb_neq in E. simpl. split; [now right |].
    intros [[F | []] | H]; [congruence | exact H].
Qed.

(** The items of the dictionary: each counted rating once, with its
    sentiments. *)
Lemma quality_items (entries : list DreamEntry) :
  NoDup (map fst (quality_sentiments_of entries))
  /\ (forall quality,
         In quality (map fst (quality_sentiments_of entries))
         <-> In quality (Spec.recorded_qualities entries))
  /\ Forall (fun item => snd item <> []
                         /\ snd item = Spec.quality_sentiments entries (fst item))
            (quality_sentiments_of entries).
Proof.
  destruct (quality_sentiments_hold entries) as [Hnd Hget].
  split; [exact Hnd |]. split.
  - intros quality. rewrite <- in_quality_sentiments.
    destruct (in_dec Z.eq_dec quality (map fst (quality_sentiments_of entries))) as [I | I].
    + split; [| tauto]. intros _ E.
      apply (proj1 (int_dict_get_none (quality_sentiments_of entries) quality));
        [| exact I].
      now rewrite Hget, E.
    + split; [tauto |]. intros Hne. exfalso.
      apply int_dict_get_none in I. rewrite Hget in I.
      destruct (Spec.quality_sentiments entries quality); [congruence | discriminate].
  - apply Forall_forall. intros [q scores] Hin. cbn [fst snd].
    apply (in_int_dict_get _ _ _ Hnd) in Hin. rewrite Hget in Hin.
    destruct (Spec.quality_sentiments entries q); [discriminate |].
    injection Hin as <-. split; [discriminate | reflexivity].
Qed.

Lemma length_recorded (entries : list DreamEntry) :
  List.length (quality_sentiments_of entries)
  = List.length (nodup Z.eq_dec (Spec.recorded_qualities entries)).
Proof.
  destruct (quality_items entries) as (Hnd & Hin & _).
  rewrite <- (length_map fst (quality_sentiments_of entries)).
  apply Permutation_length, NoDup_Permutation;
    [exact Hnd | apply NoDup_nodup |].
  intros q. rewrite Hin. symmetry. apply nodup_In.
Qed.

Section Steps.
Variable corrcoef : list Z -> list Q -> float.

(** [_analyze_sleep_quality], step by step. *)
Lemma sleep_quality_steps (entries : list DreamEntry) :
  _analyze_sleep_quality corrcoef entries
  = if Nat.ltb (List.length (quality_sentiments_of entries)) 3 then Ok None
    else
      let qualities := map fst (quality_sentiments_of entries) in
      let correlation :=
        corrcoef qualities (map (Spec.quality_mean entries) qualities) in
      Ok (Some {| correlation := correlation;
                  sleep_insight :=
                    if float_gtb correlation 0.3
                    then "Better sleep quality correlates with more positive dreams"
                    else if float_abs_ltb correlation 0.3
                    then "No clear correlation between sleep quality and dream sentiment"
                    else "Paradoxically, lower sleep quality shows more positive dreams" |}).
Proof.
  destruct (quality_items entries) as (Hnd & _ & Hall).
  assert (Hne : Forall (fun item : Z * list Q => snd item <> [])
                       (quality_sentiments_of entries)).
  { eapply Forall_impl; [| exact Hall]. simpl. tauto. }
  pose proof (averages_loop (quality_sentiments_of entries) Hnd Hne) as Hloop.
  unfold _analyze_sleep_quality. cbv zeta.
  change (fold_left _ entries []) with (quality_sentiments_of entries).
  destruct (Nat.ltb (List.length (quality_sentiments_of entries)) 3) eqn:E3;
    [reflexivity |].
  apply Nat.ltb_ge in E3.
  match goal with
  | |- bind ?m _ = _ =>
      replace m with
        (Ok (map (fun item : Z * list Q =>
                    (fst item, (sum (snd item) / of_nat (List.length (snd item)))%Q))
                 (quality_sentiments_of entries)))
        by (symmetry; exact Hloop)
  end.
  cbn [bind].
  assert (Hkeys : map fst (map (fun item : Z * list Q =>
                                  (fst item,
                                   (sum (snd item) / of_nat (List.length (snd item)))%Q))
                               (quality_sentiments_of entries))
                  = map fst (quality_sentiments_of entries)).
  { rewrite map_map. reflexivity. }
  rewrite lookups_of_own_keys by (rewrite Hkeys; exact Hnd).
  rewrite Hkeys. rewrite map_map. cbn [snd].
  assert (Hmeans : map (fun item : Z * list Q =>
                          (sum (snd item) / of_nat (List.length (snd item)))%Q)
                       (quality_sentiments_of entries)
                   = map (Spec.quality_mean entries)
                         (map fst (quality_sentiments_of entries))).
  { rewrite map_map. apply map_ext_in. intros item Hin.
    rewrite Forall_forall in Hall. destruct (Hall item Hin) as [_ Hs].
    unfold Spec.quality_mean. now rewrite <- Hs. }
  rewrite Hmeans.
  assert (L : Nat.ltb 1 (List.length (map fst (quality_sentiments_of entries))) = true).
  { apply Nat.ltb_lt. rewrite length_map. lia. }
  rewrite L. reflexivity.
Qed.

End Steps.

End SleepFacts.

Module SleepProperties.
Import Py Models Predictor Loops PyFacts SleepFacts.
Local Open Scope py_scope.

Section Sleep.
Variable corrcoef : list Z -> list Q -> float.

(** X28 ([_analyze_sleep_quality]): the analysis raises nothing, and it
    returns None exactly when the entries that have a sentiment and a
    sleep-quality rating other than 0 show fewer than 3 different
    ratings. *)
Theorem sleep_quality_none_iff_few_ratings (entries : list DreamEntry) :
  exists r,
    _analyze_sleep_quality corrcoef entries = Ok r
    /\ (r = None
        <-> List.length (nodup Z.eq_dec (Spec.recorded_qualities entries)) < 3).
Proof.
  rewrite sleep_quality_steps, <- length_recorded.
  destruct (Nat.ltb (List.length (quality_sentiments_of entries)) 3) eqn:E.
  - apply Nat.ltb_lt in E. exists None. tauto.
  - apply Nat.ltb_ge in E. eexists. split; [reflexivity |].
    split; [discriminate | lia].
Qed.

(** X29 ([_analyze_sleep_quality]): a report holds the correlation between
    the different ratings, each taken once, and the mean sentiment of the
    entries of each rating.  The insight speaks of better sleep exactly for
    a correlation above 0.3 and of no clear correlation exactly for one
    strictly between -0.3 and 0.3; the paradox text is given in every other
    case: at -0.3 or below, at exactly 0.3, and for nan. *)
Theorem sleep_quality_report (entries : list DreamEntry) (report : SleepQualityImpact) :
  _analyze_sleep_quality corrcoef entries = Ok (Some report) ->
  (exists qualities,
      NoDup qualities
      /\ (forall quality,
             In quality qualities <-> In quality (Spec.recorded_qualities entries))
      /\ correlation report
         = corrcoef qualities (map (Spec.quality_mean entries) qualities))
  /\ (sleep_insight report = "Better sleep quality correlates with more positive dreams"
      <-> exists c, correlation report = Num c /\ (0.3 < c)%Q)
  /\ (sleep_insight report
      = "No clear correlation between sleep quality and dream sentiment"
      <-> exists c, correlation report = Num c /\ (-0.3 < c)%Q /\ (c < 0.3)%Q)
  /\ (sleep_insight report
      = "Paradoxically, lower sleep quality shows more positive dreams"
      <-> correlation report = NaN
          \/ exists c, correlation report = Num c /\ ((c <= -0.3)%Q \/ (c == 0.3)%Q)).
Proof.
  rewrite sleep_quality_steps.
  destruct (Nat.ltb (List.length (quality_sentiments_of entries)) 3); [discriminate |].
  cbv zeta. intros [= <-]. cbn [correlation sleep_insight].
  destruct (quality_items entries) as (Hnd & Hin & _).
  split; [exists (map fst (quality_sentiments_of entries)); auto |].
  destruct (corrcoef _ _) as [c |]; cbn [float_gtb float_abs_ltb].
  - destruct (gtb c 0.3) eqn:G.
    + apply gtb_gt in G. split; [| split].
      * split; [eauto | reflexivity].
      * split; [discriminate |]. intros (c' & [= <-] & _ & H). lra.
      * split; [discriminate |].
        intros [F | (c' & [= <-] & [H | H])]; [discriminate | lra | lra].
    + apply gtb_le in G. destruct (ltb (Qabs c) 0.3) eqn:A.
      * apply ltb_lt in A. apply Qabs_Qlt_condition in A. split; [| split].
        -- split; [discriminate |]. intros (c' & [= <-] & H). lra.
        -- split; [| reflexivity]. intros _. exists c. split; [reflexivity |].
           change (- 0.3)%Q with (-0.3)%Q in A. lra.
        -- split; [discriminate |].
           intros [F | (c' & [= <-] & [H | H])]; [discriminate | |];
             change (- 0.3)%Q with (-0.3)%Q in A; lra.
      * apply ltb_ge in A. split; [| split].
        -- split; [discriminate |]. intros (c' & [= <-] & H). lra.
        -- split; [discriminate |]. intros (c' & [= <-] & H1 & H2).
           exfalso. apply (Qlt_not_le (Qabs c) 0.3); [| exact A].
           apply Qabs_Qlt_condition. change (- 0.3)%Q with (-0.3)%Q. lra.
        -- split; [| reflexivity]. intros _. right. exists c. split; [reflexivity |].
           destruct (Qlt_le_dec (-0.3) c) as [L | L]; [right | now left].
           destruct (Qlt_le_dec c 0.3) as [L' | L']; [| lra].
           exfalso. apply (Qlt_not_le (Qabs c) 0.3); [| exact A].
           apply Qabs_Qlt_condition. change (- 0.3)%Q with (-0.3)%Q. lra.
  - split; [| split].
    + split; [discriminate | intros (c & F & _); discriminate].
    + split; [discriminate | intros (c & F & _); discriminate].
    + split; [now left | reflexivity].
Qed.

End Sleep.

Lemma sleep_quality_report_witness :
  exists report,
    _analyze_sleep_quality Inputs.borderline_corrcoef Inputs.rated_nights = Ok (Some report)
    /\ (exists qualities,
           NoDup qualities
           /\ (forall quality,
                  In quality qualities
                  <-> In quality (Spec.recorded_qualities Inputs.rated_nights))
           /\ correlation report
              = Inputs.borderline_corrcoef
                  qualities (map (Spec.quality_mean Inputs.rated_nights) qualities))
    /\ (sleep_insight report = "Better sleep quality correlates with more positive dreams"
        <-> exists c, correlation report = Num c /\ (0.3 < c)%Q)
    /\ (sleep_insight report
        = "No clear correlation between sleep quality and dream sentiment"
        <-> exists c, correlation report = Num c /\ (-0.3 < c)%Q /\ (c < 0.3)%Q)
    /\ (sleep_insight report
        = "Paradoxically, lower sleep quality shows more positive dreams"
        <-> correlation report = NaN
            \/ exists c, correlation report = Num c /\ ((c <= -0.3)%Q \/ (c == 0.3)%Q)).
Proof.
  eexists. split; [vm_compute; reflexivity |].
  apply (sleep_quality_report Inputs.borderline_corrcoef Inputs.rated_nights).
  vm_compute. reflexivity.
Defined.

End SleepProperties.

(** * The emotion pairs *)

Module EmotionFacts.
Import Py Models Predictor PyFacts AssocFacts OrderFacts.
Local Open Scope py_scope.

(** The stable descending sort puts first the first item of greatest
    score and sorts the others after it. *)
Lemma sorted_desc_strongest (items : list (string * Q)) :
  sorted_by_value_desc items
  = match Spec.strongest items with
    | None => []
    | Some (m, others) => m :: sorted_by_value_desc others
    end.
Proof.
  induction items as [| x rest IH]; [reflexivity |].
  cbn [sorted_by_value_desc fold_right Spec.strongest].
  fold (sorted_by_value_desc rest). rewrite IH.
  destruct (Spec.strongest rest) as [[m others] |]; [| reflexivity].
  cbn [insert_by_value_desc].
  destruct (gtb (snd m) (snd x)); [reflexivity |].
  now rewrite IH.
Qed.

(** The strongest item is an item no other item exceeds; the others are
    the remaining items. *)
Lemma strongest_greatest (items : list (string * Q)) (m : string * Q)
      (others : list (string * Q)) :
  Spec.strongest items = Some (m, others) ->
  Permutation items (m :: others)
  /\ forall x, In x items -> (snd x <= snd m)%Q.
Proof.
  revert m others. induction items as [| x rest IH]; intros m others; [discriminate |].
  cbn [Spec.strongest].
  destruct (Spec.strongest rest) as [[m' others'] |] eqn:E.
  - destruct (IH m' others' eq_refl) as [Hperm Hmax].
    destruct (gtb (snd m') (snd x)) eqn:G; intros [= <- <-].
    + apply gtb_gt in G. split.
      * rewrite Hperm. apply perm_swap.
      * intros y [<- | Hy]; [now apply Qlt_le_weak | now apply Hmax].
    + apply gtb_le in G. split; [reflexivity |].
      intros y [<- | Hy]; [apply Qle_refl |].
      eapply Qle_trans; [apply Hmax, Hy | exact G].
  - intros [= <- <-]. destruct rest; [| simpl in E; destruct (Spec.strongest rest) as [[? ?] |];
                                         [destruct (gtb _ _) |]; discriminate].
    split; [reflexivity |]. intros y [<- | []]. apply Qle_refl.
Qed.

(** What one entry adds to the list of pairs. *)
Lemma top_emotions_pair (emotions : dict Q) (emotion_pairs : list (string * string)) :
  match firstn 2 (sorted_by_value_desc emotions) with
  | [first; second] =>
      if gtb (snd second) 0.1
      then emotion_pairs ++ [sorted_pair (fst first) (fst second)]
      else emotion_pairs
  | _ => emotion_pairs
  end
  = emotion_pairs ++ match Spec.top_pair emotions with
                     | Some top => [top]
                     | None => []
                     end.
Proof.
  unfold Spec.top_pair. rewrite sorted_desc_strongest.
  destruct (Spec.strongest emotions) as [[first others] |];
    [| simpl; now rewrite app_nil_r].
  rewrite sorted_desc_strongest.
  destruct (Spec.strongest others) as [[second rest] |];
    [| simpl; now rewrite app_nil_r].
  cbn [firstn].
  destruct (gtb (snd second) 0.1); [reflexivity | now rewrite app_nil_r].
Qed.

Lemma emotion_pairs_loop (entries : list DreamEntry) (acc : list (string * string)) :
  fold_left
    (fun (emotion_pairs : list (string * string)) entry =>
       match emotions entry with
       | Some emotions =>
           let top_emotions := firstn 2 (sorted_by_value_desc emotions) in
           match top_emotions with
           | [first; second] =>
               if gtb (snd second) 0.1
               then emotion_pairs ++ [sorted_pair (fst first) (fst second)]
               else emotion_pairs
           | _ => emotion_pairs
           end
       | None => emotion_pairs
       end)
    entries acc
  = acc ++ Spec.emotion_pairs entries.
Proof.
  revert acc. induction entries as [| e entries IH]; intros acc.
  - simpl. now rewrite app_nil_r.
  - cbn [fold_left]. unfold Spec.emotion_pairs. cbn [flat_map].
    fold (Spec.emotion_pairs entries).
    destruct (emotions e) as [d |].
    + cbv zeta. rewrite top_emotions_pair, IH. now rewrite <- app_assoc.
    + apply IH.
Qed.

(** [_analyze_emotion_correlations], step by step. *)
Lemma emotion_correlations_steps (entries : list DreamEntry) :
  _analyze_emotion_correlations entries
  = match Spec.emotion_pairs entries with
    | [] => None
    | _ =>
        let most_common :=
          firstn 3 (sorted (fun item : (string * string) * nat => (- Z.of_nat (snd item))%Z)
                           (assoc_counter pair_eqb (Spec.emotion_pairs entries))) in
        Some {| common_pairs :=
                  map (fun item : (string * string) * nat =>
                         {| pair_emotions := [fst (fst item); snd (fst item)];
                            frequency := snd item |})
                      most_common;
                pairs_insight :=
                  match most_common with
                  | first :: _ =>
                      (fst (fst first) ++ " and " ++ snd (fst first)
                       ++ " often appear together")%string
                  | [] => "No clear emotion patterns found"
                  end |}
    end.
Proof.
  unfold _analyze_emotion_correlations.
  pose proof (emotion_pairs_loop entries []) as Hloop. cbn [app] in Hloop.
  cbv zeta in Hloop |- *. rewrite Hloop. reflexivity.
Qed.

(** A top pair is in alphabetical order. *)
Lemma sorted_pair_ordered (a b : string) :
  String.ltb (snd (sorted_pair a b)) (fst (sorted_pair a b)) = false.
Proof.
  unfold sorted_pair. destruct (String.ltb b a) eqn:E; cbn [fst snd]; [| exact E].
  unfold String.ltb in *. rewrite String.compare_antisym.
  destruct (String.compare b a); [discriminate | reflexivity | discriminate].
Qed.

Lemma top_pair_ordered (emotions : dict Q) (top : string * string) :
  Spec.top_pair emotions = Some top -> String.ltb (snd top) (fst top) = false.
Proof.
  unfold Spec.top_pair.
  destruct (Spec.strongest emotions) as [[first others] |]; [| discriminate].
  destruct (Spec.strongest others) as [[second rest] |]; [| discriminate].
  destruct (gtb (snd second) 0.1); [| discriminate].
  intros [= <-]. apply sorted_pair_ordered.
Qed.

Lemma emotion_pairs_ordered (entries : list DreamEntry) (top : string * string) :
  In top (Spec.emotion_pairs entries) -> String.ltb (snd top) (fst top) = false.
Proof.
  unfold Spec.emotion_pairs. rewrite in_flat_map. intros (e & _ & Hin).
  destruct (emotions e) as [d |]; [| contradiction].
  destruct (Spec.top_pair d) as [p |] eqn:E; [| contradiction].
  destruct Hin as [<- | []]. now apply (top_pair_ordered d).
Qed.

Lemma filter_positive {A : Type} (f : A -> bool) (x : A) (xs : list A) :
  In x xs -> f x = true -> 1 <= List.length (filter f xs).
Proof.
  intros Hin Hf. induction xs as [| y xs IH]; [contradiction |].
  simpl. destruct Hin as [-> | Hin].
  - rewrite Hf. simpl. lia.
  - destruct (f y); simpl; [lia | now apply IH].
Qed.

Lemma NoDup_map_injective {A B : Type} (f : A -> B) (l : list A) :
  (forall x y, f x = f y -> x = y) -> NoDup l -> NoDup (map f l).
Proof.
  intros Hinj. induction 1 as [| x l Hx _ IH]; simpl; constructor; [| exact IH].
  intros Hin. apply in_map_iff in Hin. destruct Hin as (y & Hy & Hin).
  apply Hinj in Hy. now subst y.
Qed.

Lemma StronglySorted_weaken {A : Type} (R S : A -> A -> Prop) (l : list A) :
  (forall a b, R a b -> S a b) -> StronglySorted R l -> StronglySorted S l.
Proof.
  intros Himp. induction 1 as [| x l _ IH Hall]; constructor; [exact IH |].
  eapply Forall_impl; [| exact Hall]. intros b. apply Himp.
Qed.

End EmotionFacts.

Module EmotionProperties.
Import Py Models Predictor PyFacts AssocFacts ExtractionFacts OrderFacts EmotionFacts.
Local Open Scope py_scope.

(** X30 ([_analyze_emotion_correlations]): an entry counts when its stored
    emotions have a second-strongest score above 0.1, with the pair of its
    two strongest emotions in alphabetical order.  The analysis returns
    None exactly when no entry counts.  Otherwise it lists one to three
    different pairs, each in alphabetical order with the number of entries
    that have it, from the most frequent down, and no pair that is left out
    is more frequent than a listed one. *)
Theorem emotion_correlations_report (entries : list DreamEntry) :
  (Spec.emotion_pairs entries = [] -> _analyze_emotion_correlations entries = None)
  /\ (Spec.emotion_pairs entries <> [] ->
      exists report,
        _analyze_emotion_correlations entries = Some report
        /\ 1 <= List.length (common_pairs report) <= 3
        /\ NoDup (map pair_emotions (common_pairs report))
        /\ Forall (fun listed =>
                     exists a b,
                       pair_emotions listed = [a; b]
                       /\ String.ltb b a = false
                       /\ frequency listed = Spec.pair_count entries (a, b)
                       /\ 1 <= frequency listed)
                  (common_pairs report)
        /\ StronglySorted (fun listed later => frequency later <= frequency listed)
                          (common_pairs report)
        /\ (forall listed a b,
               In listed (common_pairs report) ->
               ~ In [a; b] (map pair_emotions (common_pairs report)) ->
               Spec.pair_count entries (a, b) <= frequency listed)).
Proof.
  rewrite emotion_correlations_steps.
  split; [intros ->; reflexivity |].
  intros Hne.
  set (scrutinee := Spec.emotion_pairs entries) at 1.
  assert (Hscr : scrutinee = Spec.emotion_pairs entries) by reflexivity.
  clearbody scrutinee. destruct scrutinee as [| p0 ps]; [congruence |].
  eexists. split; [reflexivity |]. cbv zeta. cbn [common_pairs].
  set (pairs := Spec.emotion_pairs entries) in *.
  set (key := fun item : (string * string) * nat => (- Z.of_nat (snd item))%Z).
  set (record := fun item : (string * string) * nat =>
                   {| pair_emotions := [fst (fst item); snd (fst item)];
                      frequency := snd item |}).
  destruct (assoc_counter_items pair_eqb pair_eqb_eq pairs) as [Hnd Hitems].
  pose proof (sorted_perm key (assoc_counter pair_eqb pairs)) as Hperm.
  pose proof (sorted_in_order key (assoc_counter pair_eqb pairs)) as Hsorted.
  assert (Hitem : forall t n, In (t, n) (sorted key (assoc_counter pair_eqb pairs)) ->
                              In t pairs /\ n = Spec.pair_count entries t).
  { intros t n Hin. apply Hitems. eapply Permutation_in; [exact Hperm | exact Hin]. }
  assert (Hnd' : NoDup (map fst (sorted key (assoc_counter pair_eqb pairs)))).
  { eapply Permutation_NoDup; [| exact Hnd].
    apply Permutation_map. symmetry. exact Hperm. }
  assert (Hlen : 1 <= List.length (sorted key (assoc_counter pair_eqb pairs))).
  { rewrite (Permutation_length Hperm).
    assert (Hin : In (p0, Spec.pair_count entries p0) (assoc_counter pair_eqb pairs)).
    { apply Hitems. split; [| reflexivity]. rewrite <- Hscr. now left. }
    destruct (assoc_counter pair_eqb pairs); [contradiction | simpl; lia]. }
  assert (Hrec : map pair_emotions
                     (map record (firstn 3 (sorted key (assoc_counter pair_eqb pairs))))
                 = map (fun t : string * string => [fst t; snd t])
                       (firstn 3 (map fst (sorted key (assoc_counter pair_eqb pairs))))).
  { rewrite firstn_map, !map_map. reflexivity. }
  split; [| split; [| split; [| split]]].
  - rewrite length_map. split; [| apply firstn_le_length].
    rewrite length_firstn. lia.
  - rewrite Hrec. apply NoDup_map_injective; [| now apply NoDup_firstn].
    intros [a b] [a' b']. cbn [fst snd]. congruence.
  - apply Forall_forall. intros listed Hin. apply in_map_iff in Hin.
    destruct Hin as ([[a b] n] & <- & Hin). apply in_firstn in Hin.
    destruct (Hitem _ _ Hin) as [Hp Hn].
    exists a, b. cbn [record pair_emotions frequency fst snd].
    split; [reflexivity |]. split; [apply (emotion_pairs_ordered entries (a, b) Hp) |].
    split; [exact Hn |]. rewrite Hn. unfold Spec.pair_count.
    apply (filter_positive _ (a, b)); [exact Hp | now apply pair_eqb_eq].
  - apply StronglySorted_map, StronglySorted_firstn.
    eapply StronglySorted_weaken; [| exact Hsorted].
    intros x y Hxy. unfold key in Hxy. cbn [record frequency]. lia.
  - intros listed a b Hl Hno. apply in_map_iff in Hl.
    destruct Hl as ([t n] & <- & Hl). cbn [record frequency snd].
    destruct (in_dec (key_dec pair_eqb pair_eqb_eq) (a, b) pairs) as [Hin | Hout].
    + assert (Hoin : In ((a, b), Spec.pair_count entries (a, b))
                        (sorted key (assoc_counter pair_eqb pairs))).
      { eapply Permutation_in; [symmetry; exact Hperm |]. apply Hitems. tauto. }
      rewrite <- (firstn_skipn 3 (sorted key (assoc_counter pair_eqb pairs))) in Hoin.
      apply in_app_or in Hoin. destruct Hoin as [Hoin | Hoin].
      * exfalso. apply Hno. apply in_map_iff.
        exists (record ((a, b), Spec.pair_count entries (a, b))).
        split; [reflexivity | now apply in_map].
      * pose proof (StronglySorted_firstn_skipn _ 3 _ Hsorted _ _ Hl Hoin) as Hle.
        unfold key in Hle. cbn [snd] in Hle. lia.
    + assert (Hzero : Spec.pair_count entries (a, b) = 0).
      { unfold Spec.pair_count. fold pairs.
        destruct (filter (pair_eqb (a, b)) pairs) as [| x xs] eqn:F; [reflexivity |].
        exfalso. apply Hout.
        assert (Hx : In x (filter (pair_eqb (a, b)) pairs)) by (rewrite F; now left).
        apply filter_In in Hx. destruct Hx as [Hx Heq].
        apply pair_eqb_eq in Heq. now subst x. }
      lia.
Qed.

End EmotionProperties.
